(** * The Ergast collector: a shallow embedding and its properties

    Source: [src/data/collectors/ergast_collector.py], class [ErgastCollector].

    The collector issues one HTTP GET per facade call through a [requests]
    session whose adapter carries a [urllib3] retry policy, sleeps for the
    rate-limit delay, and flattens the nested JSON answer into a list of flat
    records (Python dicts) which it finally hands to [pandas.DataFrame].

    Modelling conventions.
    - A parsed JSON body is a tree ([Json]); Python dicts are association
      lists in insertion order.  JSON numbers are integers (the Ergast API
      encodes every quantity as a string).
    - A Python string is the [string] of its UTF-8 bytes.  The classification
      of characters ([str.isdigit], the digits and the whitespace that [int]
      and [float] read, the characters that [repr] escapes) is that of
      Unicode 14.0, the version of CPython 3.11.
    - A Python call that may raise returns a [Result]; exceptions are the
      classes the collector can meet.
    - Calls with effects (network, sleeping, logging, mutation of a caller's
      dict) run in a state-and-exception monad over a [World].
    - [pandas.to_datetime] is not part of the repository: the extractors are
      parametric in it.  The records are the dicts handed to
      [pandas.DataFrame]; the frame itself is not modelled. *)

From Stdlib Require Import ZArith QArith List String Ascii Lia Bool.
From Stdlib Require Import DecimalString DecimalZ DecimalN DecimalFacts.
From stdpp Require Import base option list sorting gmap strings.

Import ListNotations.
Set Warnings "-register-all".
Local Open Scope string_scope.
Local Open Scope Z_scope.

(** ** Python values *)

Module Py.

(** A parsed JSON document, as [response.json()] returns it. *)
Inductive Json : Type :=
| JNull
| JBool (b : bool)
| JInt (z : Z)
| JStr (s : string)
| JArr (items : list Json)
| JObj (fields : list (string * Json)).

(** The exception classes that the collector can raise or let through. *)
Inductive RequestError : Type :=
| HTTPError (status : Z)      (* raise_for_status on a 4xx/5xx answer *)
| RetryError                  (* retries exhausted on a listed status *)
| ConnectionError             (* retries exhausted on a network failure *)
| JSONDecodeError.            (* the body of the answer is not JSON *)

Inductive PyExc : Type :=
| KeyError (key : string)
| TypeError
| ValueError
| AttributeError
| RequestException (e : RequestError).

Inductive Result (A : Type) : Type :=
| Ok (a : A)
| Raise (e : PyExc).
Arguments Ok {A} a.
Arguments Raise {A} e.

Definition rbind {A B} (r : Result A) (k : A -> Result B) : Result B :=
  match r with
  | Ok a => k a
  | Raise e => Raise e
  end.

Notation "'let*' x ':=' r 'in' k" := (rbind r (fun x => k))
  (at level 10, x name, r at level 100, k at level 200).

(** [for x in xs: ...] collecting one result per item, stopping at the first
    exception. *)
Fixpoint rmap {A B} (f : A -> Result B) (xs : list A) : Result (list B) :=
  match xs with
  | [] => Ok []
  | x :: xs' => let* y := f x in let* ys := rmap f xs' in Ok (y :: ys)
  end.

(** *** Dicts: association lists in insertion order *)

Section Dict.
Context {V : Type}.

Fixpoint dict_lookup (k : string) (d : list (string * V)) : option V :=
  match d with
  | [] => None
  | (k', v) :: d' => if String.eqb k k' then Some v else dict_lookup k d'
  end.

Definition dict_mem (k : string) (d : list (string * V)) : bool :=
  match dict_lookup k d with Some _ => true | None => false end.

(** [d[k] = v]: an existing key keeps its place, a new one goes last. *)
Fixpoint dict_set (k : string) (v : V) (d : list (string * V)) : list (string * V) :=
  match d with
  | [] => [(k, v)]
  | (k', v') :: d' =>
      if String.eqb k k' then (k, v) :: d' else (k', v') :: dict_set k v d'
  end.

(** [d.update(e)] and the dict display [{k1: v1, ...}]. *)
Definition dict_update (d e : list (string * V)) : list (string * V) :=
  fold_left (fun acc kv => dict_set (fst kv) (snd kv) acc) e d.

Definition dict_of (e : list (string * V)) : list (string * V) :=
  dict_update [] e.

(** [d.setdefault(k, v)] *)
Definition dict_setdefault (k : string) (v : V) (d : list (string * V)) : list (string * V) :=
  if dict_mem k d then d else dict_set k v d.

Fixpoint dict_remove (k : string) (d : list (string * V)) : list (string * V) :=
  match d with
  | [] => []
  | (k', v') :: d' =>
      if String.eqb k k' then dict_remove k d' else (k', v') :: dict_remove k d'
  end.

End Dict.

(** *** Characters and strings *)

(** A Python string is the [string] of its UTF-8 bytes; its characters are
    the code points that the bytes encode. *)

Definition code (c : ascii) : N := N_of_ascii c.

Definition in_ranges (cp : N) (ranges : list (N * N)) : bool :=
  existsb (fun r => (fst r <=? cp) && (cp <=? snd r))%N ranges.

(** The decimal digits of Unicode 14.0, the version of CPython 3.11 (the
    characters of [str.isdecimal]): runs of ten, each from the digit zero to
    the digit nine of a script. *)
Definition decimal_ranges : list (N * N) :=
  [(0x30, 0x39); (0x660, 0x669); (0x6F0, 0x6F9); (0x7C0, 0x7C9); (0x966, 0x96F);
   (0x9E6, 0x9EF); (0xA66, 0xA6F); (0xAE6, 0xAEF); (0xB66, 0xB6F); (0xBE6, 0xBEF);
   (0xC66, 0xC6F); (0xCE6, 0xCEF); (0xD66, 0xD6F); (0xDE6, 0xDEF); (0xE50, 0xE59);
   (0xED0, 0xED9); (0xF20, 0xF29); (0x1040, 0x1049); (0x1090, 0x1099); (0x17E0, 0x17E9);
   (0x1810, 0x1819); (0x1946, 0x194F); (0x19D0, 0x19D9); (0x1A80, 0x1A89);
   (0x1A90, 0x1A99); (0x1B50, 0x1B59); (0x1BB0, 0x1BB9); (0x1C40, 0x1C49);
   (0x1C50, 0x1C59); (0xA620, 0xA629); (0xA8D0, 0xA8D9); (0xA900, 0xA909);
   (0xA9D0, 0xA9D9); (0xA9F0, 0xA9F9); (0xAA50, 0xAA59); (0xABF0, 0xABF9);
   (0xFF10, 0xFF19); (0x104A0, 0x104A9); (0x10D30, 0x10D39); (0x11066, 0x1106F);
   (0x110F0, 0x110F9); (0x11136, 0x1113F); (0x111D0, 0x111D9); (0x112F0, 0x112F9);
   (0x11450, 0x11459); (0x114D0, 0x114D9); (0x11650, 0x11659); (0x116C0, 0x116C9);
   (0x11730, 0x11739); (0x118E0, 0x118E9); (0x11950, 0x11959); (0x11C50, 0x11C59);
   (0x11D50, 0x11D59); (0x11DA0, 0x11DA9); (0x16A60, 0x16A69); (0x16AC0, 0x16AC9);
   (0x16B50, 0x16B59); (0x1D7CE, 0x1D7FF); (0x1E140, 0x1E149); (0x1E2F0, 0x1E2F9);
   (0x1E950, 0x1E959); (0x1FBF0, 0x1FBF9)]%N.

(** The digits that are no decimal digits: superscripts, subscripts, circled
    digits and the like.  [str.isdigit] holds of them, and [int] does not
    read them. *)
Definition other_digit_ranges : list (N * N) :=
  [(0xB2, 0xB3); (0xB9, 0xB9); (0x1369, 0x1371); (0x19DA, 0x19DA); (0x2070, 0x2070);
   (0x2074, 0x2079); (0x2080, 0x2089); (0x2460, 0x2468); (0x2474, 0x247C);
   (0x2488, 0x2490); (0x24EA, 0x24EA); (0x24F5, 0x24FD); (0x24FF, 0x24FF);
   (0x2776, 0x277E); (0x2780, 0x2788); (0x278A, 0x2792); (0x10A40, 0x10A43);
   (0x10E60, 0x10E68); (0x11052, 0x1105A); (0x1F100, 0x1F10A)]%N.

(** The whitespace of [str.isspace]. *)
Definition space_ranges : list (N * N) :=
  [(0x9, 0xD); (0x1C, 0x20); (0x85, 0x85); (0xA0, 0xA0); (0x1680, 0x1680);
   (0x2000, 0x200A); (0x2028, 0x2029); (0x202F, 0x202F); (0x205F, 0x205F);
   (0x3000, 0x3000)]%N.

(** The characters above 127 that [str.isprintable] rejects and [repr]
    escapes: controls, separators, surrogates, unassigned code points. *)
Definition unprintable_ranges : list (N * N) :=
  [(0x80, 0xA0); (0xAD, 0xAD); (0x378, 0x379); (0x380, 0x383); (0x38B, 0x38B);
   (0x38D, 0x38D); (0x3A2, 0x3A2); (0x530, 0x530); (0x557, 0x558); (0x58B, 0x58C);
   (0x590, 0x590); (0x5C8, 0x5CF); (0x5EB, 0x5EE); (0x5F5, 0x605); (0x61C, 0x61C);
   (0x6DD, 0x6DD); (0x70E, 0x70F); (0x74B, 0x74C); (0x7B2, 0x7BF); (0x7FB, 0x7FC);
   (0x82E, 0x82F); (0x83F, 0x83F); (0x85C, 0x85D); (0x85F, 0x85F); (0x86B, 0x86F);
   (0x88F, 0x897); (0x8E2, 0x8E2); (0x984, 0x984); (0x98D, 0x98E); (0x991, 0x992);
   (0x9A9, 0x9A9); (0x9B1, 0x9B1); (0x9B3, 0x9B5); (0x9BA, 0x9BB); (0x9C5, 0x9C6);
   (0x9C9, 0x9CA); (0x9CF, 0x9D6); (0x9D8, 0x9DB); (0x9DE, 0x9DE); (0x9E4, 0x9E5);
   (0x9FF, 0xA00); (0xA04, 0xA04); (0xA0B, 0xA0E); (0xA11, 0xA12); (0xA29, 0xA29);
   (0xA31, 0xA31); (0xA34, 0xA34); (0xA37, 0xA37); (0xA3A, 0xA3B); (0xA3D, 0xA3D);
   (0xA43, 0xA46); (0xA49, 0xA4A); (0xA4E, 0xA50); (0xA52, 0xA58); (0xA5D, 0xA5D);
   (0xA5F, 0xA65); (0xA77, 0xA80); (0xA84, 0xA84); (0xA8E, 0xA8E); (0xA92, 0xA92);
   (0xAA9, 0xAA9); (0xAB1, 0xAB1); (0xAB4, 0xAB4); (0xABA, 0xABB); (0xAC6, 0xAC6);
   (0xACA, 0xACA); (0xACE, 0xACF); (0xAD1, 0xADF); (0xAE4, 0xAE5); (0xAF2, 0xAF8);
   (0xB00, 0xB00); (0xB04, 0xB04); (0xB0D, 0xB0E); (0xB11, 0xB12); (0xB29, 0xB29);
   (0xB31, 0xB31); (0xB34, 0xB34); (0xB3A, 0xB3B); (0xB45, 0xB46); (0xB49, 0xB4A);
   (0xB4E, 0xB54); (0xB58, 0xB5B); (0xB5E, 0xB5E); (0xB64, 0xB65); (0xB78, 0xB81);
   (0xB84, 0xB84); (0xB8B, 0xB8D); (0xB91, 0xB91); (0xB96, 0xB98); (0xB9B, 0xB9B);
   (0xB9D, 0xB9D); (0xBA0, 0xBA2); (0xBA5, 0xBA7); (0xBAB, 0xBAD); (0xBBA, 0xBBD);
   (0xBC3, 0xBC5); (0xBC9, 0xBC9); (0xBCE, 0xBCF); (0xBD1, 0xBD6); (0xBD8, 0xBE5);
   (0xBFB, 0xBFF); (0xC0D, 0xC0D); (0xC11, 0xC11); (0xC29, 0xC29); (0xC3A, 0xC3B);
   (0xC45, 0xC45); (0xC49, 0xC49); (0xC4E, 0xC54); (0xC57, 0xC57); (0xC5B, 0xC5C);
   (0xC5E, 0xC5F); (0xC64, 0xC65); (0xC70, 0xC76); (0xC8D, 0xC8D); (0xC91, 0xC91);
   (0xCA9, 0xCA9); (0xCB4, 0xCB4); (0xCBA, 0xCBB); (0xCC5, 0xCC5); (0xCC9, 0xCC9);
   (0xCCE, 0xCD4); (0xCD7, 0xCDC); (0xCDF, 0xCDF); (0xCE4, 0xCE5); (0xCF0, 0xCF0);
   (0xCF3, 0xCFF); (0xD0D, 0xD0D); (0xD11, 0xD11); (0xD45, 0xD45); (0xD49, 0xD49);
   (0xD50, 0xD53); (0xD64, 0xD65); (0xD80, 0xD80); (0xD84, 0xD84); (0xD97, 0xD99);
   (0xDB2, 0xDB2); (0xDBC, 0xDBC); (0xDBE, 0xDBF); (0xDC7, 0xDC9); (0xDCB, 0xDCE);
   (0xDD5, 0xDD5); (0xDD7, 0xDD7); (0xDE0, 0xDE5); (0xDF0, 0xDF1); (0xDF5, 0xE00);
   (0xE3B, 0xE3E); (0xE5C, 0xE80); (0xE83, 0xE83); (0xE85, 0xE85); (0xE8B, 0xE8B);
   (0xEA4, 0xEA4); (0xEA6, 0xEA6); (0xEBE, 0xEBF); (0xEC5, 0xEC5); (0xEC7, 0xEC7);
   (0xECE, 0xECF); (0xEDA, 0xEDB); (0xEE0, 0xEFF); (0xF48, 0xF48); (0xF6D, 0xF70);
   (0xF98, 0xF98); (0xFBD, 0xFBD); (0xFCD, 0xFCD); (0xFDB, 0xFFF); (0x10C6, 0x10C6);
   (0x10C8, 0x10CC); (0x10CE, 0x10CF); (0x1249, 0x1249); (0x124E, 0x124F);
   (0x1257, 0x1257); (0x1259, 0x1259); (0x125E, 0x125F); (0x1289, 0x1289);
   (0x128E, 0x128F); (0x12B1, 0x12B1); (0x12B6, 0x12B7); (0x12BF, 0x12BF);
   (0x12C1, 0x12C1); (0x12C6, 0x12C7); (0x12D7, 0x12D7); (0x1311, 0x1311);
   (0x1316, 0x1317); (0x135B, 0x135C); (0x137D, 0x137F); (0x139A, 0x139F);
   (0x13F6, 0x13F7); (0x13FE, 0x13FF); (0x1680, 0x1680); (0x169D, 0x169F);
   (0x16F9, 0x16FF); (0x1716, 0x171E); (0x1737, 0x173F); (0x1754, 0x175F);
   (0x176D, 0x176D); (0x1771, 0x1771); (0x1774, 0x177F); (0x17DE, 0x17DF);
   (0x17EA, 0x17EF); (0x17FA, 0x17FF); (0x180E, 0x180E); (0x181A, 0x181F);
   (0x1879, 0x187F); (0x18AB, 0x18AF); (0x18F6, 0x18FF); (0x191F, 0x191F);
   (0x192C, 0x192F); (0x193C, 0x193F); (0x1941, 0x1943); (0x196E, 0x196F);
   (0x1975, 0x197F); (0x19AC, 0x19AF); (0x19CA, 0x19CF); (0x19DB, 0x19DD);
   (0x1A1C, 0x1A1D); (0x1A5F, 0x1A5F); (0x1A7D, 0x1A7E); (0x1A8A, 0x1A8F);
   (0x1A9A, 0x1A9F); (0x1AAE, 0x1AAF); (0x1ACF, 0x1AFF); (0x1B4D, 0x1B4F);
   (0x1B7F, 0x1B7F); (0x1BF4, 0x1BFB); (0x1C38, 0x1C3A); (0x1C4A, 0x1C4C);
   (0x1C89, 0x1C8F); (0x1CBB, 0x1CBC); (0x1CC8, 0x1CCF); (0x1CFB, 0x1CFF);
   (0x1F16, 0x1F17); (0x1F1E, 0x1F1F); (0x1F46, 0x1F47); (0x1F4E, 0x1F4F);
   (0x1F58, 0x1F58); (0x1F5A, 0x1F5A); (0x1F5C, 0x1F5C); (0x1F5E, 0x1F5E);
   (0x1F7E, 0x1F7F); (0x1FB5, 0x1FB5); (0x1FC5, 0x1FC5); (0x1FD4, 0x1FD5);
   (0x1FDC, 0x1FDC); (0x1FF0, 0x1FF1); (0x1FF5, 0x1FF5); (0x1FFF, 0x200F);
   (0x2028, 0x202F); (0x205F, 0x206F); (0x2072, 0x2073); (0x208F, 0x208F);
   (0x209D, 0x209F); (0x20C1, 0x20CF); (0x20F1, 0x20FF); (0x218C, 0x218F);
   (0x2427, 0x243F); (0x244B, 0x245F); (0x2B74, 0x2B75); (0x2B96, 0x2B96);
   (0x2CF4, 0x2CF8); (0x2D26, 0x2D26); (0x2D28, 0x2D2C); (0x2D2E, 0x2D2F);
   (0x2D68, 0x2D6E); (0x2D71, 0x2D7E); (0x2D97, 0x2D9F); (0x2DA7, 0x2DA7);
   (0x2DAF, 0x2DAF); (0x2DB7, 0x2DB7); (0x2DBF, 0x2DBF); (0x2DC7, 0x2DC7);
   (0x2DCF, 0x2DCF); (0x2DD7, 0x2DD7); (0x2DDF, 0x2DDF); (0x2E5E, 0x2E7F);
   (0x2E9A, 0x2E9A); (0x2EF4, 0x2EFF); (0x2FD6, 0x2FEF); (0x2FFC, 0x3000);
   (0x3040, 0x3040); (0x3097, 0x3098); (0x3100, 0x3104); (0x3130, 0x3130);
   (0x318F, 0x318F); (0x31E4, 0x31EF); (0x321F, 0x321F); (0xA48D, 0xA48F);
   (0xA4C7, 0xA4CF); (0xA62C, 0xA63F); (0xA6F8, 0xA6FF); (0xA7CB, 0xA7CF);
   (0xA7D2, 0xA7D2); (0xA7D4, 0xA7D4); (0xA7DA, 0xA7F1); (0xA82D, 0xA82F);
   (0xA83A, 0xA83F); (0xA878, 0xA87F); (0xA8C6, 0xA8CD); (0xA8DA, 0xA8DF);
   (0xA954, 0xA95E); (0xA97D, 0xA97F); (0xA9CE, 0xA9CE); (0xA9DA, 0xA9DD);
   (0xA9FF, 0xA9FF); (0xAA37, 0xAA3F); (0xAA4E, 0xAA4F); (0xAA5A, 0xAA5B);
   (0xAAC3, 0xAADA); (0xAAF7, 0xAB00); (0xAB07, 0xAB08); (0xAB0F, 0xAB10);
   (0xAB17, 0xAB1F); (0xAB27, 0xAB27); (0xAB2F, 0xAB2F); (0xAB6C, 0xAB6F);
   (0xABEE, 0xABEF); (0xABFA, 0xABFF); (0xD7A4, 0xD7AF); (0xD7C7, 0xD7CA);
   (0xD7FC, 0xF8FF); (0xFA6E, 0xFA6F); (0xFADA, 0xFAFF); (0xFB07, 0xFB12);
   (0xFB18, 0xFB1C); (0xFB37, 0xFB37); (0xFB3D, 0xFB3D); (0xFB3F, 0xFB3F);
   (0xFB42, 0xFB42); (0xFB45, 0xFB45); (0xFBC3, 0xFBD2); (0xFD90, 0xFD91);
   (0xFDC8, 0xFDCE); (0xFDD0, 0xFDEF); (0xFE1A, 0xFE1F); (0xFE53, 0xFE53);
   (0xFE67, 0xFE67); (0xFE6C, 0xFE6F); (0xFE75, 0xFE75); (0xFEFD, 0xFF00);
   (0xFFBF, 0xFFC1); (0xFFC8, 0xFFC9); (0xFFD0, 0xFFD1); (0xFFD8, 0xFFD9);
   (0xFFDD, 0xFFDF); (0xFFE7, 0xFFE7); (0xFFEF, 0xFFFB); (0xFFFE, 0xFFFF);
   (0x1000C, 0x1000C); (0x10027, 0x10027); (0x1003B, 0x1003B); (0x1003E, 0x1003E);
   (0x1004E, 0x1004F); (0x1005E, 0x1007F); (0x100FB, 0x100FF); (0x10103, 0x10106);
   (0x10134, 0x10136); (0x1018F, 0x1018F); (0x1019D, 0x1019F); (0x101A1, 0x101CF);
   (0x101FE, 0x1027F); (0x1029D, 0x1029F); (0x102D1, 0x102DF); (0x102FC, 0x102FF);
   (0x10324, 0x1032C); (0x1034B, 0x1034F); (0x1037B, 0x1037F); (0x1039E, 0x1039E);
   (0x103C4, 0x103C7); (0x103D6, 0x103FF); (0x1049E, 0x1049F); (0x104AA, 0x104AF);
   (0x104D4, 0x104D7); (0x104FC, 0x104FF); (0x10528, 0x1052F); (0x10564, 0x1056E);
   (0x1057B, 0x1057B); (0x1058B, 0x1058B); (0x10593, 0x10593); (0x10596, 0x10596);
   (0x105A2, 0x105A2); (0x105B2, 0x105B2); (0x105BA, 0x105BA); (0x105BD, 0x105FF);
   (0x10737, 0x1073F); (0x10756, 0x1075F); (0x10768, 0x1077F); (0x10786, 0x10786);
   (0x107B1, 0x107B1); (0x107BB, 0x107FF); (0x10806, 0x10807); (0x10809, 0x10809);
   (0x10836, 0x10836); (0x10839, 0x1083B); (0x1083D, 0x1083E); (0x10856, 0x10856);
   (0x1089F, 0x108A6); (0x108B0, 0x108DF); (0x108F3, 0x108F3); (0x108F6, 0x108FA);
   (0x1091C, 0x1091E); (0x1093A, 0x1093E); (0x10940, 0x1097F); (0x109B8, 0x109BB);
   (0x109D0, 0x109D1); (0x10A04, 0x10A04); (0x10A07, 0x10A0B); (0x10A14, 0x10A14);
   (0x10A18, 0x10A18); (0x10A36, 0x10A37); (0x10A3B, 0x10A3E); (0x10A49, 0x10A4F);
   (0x10A59, 0x10A5F); (0x10AA0, 0x10ABF); (0x10AE7, 0x10AEA); (0x10AF7, 0x10AFF);
   (0x10B36, 0x10B38); (0x10B56, 0x10B57); (0x10B73, 0x10B77); (0x10B92, 0x10B98);
   (0x10B9D, 0x10BA8); (0x10BB0, 0x10BFF); (0x10C49, 0x10C7F); (0x10CB3, 0x10CBF);
   (0x10CF3, 0x10CF9); (0x10D28, 0x10D2F); (0x10D3A, 0x10E5F); (0x10E7F, 0x10E7F);
   (0x10EAA, 0x10EAA); (0x10EAE, 0x10EAF); (0x10EB2, 0x10EFF); (0x10F28, 0x10F2F);
   (0x10F5A, 0x10F6F); (0x10F8A, 0x10FAF); (0x10FCC, 0x10FDF); (0x10FF7, 0x10FFF);
   (0x1104E, 0x11051); (0x11076, 0x1107E); (0x110BD, 0x110BD); (0x110C3, 0x110CF);
   (0x110E9, 0x110EF); (0x110FA, 0x110FF); (0x11135, 0x11135); (0x11148, 0x1114F);
   (0x11177, 0x1117F); (0x111E0, 0x111E0); (0x111F5, 0x111FF); (0x11212, 0x11212);
   (0x1123F, 0x1127F); (0x11287, 0x11287); (0x11289, 0x11289); (0x1128E, 0x1128E);
   (0x1129E, 0x1129E); (0x112AA, 0x112AF); (0x112EB, 0x112EF); (0x112FA, 0x112FF);
   (0x11304, 0x11304); (0x1130D, 0x1130E); (0x11311, 0x11312); (0x11329, 0x11329);
   (0x11331, 0x11331); (0x11334, 0x11334); (0x1133A, 0x1133A); (0x11345, 0x11346);
   (0x11349, 0x1134A); (0x1134E, 0x1134F); (0x11351, 0x11356); (0x11358, 0x1135C);
   (0x11364, 0x11365); (0x1136D, 0x1136F); (0x11375, 0x113FF); (0x1145C, 0x1145C);
   (0x11462, 0x1147F); (0x114C8, 0x114CF); (0x114DA, 0x1157F); (0x115B6, 0x115B7);
   (0x115DE, 0x115FF); (0x11645, 0x1164F); (0x1165A, 0x1165F); (0x1166D, 0x1167F);
   (0x116BA, 0x116BF); (0x116CA, 0x116FF); (0x1171B, 0x1171C); (0x1172C, 0x1172F);
   (0x11747, 0x117FF); (0x1183C, 0x1189F); (0x118F3, 0x118FE); (0x11907, 0x11908);
   (0x1190A, 0x1190B); (0x11914, 0x11914); (0x11917, 0x11917); (0x11936, 0x11936);
   (0x11939, 0x1193A); (0x11947, 0x1194F); (0x1195A, 0x1199F); (0x119A8, 0x119A9);
   (0x119D8, 0x119D9); (0x119E5, 0x119FF); (0x11A48, 0x11A4F); (0x11AA3, 0x11AAF);
   (0x11AF9, 0x11BFF); (0x11C09, 0x11C09); (0x11C37, 0x11C37); (0x11C46, 0x11C4F);
   (0x11C6D, 0x11C6F); (0x11C90, 0x11C91); (0x11CA8, 0x11CA8); (0x11CB7, 0x11CFF);
   (0x11D07, 0x11D07); (0x11D0A, 0x11D0A); (0x11D37, 0x11D39); (0x11D3B, 0x11D3B);
   (0x11D3E, 0x11D3E); (0x11D48, 0x11D4F); (0x11D5A, 0x11D5F); (0x11D66, 0x11D66);
   (0x11D69, 0x11D69); (0x11D8F, 0x11D8F); (0x11D92, 0x11D92); (0x11D99, 0x11D9F);
   (0x11DAA, 0x11EDF); (0x11EF9, 0x11FAF); (0x11FB1, 0x11FBF); (0x11FF2, 0x11FFE);
   (0x1239A, 0x123FF); (0x1246F, 0x1246F); (0x12475, 0x1247F); (0x12544, 0x12F8F);
   (0x12FF3, 0x12FFF); (0x1342F, 0x143FF); (0x14647, 0x167FF); (0x16A39, 0x16A3F);
   (0x16A5F, 0x16A5F); (0x16A6A, 0x16A6D); (0x16ABF, 0x16ABF); (0x16ACA, 0x16ACF);
   (0x16AEE, 0x16AEF); (0x16AF6, 0x16AFF); (0x16B46, 0x16B4F); (0x16B5A, 0x16B5A);
   (0x16B62, 0x16B62); (0x16B78, 0x16B7C); (0x16B90, 0x16E3F); (0x16E9B, 0x16EFF);
   (0x16F4B, 0x16F4E); (0x16F88, 0x16F8E); (0x16FA0, 0x16FDF); (0x16FE5, 0x16FEF);
   (0x16FF2, 0x16FFF); (0x187F8, 0x187FF); (0x18CD6, 0x18CFF); (0x18D09, 0x1AFEF);
   (0x1AFF4, 0x1AFF4); (0x1AFFC, 0x1AFFC); (0x1AFFF, 0x1AFFF); (0x1B123, 0x1B14F);
   (0x1B153, 0x1B163); (0x1B168, 0x1B16F); (0x1B2FC, 0x1BBFF); (0x1BC6B, 0x1BC6F);
   (0x1BC7D, 0x1BC7F); (0x1BC89, 0x1BC8F); (0x1BC9A, 0x1BC9B); (0x1BCA0, 0x1CEFF);
   (0x1CF2E, 0x1CF2F); (0x1CF47, 0x1CF4F); (0x1CFC4, 0x1CFFF); (0x1D0F6, 0x1D0FF);
   (0x1D127, 0x1D128); (0x1D173, 0x1D17A); (0x1D1EB, 0x1D1FF); (0x1D246, 0x1D2DF);
   (0x1D2F4, 0x1D2FF); (0x1D357, 0x1D35F); (0x1D379, 0x1D3FF); (0x1D455, 0x1D455);
   (0x1D49D, 0x1D49D); (0x1D4A0, 0x1D4A1); (0x1D4A3, 0x1D4A4); (0x1D4A7, 0x1D4A8);
   (0x1D4AD, 0x1D4AD); (0x1D4BA, 0x1D4BA); (0x1D4BC, 0x1D4BC); (0x1D4C4, 0x1D4C4);
   (0x1D506, 0x1D506); (0x1D50B, 0x1D50C); (0x1D515, 0x1D515); (0x1D51D, 0x1D51D);
   (0x1D53A, 0x1D53A); (0x1D53F, 0x1D53F); (0x1D545, 0x1D545); (0x1D547, 0x1D549);
   (0x1D551, 0x1D551); (0x1D6A6, 0x1D6A7); (0x1D7CC, 0x1D7CD); (0x1DA8C, 0x1DA9A);
   (0x1DAA0, 0x1DAA0); (0x1DAB0, 0x1DEFF); (0x1DF1F, 0x1DFFF); (0x1E007, 0x1E007);
   (0x1E019, 0x1E01A); (0x1E022, 0x1E022); (0x1E025, 0x1E025); (0x1E02B, 0x1E0FF);
   (0x1E12D, 0x1E12F); (0x1E13E, 0x1E13F); (0x1E14A, 0x1E14D); (0x1E150, 0x1E28F);
   (0x1E2AF, 0x1E2BF); (0x1E2FA, 0x1E2FE); (0x1E300, 0x1E7DF); (0x1E7E7, 0x1E7E7);
   (0x1E7EC, 0x1E7EC); (0x1E7EF, 0x1E7EF); (0x1E7FF, 0x1E7FF); (0x1E8C5, 0x1E8C6);
   (0x1E8D7, 0x1E8FF); (0x1E94C, 0x1E94F); (0x1E95A, 0x1E95D); (0x1E960, 0x1EC70);
   (0x1ECB5, 0x1ED00); (0x1ED3E, 0x1EDFF); (0x1EE04, 0x1EE04); (0x1EE20, 0x1EE20);
   (0x1EE23, 0x1EE23); (0x1EE25, 0x1EE26); (0x1EE28, 0x1EE28); (0x1EE33, 0x1EE33);
   (0x1EE38, 0x1EE38); (0x1EE3A, 0x1EE3A); (0x1EE3C, 0x1EE41); (0x1EE43, 0x1EE46);
   (0x1EE48, 0x1EE48); (0x1EE4A, 0x1EE4A); (0x1EE4C, 0x1EE4C); (0x1EE50, 0x1EE50);
   (0x1EE53, 0x1EE53); (0x1EE55, 0x1EE56); (0x1EE58, 0x1EE58); (0x1EE5A, 0x1EE5A);
   (0x1EE5C, 0x1EE5C); (0x1EE5E, 0x1EE5E); (0x1EE60, 0x1EE60); (0x1EE63, 0x1EE63);
   (0x1EE65, 0x1EE66); (0x1EE6B, 0x1EE6B); (0x1EE73, 0x1EE73); (0x1EE78, 0x1EE78);
   (0x1EE7D, 0x1EE7D); (0x1EE7F, 0x1EE7F); (0x1EE8A, 0x1EE8A); (0x1EE9C, 0x1EEA0);
   (0x1EEA4, 0x1EEA4); (0x1EEAA, 0x1EEAA); (0x1EEBC, 0x1EEEF); (0x1EEF2, 0x1EFFF);
   (0x1F02C, 0x1F02F); (0x1F094, 0x1F09F); (0x1F0AF, 0x1F0B0); (0x1F0C0, 0x1F0C0);
   (0x1F0D0, 0x1F0D0); (0x1F0F6, 0x1F0FF); (0x1F1AE, 0x1F1E5); (0x1F203, 0x1F20F);
   (0x1F23C, 0x1F23F); (0x1F249, 0x1F24F); (0x1F252, 0x1F25F); (0x1F266, 0x1F2FF);
   (0x1F6D8, 0x1F6DC); (0x1F6ED, 0x1F6EF); (0x1F6FD, 0x1F6FF); (0x1F774, 0x1F77F);
   (0x1F7D9, 0x1F7DF); (0x1F7EC, 0x1F7EF); (0x1F7F1, 0x1F7FF); (0x1F80C, 0x1F80F);
   (0x1F848, 0x1F84F); (0x1F85A, 0x1F85F); (0x1F888, 0x1F88F); (0x1F8AE, 0x1F8AF);
   (0x1F8B2, 0x1F8FF); (0x1FA54, 0x1FA5F); (0x1FA6E, 0x1FA6F); (0x1FA75, 0x1FA77);
   (0x1FA7D, 0x1FA7F); (0x1FA87, 0x1FA8F); (0x1FAAD, 0x1FAAF); (0x1FABB, 0x1FABF);
   (0x1FAC6, 0x1FACF); (0x1FADA, 0x1FADF); (0x1FAE8, 0x1FAEF); (0x1FAF7, 0x1FAFF);
   (0x1FB93, 0x1FB93); (0x1FBCB, 0x1FBEF); (0x1FBFA, 0x1FFFF); (0x2A6E0, 0x2A6FF);
   (0x2B739, 0x2B73F); (0x2B81E, 0x2B81F); (0x2CEA2, 0x2CEAF); (0x2EBE1, 0x2F7FF);
   (0x2FA1E, 0x2FFFF); (0x3134B, 0xE00FF); (0xE01F0, 0x10FFFF)]%N.

(** **** UTF-8 *)

(** The six bits of a continuation byte [10xxxxxx]. *)
Definition continuation (c : ascii) : option N :=
  if ((128 <=? code c) && (code c <? 192))%N then Some (code c - 128)%N else None.

(** The code point of a well-formed sequence of two, three or four bytes: the
    bits of the lead byte and of the continuation bytes, when no shorter
    sequence encodes them and they are neither a surrogate nor beyond
    U+10FFFF. *)
Definition seq2 (c0 c1 : ascii) : option N :=
  match continuation c1 with
  | Some x1 =>
      let cp := ((code c0 - 192) * 64 + x1)%N in
      if ((192 <=? code c0) && (code c0 <? 224) && (128 <=? cp))%N then Some cp else None
  | None => None
  end.

Definition seq3 (c0 c1 c2 : ascii) : option N :=
  match continuation c1, continuation c2 with
  | Some x1, Some x2 =>
      let cp := ((code c0 - 224) * 4096 + x1 * 64 + x2)%N in
      if ((224 <=? code c0) && (code c0 <? 240) && (2048 <=? cp)
          && negb ((0xD800 <=? cp) && (cp <=? 0xDFFF)))%N
      then Some cp else None
  | _, _ => None
  end.

Definition seq4 (c0 c1 c2 c3 : ascii) : option N :=
  match continuation c1, continuation c2, continuation c3 with
  | Some x1, Some x2, Some x3 =>
      let cp := ((code c0 - 240) * 262144 + x1 * 4096 + x2 * 64 + x3)%N in
      if ((240 <=? code c0) && (code c0 <? 248) && (0x10000 <=? cp) && (cp <=? 0x10FFFF))%N
      then Some cp else None
  | _, _, _ => None
  end.

(** The characters of a string, each with its code point and its bytes.  A
    byte that is part of no well-formed sequence (a Python string has none)
    counts as a character of its own, the lone surrogate U+DC00 + byte, as in
    Python's [surrogateescape] decoding. *)
Fixpoint utf8_chars (s : string) : list (N * string) :=
  match s with
  | EmptyString => []
  | String c0 r0 =>
      let one := String c0 EmptyString in
      if (code c0 <? 128)%N then (code c0, one) :: utf8_chars r0
      else
        match r0 with
        | EmptyString => [((0xDC00 + code c0)%N, one)]
        | String c1 r1 =>
            match seq2 c0 c1 with
            | Some cp => (cp, String c0 (String c1 EmptyString)) :: utf8_chars r1
            | None =>
                match r1 with
                | EmptyString => ((0xDC00 + code c0)%N, one) :: utf8_chars r0
                | String c2 r2 =>
                    match seq3 c0 c1 c2 with
                    | Some cp =>
                        (cp, String c0 (String c1 (String c2 EmptyString))) :: utf8_chars r2
                    | None =>
                        match r2 with
                        | EmptyString => ((0xDC00 + code c0)%N, one) :: utf8_chars r0
                        | String c3 r3 =>
                            match seq4 c0 c1 c2 c3 with
                            | Some cp =>
                                (cp, String c0 (String c1 (String c2 (String c3 EmptyString))))
                                  :: utf8_chars r3
                            | None => ((0xDC00 + code c0)%N, one) :: utf8_chars r0
                            end
                        end
                    end
                end
            end
        end
  end.

Definition code_points (s : string) : list N := List.map fst (utf8_chars s).

(** The characters of a string, as [for c in s] yields them. *)
Definition chars (s : string) : list string := List.map snd (utf8_chars s).

(** **** Digits and whitespace *)

(** The digits of [str.isdigit]. *)
Definition is_unicode_digit (cp : N) : bool :=
  in_ranges cp decimal_ranges || in_ranges cp other_digit_ranges.

(** The value of a decimal digit: its place in its run of ten. *)
Definition decimal_value (cp : N) : option N :=
  match List.find (fun r => (fst r <=? cp) && (cp <=? snd r))%N decimal_ranges with
  | Some r => Some ((cp - fst r) mod 10)%N
  | None => None
  end.

(** [s.isdigit()]: at least one character, all of them digits. *)
Definition str_isdigit (s : string) : bool :=
  match code_points s with
  | [] => false
  | cps => forallb is_unicode_digit cps
  end.

Fixpoint is_ascii (s : string) : bool :=
  match s with
  | EmptyString => true
  | String c s' => (code c <? 128)%N && is_ascii s'
  end.

(** What [int] and [float] make of a string before they parse it
    ([_PyUnicode_TransformDecimalAndSpaceToASCII]): a string with a character
    above 127 has its whitespace turned into spaces and its decimal digits into
    ASCII digits, and ends in a question mark at the first character that is
    neither; an ASCII string stays as it is. *)
Fixpoint to_ascii (cps : list N) : string :=
  match cps with
  | [] => EmptyString
  | cp :: rest =>
      if (cp <? 127)%N then String (ascii_of_N cp) (to_ascii rest)
      else if in_ranges cp space_ranges then String " " (to_ascii rest)
      else match decimal_value cp with
           | Some d => String (ascii_of_N (48 + d)) (to_ascii rest)
           | None => "?"
           end
  end.

Definition ascii_form (s : string) : string :=
  if is_ascii s then s else to_ascii (code_points s).

(** The ASCII digits, of which the numerals that [int] and [float] parse are
    made. *)
Definition is_digit (c : ascii) : bool := ((48 <=? code c) && (code c <=? 57))%N.

Definition digit_val (c : ascii) : N := (code c - 48)%N.

Fixpoint all_digits (s : string) : bool :=
  match s with
  | EmptyString => true
  | String c s' => is_digit c && all_digits s'
  end.

(** The ASCII characters that the parsers of [int] and [float] skip around a
    numeral: tab, line feed, vertical tab, form feed, carriage return and
    space. *)
Definition is_space (c : ascii) : bool :=
  (((9 <=? code c) && (code c <=? 13)) || (code c =? 32))%N.

Fixpoint lstrip (s : string) : string :=
  match s with
  | String c s' => if is_space c then lstrip s' else s
  | EmptyString => EmptyString
  end.

Fixpoint rstrip (s : string) : string :=
  match s with
  | EmptyString => EmptyString
  | String c s' =>
      match rstrip s' with
      | EmptyString => if is_space c then EmptyString else String c EmptyString
      | t => String c t
      end
  end.

Definition strip (s : string) : string := rstrip (lstrip s).

(** [needle in haystack] on strings. *)
Fixpoint str_contains (needle hay : string) : bool :=
  String.prefix needle hay ||
  match hay with
  | EmptyString => false
  | String _ hay' => str_contains needle hay'
  end.

Fixpoint join (sep : string) (parts : list string) : string :=
  match parts with
  | [] => EmptyString
  | [p] => p
  | p :: ps => p ++ sep ++ join sep ps
  end.

(** *** [int] *)

(** [str(n)] for an integer: decimal digits, a minus sign when negative. *)
Definition str_of_int (z : Z) : string := NilZero.string_of_int (Z.to_int z).

(** An optional sign in front of a numeral: whether it is a minus, and the
    rest. *)
Definition split_sign (t : string) : bool * string :=
  match t with
  | String "-" r => (true, r)
  | String "+" r => (false, r)
  | _ => (false, t)
  end.

(** A run [digit (["_"] digit)*] that fills the whole string. *)
Fixpoint digitpart (acc : N) (after_digit : bool) (s : string) : option N :=
  match s with
  | EmptyString => if after_digit then Some acc else None
  | String c s' =>
      if is_digit c then digitpart (acc * 10 + digit_val c)%N true s'
      else if Ascii.eqb c "_" then
        if after_digit then digitpart acc false s' else None
      else None
  end.

(** The numeral that [int] parses, base ten: surrounding whitespace, an
    optional sign, digits with single underscores between them. *)
Definition parse_int (t : string) : Result Z :=
  let '(neg, body) := split_sign (strip t) in
  match digitpart 0%N false body with
  | Some n => Ok (if neg then - Z.of_N n else Z.of_N n)
  | None => Raise ValueError
  end.

(** [int(s)] on a string.  (The interpreter's cap on the length of the
    numeral, 4300 digits by default from Python 3.11 on, is not modelled.) *)
Definition int_of_str (s : string) : Result Z := parse_int (ascii_form s).

(** [int(x)] *)
Definition py_int (x : Json) : Result Z :=
  match x with
  | JInt z => Ok z
  | JBool b => Ok (if b then 1 else 0)
  | JStr s => int_of_str s
  | JNull | JArr _ | JObj _ => Raise TypeError
  end.

(** *** [float] *)

(** The value of [float(x)], named by the decimal numeral it was read from:
    [FDec neg m e] is the double nearest to [(-1)^neg * m * 10^e].  Rounding
    keeps the sign, so a numeral without a minus sign never gives a negative
    double. *)
Inductive PyFloat : Type :=
| FNan
| FInf (neg : bool)
| FDec (neg : bool) (mant : N) (exp10 : Z).

(** [f >= 0], read off the numeral.  (A negative numeral too small for a
    double rounds to [-0.0], of which Python's test holds and this one does
    not: [float_nonneg] holds of no float of which Python's test fails.) *)
Definition float_nonneg (f : PyFloat) : bool :=
  match f with
  | FNan => false
  | FInf neg => negb neg
  | FDec neg m _ => negb neg || (m =? 0)%N
  end.

Definition lower (c : ascii) : ascii :=
  if ((65 <=? code c) && (code c <=? 90))%N then ascii_of_N (code c + 32) else c.

Fixpoint lowercase (s : string) : string :=
  match s with
  | EmptyString => EmptyString
  | String c s' => String (lower c) (lowercase s')
  end.

(** The longest prefix [digit (["_"] digit)*] of [s]: the number read so far,
    how many digits this run has, and what follows the run. *)
Fixpoint scan_digits (acc : N) (n : nat) (s : string) : N * nat * string :=
  match s with
  | EmptyString => (acc, n, s)
  | String c s' =>
      if is_digit c then scan_digits (acc * 10 + digit_val c)%N (S n) s'
      else if Ascii.eqb c "_" then
        match n, s' with
        | S _, String d _ => if is_digit d then scan_digits acc n s' else (acc, n, s)
        | _, _ => (acc, n, s)
        end
      else (acc, n, s)
  end.

(** [("e" | "E") [sign] digitpart], or nothing. *)
Definition scan_exponent (s : string) : option Z :=
  match s with
  | EmptyString => Some 0
  | String c r =>
      if Ascii.eqb (lower c) "e" then
        let '(neg, body) := split_sign r in
        match scan_digits 0%N 0%nat body with
        | (m, S _, EmptyString) => Some (if neg then - Z.of_N m else Z.of_N m)
        | _ => None
        end
      else None
  end.

(** [[digitpart] "." digitpart | digitpart ["."]], then the exponent. *)
Definition scan_number (neg : bool) (s : string) : option PyFloat :=
  let '(m1, n1, r1) := scan_digits 0%N 0%nat s in
  let '(m, frac, r) :=
    match r1 with
    | String "." r2 => let '(m2, n2, r3) := scan_digits m1 0%nat r2 in (m2, n2, r3)
    | _ => (m1, 0%nat, r1)
    end in
  match (n1 + frac)%nat, scan_exponent r with
  | S _, Some e => Some (FDec neg m (e - Z.of_nat frac))
  | _, _ => None
  end.

(** The numeral that [float] parses. *)
Definition parse_float (t : string) : Result PyFloat :=
  let '(neg, body) := split_sign (strip t) in
  let word := lowercase body in
  if String.eqb word "inf" || String.eqb word "infinity" then Ok (FInf neg)
  else if String.eqb word "nan" then Ok FNan
  else match scan_number neg body with
       | Some f => Ok f
       | None => Raise ValueError
       end.

(** [float(s)] on a string. *)
Definition float_of_str (s : string) : Result PyFloat := parse_float (ascii_form s).

(** [float(x)]  (an integer beyond the range of a double raises
    [OverflowError] in Python; that range check is not modelled). *)
Definition py_float (x : Json) : Result PyFloat :=
  match x with
  | JInt z => Ok (FDec (z <? 0) (Z.abs_N z) 0)
  | JBool b => Ok (FDec false (if b then 1 else 0)%N 0)
  | JStr s => float_of_str s
  | JNull | JArr _ | JObj _ => Raise TypeError
  end.

(** *** [repr] and [str] *)

Definition quote1 : ascii := ascii_of_N 39.
Definition quote2 : ascii := ascii_of_N 34.
Definition backslash : ascii := ascii_of_N 92.

Definition hex_digit (n : N) : ascii :=
  ascii_of_N (if (n <? 10)%N then 48 + n else 87 + n).

(** The last [n] hexadecimal digits of [cp]. *)
Fixpoint hex (n : nat) (cp : N) : string :=
  match n with
  | O => EmptyString
  | S n' => hex n' (cp / 16) ++ String (hex_digit (cp mod 16)) EmptyString
  end.

(** A character in a [repr] between quotes [q]: itself when it is printable,
    an escape otherwise. *)
Definition repr_char (q : ascii) (cp : N) (bytes : string) : string :=
  if (cp =? code q)%N || (cp =? code backslash)%N then String backslash bytes
  else if (cp =? 9)%N then String backslash "t"
  else if (cp =? 10)%N then String backslash "n"
  else if (cp =? 13)%N then String backslash "r"
  else if ((cp <? 32) || (cp =? 127))%N then String backslash (String "x" (hex 2 cp))
  else if (cp <? 128)%N then bytes
  else if in_ranges cp unprintable_ranges then
    if (cp <? 0x100)%N then String backslash (String "x" (hex 2 cp))
    else if (cp <? 0x10000)%N then String backslash (String "u" (hex 4 cp))
    else String backslash (String "U" (hex 8 cp))
  else bytes.

Fixpoint has_char (q : ascii) (s : string) : bool :=
  match s with
  | EmptyString => false
  | String c s' => Ascii.eqb c q || has_char q s'
  end.

Definition repr_body (q : ascii) (s : string) : string :=
  String.concat EmptyString
    (List.map (fun c => repr_char q (fst c) (snd c)) (utf8_chars s)).

(** [repr(s)]: single quotes, unless [s] has a single quote and no double
    one. *)
Definition repr_str (s : string) : string :=
  let q := if has_char quote1 s && negb (has_char quote2 s) then quote2 else quote1 in
  String q (repr_body q s ++ String q EmptyString).

Fixpoint py_repr (x : Json) : string :=
  match x with
  | JNull => "None"
  | JBool b => if b then "True" else "False"
  | JInt z => str_of_int z
  | JStr s => repr_str s
  | JArr items => "[" ++ join ", " (List.map py_repr items) ++ "]"
  | JObj fields =>
      "{" ++ join ", " (List.map (fun '(k, v) => repr_str k ++ ": " ++ py_repr v) fields) ++ "}"
  end.

(** [str(x)], which is what an f-string field [{x}] inserts. *)
Definition py_str (x : Json) : string :=
  match x with
  | JStr s => s
  | _ => py_repr x
  end.

(** *** Operations of the collector on a JSON tree *)

(** [x[k]] with a string key [k]. *)
Definition subscript (x : Json) (k : string) : Result Json :=
  match x with
  | JObj fields =>
      match dict_lookup k fields with
      | Some v => Ok v
      | None => Raise (KeyError k)
      end
  | _ => Raise TypeError
  end.

(** [x.get(k, default)]: only dicts have the method. *)
Definition get_default (x : Json) (k : string) (default : Json) : Result Json :=
  match x with
  | JObj fields =>
      match dict_lookup k fields with
      | Some v => Ok v
      | None => Ok default
      end
  | _ => Raise AttributeError
  end.

Definition is_str (k : string) (x : Json) : bool :=
  match x with
  | JStr s => String.eqb s k
  | _ => false
  end.

(** [k in x] with a string [k]: key of a dict, element of a list, substring
    of a string. *)
Definition contains (k : string) (x : Json) : Result bool :=
  match x with
  | JObj fields => Ok (dict_mem k fields)
  | JArr items => Ok (existsb (is_str k) items)
  | JStr s => Ok (str_contains k s)
  | JNull | JBool _ | JInt _ => Raise TypeError
  end.

(** [for item in x]: the elements of a list, the keys of a dict, the
    characters of a string. *)
Definition iterate (x : Json) : Result (list Json) :=
  match x with
  | JArr items => Ok items
  | JObj fields => Ok (List.map (fun kv => JStr (fst kv)) fields)
  | JStr s => Ok (List.map JStr (chars s))
  | JNull | JBool _ | JInt _ => Raise TypeError
  end.

(** [x.isdigit()]: only strings have the method. *)
Definition isdigit (x : Json) : Result bool :=
  match x with
  | JStr s => Ok (str_isdigit s)
  | _ => Raise AttributeError
  end.

End Py.

Import Py.

(** ** The world outside the collector *)

Module Env.

(** What comes back from one request on the wire: an HTTP answer with its
    status and its body ([None] when the body is not JSON), or a failure
    below HTTP (refused or reset connection, timeout).  Answers carry no
    [Retry-After] header and are not redirections. *)
Inductive Reply : Type :=
| Response (status : Z) (body : option Json)
| NetworkFailure.

Abbreviation Dict := (list (string * Json)).

(** Python dicts are objects: a caller and a callee that hold the same dict
    see each other's updates.  A reference is a key of the heap. *)
Abbreviation loc := nat.

Inductive Level : Type := ERROR | INFO.

(** What a run does, in the order it does it. *)
Inductive Event : Type :=
| EvGet (url : string) (params : Dict) (timeout : Z) (reply : Reply)
| EvBackoff (seconds : Z)        (* urllib3 waits before the next attempt *)
| EvSleep (seconds : Q)          (* time.sleep *)
| EvLog (level : Level).         (* logger.error / logger.info *)

Record World : Type := mkWorld {
  replies : nat -> Reply;        (* the answer to the n-th request ever sent *)
  year_now : Z;                  (* pd.Timestamp.now().year *)
  heap : gmap loc Dict;
  trace : list Event
}.

Definition is_get (e : Event) : bool :=
  match e with EvGet _ _ _ _ => true | _ => false end.


Fixpoint count (p : Event -> bool) (t : list Event) : nat :=
  match t with
  | [] => 0
  | e :: t' => (if p e then 1 else 0) + count p t'
  end.

(** Requests put on the wire so far. *)
Definition requests_sent (w : World) : nat := count is_get (trace w).

(** *** State and exceptions *)

Definition M (A : Type) : Type := World -> Result A * World.

Definition ret {A} (a : A) : M A := fun w => (Ok a, w).

Definition raise {A} (e : PyExc) : M A := fun w => (Raise e, w).

Definition bind {A B} (m : M A) (k : A -> M B) : M B :=
  fun w =>
    match m w with
    | (Ok a, w') => k a w'
    | (Raise e, w') => (Raise e, w')
    end.

Definition lift {A} (r : Result A) : M A := fun w => (r, w).

Notation "'let!' x ':=' m 'in' k" := (bind m (fun x => k))
  (at level 10, x name, m at level 100, k at level 200).

Notation "m ';;' k" := (bind m (fun _ => k))
  (at level 100, k at level 200, right associativity).

(** [try: m  except <class> as e: handler e], where [caught] tells which
    exceptions the class covers. *)
Definition try_except {A} (m : M A) (caught : PyExc -> bool) (handler : PyExc -> M A) : M A :=
  fun w =>
    match m w with
    | (Ok a, w') => (Ok a, w')
    | (Raise e, w') => if caught e then handler e w' else (Raise e, w')
    end.

Definition emit (e : Event) : M unit :=
  fun w => (Ok tt, mkWorld (replies w) (year_now w) (heap w) (trace w ++ [e])).

(** A new, empty dict [{}]. *)
Definition new_dict : M loc :=
  fun w =>
    let l := fresh (dom (heap w)) in
    (Ok l, mkWorld (replies w) (year_now w) (<[l := []]> (heap w)) (trace w)).

Definition read_dict (l : loc) : M Dict :=
  fun w => (Ok (default [] (heap w !! l)), w).

Definition update_dict (l : loc) (f : Dict -> Dict) : M unit :=
  fun w => (Ok tt, mkWorld (replies w) (year_now w) (alter f l (heap w)) (trace w)).

(** [time.sleep(seconds)] refuses a negative length. *)
Definition time_sleep (seconds : Q) : M unit :=
  if Qle_bool 0 seconds then emit (EvSleep seconds) else raise ValueError.

Definition logger_error : M unit := emit (EvLog ERROR).
Definition logger_info : M unit := emit (EvLog INFO).

Definition is_request_exception (e : PyExc) : bool :=
  match e with RequestException _ => true | _ => false end.

(** [except Exception] covers every class of the model. *)
Definition is_exception (e : PyExc) : bool := true.

End Env.

Import Env.

(** ** The HTTP session: [requests] over [urllib3] *)

Module Session.

(** [urllib3.util.retry.Retry]: [total] is the number of retries allowed
    after the first attempt. *)
Record Retry : Type := mkRetry {
  total : nat;
  backoff_factor : Z;
  status_forcelist : list Z
}.

(** [Retry.get_backoff_time] after [failures] failed attempts in a row: no
    wait before the first retry, then [backoff_factor * 2^(failures - 1)]
    seconds, at most 120. *)
Definition get_backoff_time (policy : Retry) (failures : nat) : Z :=
  if (failures <=? 1)%nat then 0
  else Z.min 120 (backoff_factor policy * 2 ^ (Z.of_nat failures - 1)).

(** [Retry.is_retry] for a GET. *)
Definition is_retry (policy : Retry) (status : Z) : bool :=
  existsb (Z.eqb status) (status_forcelist policy).

(** [HTTPConnectionPool.urlopen] under a [Retry] with [retries] retries left,
    after [failures] failed attempts.  Each failed attempt that may be
    retried goes through [Retry.increment], which takes one from the total
    and raises once the total is below zero, that is, when none was left;
    otherwise the pool waits and sends the request again. *)
Fixpoint urlopen (policy : Retry) (retries failures : nat)
    (url : string) (params : Dict) (timeout : Z) : M (Z * option Json) :=
  fun w =>
    let reply := replies w (requests_sent w) in
    let again (e : RequestError) : M (Z * option Json) :=
      match retries with
      | O => raise (RequestException e)
      | S n =>
          emit (EvBackoff (get_backoff_time policy (S failures))) ;;
          urlopen policy n (S failures) url params timeout
      end in
    (emit (EvGet url params timeout reply) ;;
     match reply with
     | NetworkFailure => again ConnectionError
     | Response status body =>
         if is_retry policy status then again RetryError
         else ret (status, body)
     end) w.

(** [session.get(url, params=params, timeout=timeout)] through the mounted
    adapter. *)
Definition get (max_retries : Retry) (url : string) (params : Dict) (timeout : Z)
    : M (Z * option Json) :=
  urlopen max_retries (total max_retries) 0 url params timeout.

(** [response.raise_for_status()] *)
Definition raise_for_status (response : Z * option Json) : M unit :=
  let status := fst response in
  if (400 <=? status) && (status <? 600) then raise (RequestException (HTTPError status))
  else ret tt.

(** [response.json()] *)
Definition json (response : Z * option Json) : M Json :=
  match snd response with
  | Some body => ret body
  | None => raise (RequestException JSONDecodeError)
  end.

End Session.

(** ** The collector: session and request executor *)

Record ErgastCollector : Type := mkCollector {
  rate_limit : Q;
  session : Session.Retry
}.

Definition BASE_URL : string := "https://ergast.com/api/f1".

Definition _create_session : Session.Retry :=
  Session.mkRetry 3 2 [429; 500; 502; 503; 504].

(** [ErgastCollector(rate_limit)] *)
Definition __init__ (rate_limit : Q) : ErgastCollector :=
  mkCollector rate_limit _create_session.

(** [_make_request(endpoint, params)]; [params] is [None] or a reference to
    the caller's dict. *)
Definition _make_request (self : ErgastCollector) (endpoint : string) (params : option loc)
    : M Json :=
  let url := BASE_URL ++ "/" ++ endpoint ++ ".json" in
  let! params := match params with
                 | None => new_dict
                 | Some l => ret l
                 end in
  update_dict params (dict_setdefault "limit" (JInt 1000)) ;;
  try_except
    (let! query := read_dict params in
     let! response := Session.get (session self) url query 30 in
     Session.raise_for_status response ;;
     time_sleep (rate_limit self) ;;
     Session.json response)
    is_request_exception
    (fun e => logger_error ;; raise e).

(** ** Records and extractors *)

(** A field of an output record: a value copied or computed from the JSON
    tree (an integer, a string, [None], ...), a float, or a timestamp built by
    [pandas.to_datetime]. *)
Inductive Value (Timestamp : Type) : Type :=
| VJson (x : Json)
| VFloat (f : PyFloat)
| VTime (t : Timestamp).
Arguments VJson {Timestamp} x.
Arguments VFloat {Timestamp} f.
Arguments VTime {Timestamp} t.

Abbreviation VInt z := (VJson (JInt z)).
Abbreviation VStr s := (VJson (JStr s)).
Abbreviation VNone := (VJson JNull).

(** [x[k1][k2]...] *)
Fixpoint path (x : Json) (keys : list string) : Result Json :=
  match keys with
  | [] => Ok x
  | k :: keys' => let* y := subscript x k in path y keys'
  end.

(** [bool(x)], as [if x:] tests it. *)
Definition truthy (x : Json) : bool :=
  match x with
  | JNull => false
  | JBool b => b
  | JInt z => negb (z =? 0)
  | JStr s => negb (String.eqb s "")
  | JArr items => match items with [] => false | _ => true end
  | JObj fields => match fields with [] => false | _ => true end
  end.

Section Collector.

Context {Timestamp : Type}.

(** [pd.to_datetime], from outside the repository. *)
Variable to_datetime : Json -> Result Timestamp.

Abbreviation Row := (list (string * Value Timestamp)).

(** *** Seasons *)

(** The comprehension of [get_seasons]: the condition, then the element. *)
Fixpoint seasons_in_range (start_year end_year : Z) (seasons_data : list Json)
    : Result (list Z) :=
  match seasons_data with
  | [] => Ok []
  | season :: rest =>
      let* s := subscript season "season" in
      let* y := py_int s in
      if (start_year <=? y) && (y <=? end_year) then
        let* s' := subscript season "season" in
        let* y' := py_int s' in
        let* ys := seasons_in_range start_year end_year rest in
        Ok (y' :: ys)
      else seasons_in_range start_year end_year rest
  end.

(** [sorted(seasons)] on integers. *)
Definition sorted (seasons : list Z) : list Z := merge_sort Z.le seasons.

Definition seasons_of_response (start_year end_year : Z) (response : Json)
    : Result (list Z) :=
  let* seasons_data := path response ["MRData"; "SeasonTable"; "Seasons"] in
  let* items := iterate seasons_data in
  let* seasons := seasons_in_range start_year end_year items in
  Ok (sorted seasons).

Definition get_seasons (self : ErgastCollector) (start_year : Z) (end_year : option Z)
    : M (list Z) :=
  let! end_year := match end_year with
                   | None => fun w => (Ok (year_now w), w)
                   | Some y => ret y
                   end in
  try_except
    (let! response := _make_request self "seasons" None in
     let! seasons := lift (seasons_of_response start_year end_year response) in
     logger_info ;;
     ret seasons)
    is_exception
    (fun e => logger_error ;; raise e).

(** *** Races *)

Definition race_record (race : Json) : Result Row :=
  let* s := subscript race "season" in
  let* season := py_int s in
  let* r := subscript race "round" in
  let* round := py_int r in
  let* s' := subscript race "season" in
  let* r' := subscript race "round" in
  let race_id := py_str s' ++ "_" ++ py_str r' in
  let* race_name := subscript race "raceName" in
  let* circuit_id := path race ["Circuit"; "circuitId"] in
  let* circuit_name := path race ["Circuit"; "circuitName"] in
  let* country := path race ["Circuit"; "Location"; "country"] in
  let* d := subscript race "date" in
  let* date := to_datetime d in
  let* url := get_default race "url" (JStr "") in
  let race_info :=
    dict_of [("season", VInt season); ("round", VInt round); ("race_id", VStr race_id);
             ("race_name", VJson race_name); ("circuit_id", VJson circuit_id);
             ("circuit_name", VJson circuit_name); ("country", VJson country);
             ("date", VTime date); ("url", VJson url)] in
  let* has_time := contains "time" race in
  if has_time then
    let* t := subscript race "time" in
    Ok (dict_set "time" (VJson t) race_info)
  else Ok race_info.

Definition races_of_response (response : Json) : Result (list Row) :=
  let* races_data := path response ["MRData"; "RaceTable"; "Races"] in
  let* items := iterate races_data in
  rmap race_record items.

Definition get_races (self : ErgastCollector) (season : Json) : M (list Row) :=
  try_except
    (let! response := _make_request self (py_str season) None in
     let! races := lift (races_of_response response) in
     logger_info ;;
     ret races)
    is_exception
    (fun e => logger_error ;; raise e).

(** *** Results *)

(** The race context shared by the records of one race block, in
    [get_results] and [get_qualifying]. *)
Definition race_context (race : Json) : Result Row :=
  let* s := subscript race "season" in
  let* season := py_int s in
  let* r := subscript race "round" in
  let* round := py_int r in
  let* race_name := subscript race "raceName" in
  let* circuit_id := path race ["Circuit"; "circuitId"] in
  let* d := subscript race "date" in
  let* date := to_datetime d in
  Ok (dict_of [("season", VInt season); ("round", VInt round);
               ("race_name", VJson race_name); ("circuit_id", VJson circuit_id);
               ("date", VTime date)]).

(** [int(x[k]) if x[k].isdigit() else None] *)
Definition int_if_digits (x : Json) (k : string) : Result (Value Timestamp) :=
  let* v := subscript x k in
  let* digits := isdigit v in
  if digits then
    let* v' := subscript x k in
    let* z := py_int v' in
    Ok (VInt z)
  else Ok VNone.

(** [f"{x['Driver']['givenName']} {x['Driver']['familyName']}"] *)
Definition full_name (given family : Json) : string :=
  py_str given ++ " " ++ py_str family.

Definition result_record (race_info : Row) (result : Json) : Result Row :=
  let* position := int_if_digits result "position" in
  let* driver_id := path result ["Driver"; "driverId"] in
  let* given := path result ["Driver"; "givenName"] in
  let* family := path result ["Driver"; "familyName"] in
  let* constructor_id := path result ["Constructor"; "constructorId"] in
  let* constructor_name := path result ["Constructor"; "name"] in
  let* grid := int_if_digits result "grid" in
  let* l := subscript result "laps" in
  let* laps := py_int l in
  let* status := subscript result "status" in
  let* p := subscript result "points" in
  let* points := py_float p in
  let result_info :=
    dict_update race_info
      [("position", position); ("driver_id", VJson driver_id);
       ("driver_name", VStr (full_name given family));
       ("constructor_id", VJson constructor_id);
       ("constructor_name", VJson constructor_name);
       ("grid", grid); ("laps", VInt laps); ("status", VJson status);
       ("points", VFloat points)] in
  let* has_Time := contains "Time" result in
  let* has_time :=
    if has_Time then
      let* t := subscript result "Time" in contains "time" t
    else Ok false in
  let* result_info :=
    if has_time then
      let* t := path result ["Time"; "time"] in
      Ok (dict_set "race_time" (VJson t) result_info)
    else Ok result_info in
  let* has_fastest := contains "FastestLap" result in
  if has_fastest then
    let* fastest_lap := subscript result "FastestLap" in
    let* rank0 := get_default fastest_lap "rank" (JInt 0) in
    let* rank := py_int rank0 in
    let result_info := dict_set "fastest_lap_rank" (VInt rank) result_info in
    let* lap_has_time := contains "Time" fastest_lap in
    if lap_has_time then
      let* t := path fastest_lap ["Time"; "time"] in
      Ok (dict_set "fastest_lap_time" (VJson t) result_info)
    else Ok result_info
  else Ok result_info.

Definition race_results (race : Json) : Result (list Row) :=
  let* race_info := race_context race in
  let* rs := subscript race "Results" in
  let* items := iterate rs in
  rmap (result_record race_info) items.

Definition results_of_response (response : Json) : Result (list Row) :=
  let* races_data := path response ["MRData"; "RaceTable"; "Races"] in
  let* items := iterate races_data in
  let* per_race := rmap race_results items in
  Ok (concat per_race).

(** [if round_num:] on an optional integer. *)
Definition given_round (round_num : option Z) : bool :=
  match round_num with
  | Some n => negb (n =? 0)
  | None => false
  end.

(** [f"{season}/{round_num}/{what}" if round_num else f"{season}/{what}"] *)
Definition round_endpoint (season : Json) (round_num : option Z) (what : string) : string :=
  if given_round round_num then
    py_str season ++ "/" ++ from_option str_of_int "None" round_num ++ "/" ++ what
  else py_str season ++ "/" ++ what.

Definition get_results (self : ErgastCollector) (season : Json) (round_num : option Z)
    : M (list Row) :=
  try_except
    (let endpoint := round_endpoint season round_num "results" in
     let! response := _make_request self endpoint None in
     let! results := lift (results_of_response response) in
     logger_info ;;
     ret results)
    is_exception
    (fun e => logger_error ;; raise e).

(** *** Qualifying *)

Fixpoint session_times (sessions : list (string * string)) (qual : Json) (qual_info : Row)
    : Result Row :=
  match sessions with
  | [] => Ok qual_info
  | (session, column) :: rest =>
      let* present := contains session qual in
      if present then
        let* t := subscript qual session in
        session_times rest qual (dict_set column (VJson t) qual_info)
      else session_times rest qual qual_info
  end.

Definition qualifying_record (race_info : Row) (qual : Json) : Result Row :=
  let* p := subscript qual "position" in
  let* position := py_int p in
  let* driver_id := path qual ["Driver"; "driverId"] in
  let* given := path qual ["Driver"; "givenName"] in
  let* family := path qual ["Driver"; "familyName"] in
  let* constructor_id := path qual ["Constructor"; "constructorId"] in
  let* constructor_name := path qual ["Constructor"; "name"] in
  let qual_info :=
    dict_update race_info
      [("position", VInt position); ("driver_id", VJson driver_id);
       ("driver_name", VStr (full_name given family));
       ("constructor_id", VJson constructor_id);
       ("constructor_name", VJson constructor_name)] in
  session_times [("Q1", "q1_time"); ("Q2", "q2_time"); ("Q3", "q3_time")] qual qual_info.

Definition race_qualifying (race : Json) : Result (list Row) :=
  let* race_info := race_context race in
  let* qs := subscript race "QualifyingResults" in
  let* items := iterate qs in
  rmap (qualifying_record race_info) items.

Definition qualifying_of_response (response : Json) : Result (list Row) :=
  let* races_data := path response ["MRData"; "RaceTable"; "Races"] in
  let* items := iterate races_data in
  let* per_race := rmap race_qualifying items in
  Ok (concat per_race).

Definition get_qualifying (self : ErgastCollector) (season : Json) (round_num : option Z)
    : M (list Row) :=
  try_except
    (let endpoint := round_endpoint season round_num "qualifying" in
     let! response := _make_request self endpoint None in
     let! results := lift (qualifying_of_response response) in
     logger_info ;;
     ret results)
    is_exception
    (fun e => logger_error ;; raise e).

(** *** Drivers and constructors *)

Definition driver_record (driver : Json) : Result Row :=
  let* driver_id := subscript driver "driverId" in
  let* given := subscript driver "givenName" in
  let* family := subscript driver "familyName" in
  let* given' := subscript driver "givenName" in
  let* family' := subscript driver "familyName" in
  let* nationality := subscript driver "nationality" in
  let* url := get_default driver "url" (JStr "") in
  let driver_info :=
    dict_of [("driver_id", VJson driver_id); ("given_name", VJson given);
             ("family_name", VJson family);
             ("driver_name", VStr (full_name given' family'));
             ("nationality", VJson nationality); ("url", VJson url)] in
  let* has_birth := contains "dateOfBirth" driver in
  if has_birth then
    let* b := subscript driver "dateOfBirth" in
    let* birth := to_datetime b in
    Ok (dict_set "date_of_birth" (VTime birth) driver_info)
  else Ok driver_info.

Definition drivers_of_response (response : Json) : Result (list Row) :=
  let* drivers_data := path response ["MRData"; "DriverTable"; "Drivers"] in
  let* items := iterate drivers_data in
  rmap driver_record items.

Definition optional_endpoint (season : Json) (what : string) : string :=
  if truthy season then py_str season ++ "/" ++ what else what.

Definition get_drivers (self : ErgastCollector) (season : Json) : M (list Row) :=
  try_except
    (let endpoint := optional_endpoint season "drivers" in
     let! response := _make_request self endpoint None in
     let! drivers := lift (drivers_of_response response) in
     logger_info ;;
     ret drivers)
    is_exception
    (fun e => logger_error ;; raise e).

Definition constructor_record (constructor : Json) : Result Row :=
  let* constructor_id := subscript constructor "constructorId" in
  let* name := subscript constructor "name" in
  let* nationality := subscript constructor "nationality" in
  let* url := get_default constructor "url" (JStr "") in
  Ok (dict_of [("constructor_id", VJson constructor_id); ("constructor_name", VJson name);
               ("nationality", VJson nationality); ("url", VJson url)]).

Definition constructors_of_response (response : Json) : Result (list Row) :=
  let* constructors_data := path response ["MRData"; "ConstructorTable"; "Constructors"] in
  let* items := iterate constructors_data in
  rmap constructor_record items.

Definition get_constructors (self : ErgastCollector) (season : Json) : M (list Row) :=
  try_except
    (let endpoint := optional_endpoint season "constructors" in
     let! response := _make_request self endpoint None in
     let! constructors := lift (constructors_of_response response) in
     logger_info ;;
     ret constructors)
    is_exception
    (fun e => logger_error ;; raise e).

End Collector.

(** * Properties *)

(** ** The request executor *)

Section Executor.

(** The world after more events. *)
Definition extend (w : World) (evs : list Event) : World :=
  mkWorld (replies w) (year_now w) (heap w) (trace w ++ evs).

Lemma extend_nil w : extend w [] = w.
Proof. destruct w; unfold extend; simpl. by rewrite app_nil_r. Qed.

Lemma extend_extend w a b : extend (extend w a) b = extend w (a ++ b).
Proof. unfold extend; simpl. by rewrite app_assoc. Qed.

Lemma count_app p a b : count p (a ++ b) = (count p a + count p b)%nat.
Proof. induction a as [|e a IH]; simpl; [done|]. rewrite IH. lia. Qed.


Context (policy : Session.Retry) (url : string) (params : Dict) (timeout : Z).

(** An attempt that the policy sends again, with the exception raised when
    no retry is left. *)
Definition retried (reply : Reply) : option RequestError :=
  match reply with
  | NetworkFailure => Some ConnectionError
  | Response status _ => if Session.is_retry policy status then Some RetryError else None
  end.

(** The retry loop as a relation: [Run rs k retries failures evs res] when a
    [urlopen] that starts with [retries] retries left, [failures] failures
    behind it and [rs k] as the next answer on the wire does [evs] and ends
    in [res]. *)
Inductive Run (rs : nat -> Reply) : nat -> nat -> nat -> list Event -> Result (Z * option Json) -> Prop :=
| run_answer k retries failures status body :
    rs k = Response status body ->
    Session.is_retry policy status = false ->
    Run rs k retries failures [EvGet url params timeout (rs k)] (Ok (status, body))
| run_exhausted k failures e :
    retried (rs k) = Some e ->
    Run rs k 0 failures [EvGet url params timeout (rs k)] (Raise (RequestException e))
| run_again k retries failures e evs res :
    retried (rs k) = Some e ->
    Run rs (S k) retries (S failures) evs res ->
    Run rs k (S retries) failures
      (EvGet url params timeout (rs k)
       :: EvBackoff (Session.get_backoff_time policy (S failures)) :: evs) res.

Lemma urlopen_run rs k retries failures evs res :
  Run rs k retries failures evs res ->
  forall w, replies w = rs -> requests_sent w = k ->
  Session.urlopen policy retries failures url params timeout w = (res, extend w evs).
Proof.
  induction 1 as [k r f st body Hk Hno|k f e He|k r f e evs res He Hrun IH];
    intros w Hrs Hsent; subst rs k.
  - destruct r; simpl; unfold bind, emit, ret; simpl;
      rewrite Hk, Hno; reflexivity.
  - simpl; unfold bind, emit, raise; simpl.
    unfold retried in He. destruct (replies w (requests_sent w)) as [st body|].
    + destruct (Session.is_retry policy st); by inversion He.
    + by inversion He.
  - simpl; unfold bind, emit; simpl.
    set (reply := replies w (requests_sent w)) in *.
    set (w1 := mkWorld (replies w) (year_now w) (heap w)
                 ((trace w ++ [EvGet url params timeout reply])
                  ++ [EvBackoff (Session.get_backoff_time policy (S f))])).
    assert (Hw1 : Session.urlopen policy r (S f) url params timeout w1 = (res, extend w1 evs)).
    { apply IH; [reflexivity|].
      unfold w1, requests_sent; simpl. rewrite !count_app; simpl. lia. }
    assert (Hext : extend w1 evs
                   = extend w (EvGet url params timeout reply
                               :: EvBackoff (Session.get_backoff_time policy (S f)) :: evs)).
    { unfold extend, w1; simpl. by rewrite <- !app_assoc. }
    unfold retried in He. destruct reply as [st body|].
    + destruct (Session.is_retry policy st); [|by inversion He].
      rewrite <- Hext. exact Hw1.
    + rewrite <- Hext. exact Hw1.
Qed.

Lemma run_total rs retries : forall k failures, exists evs res, Run rs k retries failures evs res.
Proof.
  induction retries as [|r IH]; intros k f.
  - destruct (retried (rs k)) as [e|] eqn:He.
    + eexists _, _. by eapply run_exhausted.
    + unfold retried in He. destruct (rs k) as [st body|] eqn:Hk; [|done].
      destruct (Session.is_retry policy st) eqn:Hst; [done|].
      eexists _, _. eapply run_answer; eauto.
  - destruct (retried (rs k)) as [e|] eqn:He.
    + destruct (IH (S k) (S f)) as (evs & res & Hrun).
      eexists _, _. by eapply run_again.
    + unfold retried in He. destruct (rs k) as [st body|] eqn:Hk; [|done].
      destruct (Session.is_retry policy st) eqn:Hst; [done|].
      eexists _, _. eapply run_answer; eauto.
Qed.

(** What a run of the loop looks like. *)



Lemma run_starts_with_get rs k retries failures evs res :
  Run rs k retries failures evs res ->
  exists rest, evs = EvGet url params timeout (rs k) :: rest.
Proof. destruct 1; eauto. Qed.


Lemma run_raises rs k retries failures evs e :
  Run rs k retries failures evs (Raise e) -> is_request_exception e = true.
Proof.
  remember (Raise e) as res eqn:Hres.
  induction 1 as [| |k r f e' evs res He Hrun IH]; [done| |by apply IH].
  by inversion Hres.
Qed.

End Executor.

(** The world once [_make_request] has given [limit] its default: the dict
    that holds the query is the caller's, or a new one. *)
Definition query_ref (params : option loc) (w : World) : loc :=
  match params with
  | None => fresh (dom (heap w))
  | Some l => l
  end.

Definition with_limit (params : option loc) (w : World) : World :=
  let h := match params with
           | None => <[fresh (dom (heap w)) := []]> (heap w)
           | Some _ => heap w
           end in
  mkWorld (replies w) (year_now w)
    (alter (dict_setdefault "limit" (JInt 1000)) (query_ref params w) h) (trace w).

(** What follows the retry loop in [_make_request]: the result of the call
    and the events after the last attempt. *)
Definition conclude (self : ErgastCollector) (res : Result (Z * option Json))
    : Result Json * list Event :=
  match res with
  | Raise e => (Raise e, [EvLog ERROR])
  | Ok (status, body) =>
      if (400 <=? status) && (status <? 600) then
        (Raise (RequestException (HTTPError status)), [EvLog ERROR])
      else if Qle_bool 0 (rate_limit self) then
        match body with
        | Some b => (Ok b, [EvSleep (rate_limit self)])
        | None => (Raise (RequestException JSONDecodeError),
                   [EvSleep (rate_limit self); EvLog ERROR])
        end
      else (Raise ValueError, [])
  end.

Lemma make_request_run self endpoint params w evs res :
  let w0 := with_limit params w in
  let query := default [] (heap w0 !! query_ref params w) in
  Run (session self) (BASE_URL ++ "/" ++ endpoint ++ ".json") query 30
      (replies w) (requests_sent w) (Session.total (session self)) 0 evs res ->
  _make_request self endpoint params w
  = (fst (conclude self res), extend w0 (evs ++ snd (conclude self res))).
Proof.
  intros w0 query Hrun.
  assert (Hopen := urlopen_run _ _ _ _ _ _ _ _ _ _ Hrun w0 eq_refl eq_refl).
  assert (Hexc : forall e, res = Raise e -> is_request_exception e = true).
  { intros e ->. eapply run_raises, Hrun. }
  unfold _make_request, Session.get.
  destruct params as [l|]; unfold bind, try_except, ret, new_dict, update_dict, read_dict; simpl.
  all: match goal with
       | |- context [Session.urlopen ?a ?b ?c ?d ?e ?f ?g] =>
           replace (Session.urlopen a b c d e f g) with (res, extend w0 evs)
             by (symmetry; exact Hopen)
       end.
  all: destruct res as [[status body]|e]; simpl;
         [|rewrite (Hexc e eq_refl); unfold raise, extend; simpl;
           by rewrite app_assoc].
  all: unfold Session.raise_for_status; simpl;
         destruct ((400 <=? status) && (status <? 600)); simpl;
         [unfold raise, extend; simpl; by rewrite app_assoc|].
  all: unfold time_sleep, ret; destruct (Qle_bool 0 (rate_limit self)); simpl;
         [|unfold raise; simpl; by rewrite app_nil_r].
  all: unfold Session.json; destruct body as [b|]; simpl;
         unfold ret, raise, extend; simpl; by rewrite <- ?app_assoc.
Qed.

Lemma make_request_total self endpoint params w :
  exists evs res,
    Run (session self) (BASE_URL ++ "/" ++ endpoint ++ ".json")
        (default [] (heap (with_limit params w) !! query_ref params w)) 30
        (replies w) (requests_sent w) (Session.total (session self)) 0 evs res /\
    _make_request self endpoint params w
    = (fst (conclude self res),
       extend (with_limit params w) (evs ++ snd (conclude self res))).
Proof.
  destruct (run_total (session self) (BASE_URL ++ "/" ++ endpoint ++ ".json")
              (default [] (heap (with_limit params w) !! query_ref params w)) 30
              (replies w) (Session.total (session self)) (requests_sent w) 0%nat)
    as (evs & res & Hrun).
  exists evs, res. split; [exact Hrun|]. by apply make_request_run.
Qed.


(** The statuses that the session of the collector sends again. *)
Definition retryable (status : Z) : bool := Session.is_retry _create_session status.

(** An attempt that did not bring a successful response: no answer, a status
    that is sent again, or a client or server error. *)
Definition failed (policy : Session.Retry) (reply : Reply) : bool :=
  match reply with
  | NetworkFailure => true
  | Response status _ =>
      Session.is_retry policy status || ((400 <=? status) && (status <? 600))
  end.



Lemma dict_set_new {V} (k : string) (v : V) (d : list (string * V)) :
  dict_lookup k d = None -> dict_set k v d = (d ++ [(k, v)])%list.
Proof.
  induction d as [|[k' v'] d IH]; simpl; [done|].
  destruct (String.eqb k k'); [done|]. intros H. by rewrite IH.
Qed.

Lemma dict_setdefault_spec (k : string) (v : Json) (d : Dict) :
  dict_setdefault k v d
  = match dict_lookup k d with
    | Some _ => d
    | None => (d ++ [(k, v)])%list
    end.
Proof.
  unfold dict_setdefault, dict_mem.
  destruct (dict_lookup k d) eqn:H; [done|]. by apply dict_set_new.
Qed.

(** *** Scenarios *)

(** A server that gives the listed answers, one per request, and then stops
    answering. *)
Definition server (answers : list Reply) : nat -> Reply :=
  fun n => default NetworkFailure (answers !! n).

(** A world where nothing happened yet and no dict exists. *)
Definition fresh_world (answers : list Reply) : World :=
  mkWorld (server answers) 2024 ∅ [].

Definition unavailable : Reply := Response 503 None.

Definition found (body : Json) : Reply := Response 200 (Some body).

(** *** Retries *)




(** *** Rate limiting *)


(** *** The default limit and the caller's dict *)

(** C10.  When the caller passes a dict, [setdefault] works on that very
    dict: after the call, whether it returned or raised, the caller's dict
    has [limit = 1000] appended if it had no [limit], and is unchanged if it
    had one; no other dict changes. *)
Theorem limit_default_lands_in_caller_dict (self : ErgastCollector) (endpoint : string)
    (l : loc) (d : Dict) (w : World) :
  heap w !! l = Some d ->
  let after := heap (snd (_make_request self endpoint (Some l) w)) in
  after !! l = Some (dict_setdefault "limit" (JInt 1000) d) /\
  (dict_lookup "limit" d = None -> after !! l = Some (d ++ [("limit", JInt 1000)])%list) /\
  (forall v, dict_lookup "limit" d = Some v -> after !! l = Some d) /\
  (forall l', l' <> l -> after !! l' = heap w !! l').
Proof.
  intros Hd after.
  destruct (make_request_total self endpoint (Some l) w) as (evs & res & _ & Heq).
  assert (Hafter : after = alter (dict_setdefault "limit" (JInt 1000)) l (heap w)).
  { unfold after. by rewrite Heq. }
  assert (Hl : after !! l = Some (dict_setdefault "limit" (JInt 1000) d)).
  { rewrite Hafter, lookup_alter_eq, Hd. done. }
  split; [exact Hl|]. split; [|split].
  - intros Hnone. by rewrite Hl, dict_setdefault_spec, Hnone.
  - intros v Hsome. by rewrite Hl, dict_setdefault_spec, Hsome.
  - intros l' Hne. rewrite Hafter. by apply lookup_alter_ne.
Qed.

(** A caller's dict [{"offset": 30}] comes back with the limit in it. *)
Lemma limit_default_lands_in_caller_dict_witness :
  let w := mkWorld (server [found JNull]) 2024 {[ 0%nat := [("offset", JInt 30)] ]} [] in
  heap (snd (_make_request (__init__ 1) "drivers" (Some 0%nat) w)) !! 0%nat
  = Some [("offset", JInt 30); ("limit", JInt 1000)].
Proof.
  intros w.
  destruct (limit_default_lands_in_caller_dict (__init__ 1) "drivers" 0%nat
              [("offset", JInt 30)] w) as (_ & H & _).
  - reflexivity.
  - apply H. reflexivity.
Defined.

(** ** The extractors *)

(** *** Results and dicts *)

Lemma rbind_ok {A B} (r : Result A) (k : A -> Result B) (b : B) :
  rbind r k = Ok b -> exists a, r = Ok a /\ k a = Ok b.
Proof. destruct r as [a|e]; simpl; [eauto|discriminate]. Qed.

(** Opens a successful chain of [let*] in [H], one binding at a time. *)
Ltac open_chain H :=
  repeat
    (let a := fresh "v" in
     let E := fresh "E" in
     apply rbind_ok in H; destruct H as (a & E & H); cbv beta in H).

Lemma rmap_ok {A B} (f : A -> Result B) (xs : list A) (ys : list B) :
  rmap f xs = Ok ys <-> Forall2 (fun x y => f x = Ok y) xs ys.
Proof.
  revert ys. induction xs as [|x xs IH]; intros ys; simpl.
  - split; [intros [= <-]; constructor|by inversion 1].
  - split.
    + intros H. open_chain H. inversion H; subst. constructor; [done|by apply IH].
    + inversion 1 as [|? y ? ys' Hx Hrest]; subst. rewrite Hx. simpl.
      apply IH in Hrest. by rewrite Hrest.
Qed.

Lemma rmap_length {A B} (f : A -> Result B) (xs : list A) (ys : list B) :
  rmap f xs = Ok ys -> length ys = length xs.
Proof. intros H. apply rmap_ok in H. symmetry. by eapply Forall2_length. Qed.

Lemma dict_lookup_set {V} (k k' : string) (v : V) (d : list (string * V)) :
  dict_lookup k (dict_set k' v d)
  = if String.eqb k k' then Some v else dict_lookup k d.
Proof.
  induction d as [|[k'' v''] d IH]; simpl; [done|].
  destruct (String.eqb k' k'') eqn:E'; simpl.
  - apply String.eqb_eq in E'. subst k''. by destruct (String.eqb k k').
  - rewrite IH. destruct (String.eqb k k') eqn:E; [|done].
    apply String.eqb_eq in E. subst k'. by rewrite E'.
Qed.

Lemma dict_mem_set {V} (k k' : string) (v : V) (d : list (string * V)) :
  dict_mem k (dict_set k' v d) = String.eqb k k' || dict_mem k d.
Proof. unfold dict_mem. rewrite dict_lookup_set. by destruct (String.eqb k k'). Qed.

(** What a facade method returns, it got from the request executor and the
    extractor; all it adds is a log record. *)
Lemma facade_ok {A B} (request : M A) (extract : A -> Result B) (w w' : World) (b : B) :
  try_except
    (let! response := request in
     let! records := lift (extract response) in
     logger_info ;;
     ret records)
    is_exception
    (fun e => logger_error ;; raise e) w = (Ok b, w') ->
  exists response w1,
    request w = (Ok response, w1) /\ extract response = Ok b /\ w' = extend w1 [EvLog INFO].
Proof.
  unfold try_except, bind, lift, logger_info, logger_error, emit, ret, raise; simpl.
  destruct (request w) as [[response|e] w1]; simpl; [|discriminate].
  destruct (extract response) as [b'|e] eqn:Hextract; simpl; [|discriminate].
  intros [= -> <-]. by exists response, w1.
Qed.

(** *** Seasons *)

(** The years of a seasons response, as [int(season["season"])] reads them,
    in the order of the response. *)
Definition season_years (response : Json) : Result (list Z) :=
  let* seasons_data := path response ["MRData"; "SeasonTable"; "Seasons"] in
  let* items := iterate seasons_data in
  rmap (fun season => let* s := subscript season "season" in py_int s) items.

Lemma seasons_in_range_filter (start_year end_year : Z) (items : list Json) (seasons : list Z) :
  seasons_in_range start_year end_year items = Ok seasons ->
  exists years,
    rmap (fun season => let* s := subscript season "season" in py_int s) items = Ok years /\
    seasons = filter (fun y => start_year <= y <= end_year) years.
Proof.
  revert seasons. induction items as [|season items IH]; intros seasons H; simpl in H.
  - inversion H; subst. by exists [].
  - open_chain H. simpl. rewrite E. simpl. rewrite E0. simpl.
    destruct ((start_year <=? v0) && (v0 <=? end_year)) eqn:Hin.
    + open_chain H. inversion H; subst.
      rewrite E in E1. inversion E1; subst v1.
      rewrite E0 in E2. inversion E2; subst v2.
      destruct (IH _ E3) as (years & -> & ->).
      exists (v0 :: years). split; [done|].
      rewrite filter_cons_True; [done|]. lia.
    + destruct (IH _ H) as (years & -> & ->).
      exists (v0 :: years). split; [done|].
      rewrite filter_cons_False; [done|]. lia.
Qed.

(** C4, as the collector behaves: [get_seasons] returns the years of the
    response that lie between [start_year] and [end_year], both bounds
    included (the current year standing for a missing [end_year]), in
    ascending order; a year is returned as many times as the response lists
    it. *)
Theorem seasons_sorted_in_range (self : ErgastCollector) (start_year : Z)
    (end_year : option Z) (w w' : World) (seasons : list Z) :
  get_seasons self start_year end_year w = (Ok seasons, w') ->
  let last := from_option id (year_now w) end_year in
  exists response w1 years,
    _make_request self "seasons" None w = (Ok response, w1) /\
    season_years response = Ok years /\
    Sorted Z.le seasons /\
    seasons ≡ₚ filter (fun y => start_year <= y <= last) years /\
    (forall y, y ∈ seasons <-> y ∈ years /\ start_year <= y <= last).
Proof.
  intros Hget last.
  assert (Hdefault :
    get_seasons self start_year end_year w
    = try_except
        (let! response := _make_request self "seasons" None in
         let! seasons := lift (seasons_of_response start_year last response) in
         logger_info ;;
         ret seasons)
        is_exception
        (fun e => logger_error ;; raise e) w).
  { unfold get_seasons, last. by destruct end_year. }
  rewrite Hdefault in Hget. clear Hdefault.
  apply facade_ok in Hget. destruct Hget as (response & w1 & Hreq & Hext & _).
  unfold seasons_of_response in Hext. open_chain Hext. inversion Hext; subst seasons.
  destruct (seasons_in_range_filter _ _ _ _ E1) as (years & Hyears & ->).
  exists response, w1, years.
  assert (Hperm : sorted (filter (fun y => start_year <= y <= last) years)
                  ≡ₚ filter (fun y => start_year <= y <= last) years)
    by apply merge_sort_Permutation.
  split; [done|].
  split; [unfold season_years; rewrite E; simpl; rewrite E0; simpl; exact Hyears|].
  split; [apply Sorted_merge_sort; apply _|].
  split; [exact Hperm|].
  intros y. rewrite Hperm, list_elem_of_filter. tauto.
Qed.

(** *** Numerals: [int] reads what [str] prints *)

Section Numerals.

Import Decimal.

(** The number that a run of digits adds to what was read before. *)
Fixpoint uint_val (acc : N) (d : uint) : N :=
  match d with
  | Nil => acc
  | D0 d' => uint_val (acc * 10 + 0) d'
  | D1 d' => uint_val (acc * 10 + 1) d'
  | D2 d' => uint_val (acc * 10 + 2) d'
  | D3 d' => uint_val (acc * 10 + 3) d'
  | D4 d' => uint_val (acc * 10 + 4) d'
  | D5 d' => uint_val (acc * 10 + 5) d'
  | D6 d' => uint_val (acc * 10 + 6) d'
  | D7 d' => uint_val (acc * 10 + 7) d'
  | D8 d' => uint_val (acc * 10 + 8) d'
  | D9 d' => uint_val (acc * 10 + 9) d'
  end%N.

Fixpoint no_space (s : string) : bool :=
  match s with
  | EmptyString => true
  | String c s' => negb (is_space c) && no_space s'
  end.

Lemma digitpart_uint (d : uint) : forall acc,
  digitpart acc true (NilEmpty.string_of_uint d) = Some (uint_val acc d).
Proof. induction d; intros acc; simpl; try apply IHd; reflexivity. Qed.

Lemma digitpart_uint_first (d : uint) (acc : N) :
  d <> Nil -> digitpart acc false (NilEmpty.string_of_uint d) = Some (uint_val acc d).
Proof. destruct d; intros Hd; simpl; try apply digitpart_uint; done. Qed.

Lemma uint_val_pos (d : uint) : forall p,
  uint_val (Npos p) d = Npos (Pos.of_uint_acc d p).
Proof.
  induction d; intros p; simpl; [done|..];
    match goal with
    | |- uint_val ?a _ = _ =>
        match goal with
        | |- _ = Npos (Pos.of_uint_acc _ ?q) =>
            replace a with (Npos q) by lia; apply IHd
        end
    end.
Qed.

Lemma uint_val_0 (d : uint) : uint_val 0 d = Pos.of_uint d.
Proof. induction d; simpl; [done|exact IHd|..]; apply uint_val_pos. Qed.

Lemma uint_all_digits (d : uint) : all_digits (NilEmpty.string_of_uint d) = true.
Proof. induction d; simpl; done. Qed.

Lemma all_digits_no_space (s : string) : all_digits s = true -> no_space s = true.
Proof.
  induction s as [|c s IH]; simpl; [done|].
  rewrite andb_true_iff. intros [Hc Hs]. rewrite (IH Hs), andb_true_r.
  unfold is_digit in Hc. unfold is_space.
  apply andb_true_iff in Hc. destruct Hc as [H1 H2].
  apply N.leb_le in H1, H2.
  destruct (9 <=? code c)%N eqn:A, (code c <=? 13)%N eqn:B,
           (code c =? 32)%N eqn:C; simpl; try done;
    apply N.leb_le in B || apply N.eqb_eq in C; lia.
Qed.

Lemma rstrip_no_space (s : string) : no_space s = true -> rstrip s = s.
Proof.
  induction s as [|c s IH]; simpl; [done|].
  rewrite andb_true_iff, negb_true_iff. intros [Hc Hs].
  rewrite (IH Hs), Hc. by destruct s.
Qed.

Lemma strip_no_space (s : string) : no_space s = true -> strip s = s.
Proof.
  intros Hs. unfold strip.
  assert (Hl : lstrip s = s).
  { destruct s as [|c s']; simpl in *; [done|].
    apply andb_true_iff in Hs. destruct Hs as [Hc _].
    apply negb_true_iff in Hc. by rewrite Hc. }
  rewrite Hl. by apply rstrip_no_space.
Qed.

Lemma all_digits_ascii (s : string) : all_digits s = true -> is_ascii s = true.
Proof.
  induction s as [|c s IH]; simpl; [done|].
  rewrite andb_true_iff. intros [Hc Hs]. rewrite (IH Hs), andb_true_r.
  unfold is_digit in Hc. apply andb_true_iff in Hc. destruct Hc as [_ Hc].
  apply N.leb_le in Hc. apply N.ltb_lt. lia.
Qed.

(** An ASCII string goes to the parser as it is. *)
Lemma ascii_form_ascii (s : string) : is_ascii s = true -> ascii_form s = s.
Proof. intros Hs. unfold ascii_form. by rewrite Hs. Qed.

Lemma int_of_str_uint (d : uint) :
  d <> Nil -> int_of_str (NilEmpty.string_of_uint d) = Ok (Z.of_N (Pos.of_uint d)).
Proof.
  intros Hd. unfold int_of_str, parse_int.
  rewrite ascii_form_ascii by apply all_digits_ascii, uint_all_digits.
  rewrite strip_no_space by apply all_digits_no_space, uint_all_digits.
  assert (Hbody : digitpart 0 false (NilEmpty.string_of_uint d) = Some (Pos.of_uint d)).
  { rewrite digitpart_uint_first by done. by rewrite uint_val_0. }
  destruct d; try done; simpl in *; by rewrite Hbody.
Qed.

Lemma int_of_str_neg_uint (d : uint) :
  d <> Nil ->
  int_of_str (String "-" (NilEmpty.string_of_uint d)) = Ok (- Z.of_N (Pos.of_uint d)).
Proof.
  intros Hd. unfold int_of_str, parse_int.
  rewrite ascii_form_ascii
    by (simpl; apply all_digits_ascii, uint_all_digits).
  rewrite strip_no_space.
  - simpl. rewrite digitpart_uint_first by done. by rewrite uint_val_0.
  - simpl. by apply all_digits_no_space, uint_all_digits.
Qed.

(** [int(str(z)) == z] *)
Lemma int_of_str_of_int (z : Z) : int_of_str (str_of_int z) = Ok z.
Proof.
  destruct z as [|p|p]; [reflexivity|..]; unfold str_of_int; simpl.
  - pose proof (DecimalPos.Unsigned.to_uint_nonnil p) as Hnil.
    unfold NilZero.string_of_uint.
    destruct (Pos.to_uint p) eqn:Hp; try done;
      rewrite <- Hp; (rewrite int_of_str_uint by (rewrite Hp; done));
      by rewrite DecimalPos.Unsigned.of_to.
  - pose proof (DecimalPos.Unsigned.to_uint_nonnil p) as Hnil.
    unfold NilZero.string_of_uint.
    destruct (Pos.to_uint p) eqn:Hp; try done;
      rewrite <- Hp; (rewrite int_of_str_neg_uint by (rewrite Hp; done));
      by rewrite DecimalPos.Unsigned.of_to.
Qed.

Lemma str_of_int_inj (z z' : Z) : str_of_int z = str_of_int z' -> z = z'.
Proof.
  intros H. pose proof (int_of_str_of_int z) as Hz.
  rewrite H, int_of_str_of_int in Hz. by inversion Hz.
Qed.

(** [str(z)] has no underscore. *)
Lemma all_digits_no_underscore (s : string) :
  all_digits s = true -> has_char "_" s = false.
Proof.
  induction s as [|c s IH]; simpl; [done|].
  rewrite andb_true_iff. intros [Hc Hs]. rewrite (IH Hs), orb_false_r.
  destruct (Ascii.eqb c "_") eqn:E; [|done].
  apply Ascii.eqb_eq in E. by subst c.
Qed.

Lemma str_of_int_no_underscore (z : Z) : has_char "_" (str_of_int z) = false.
Proof.
  destruct z as [|p|p]; [reflexivity|..]; unfold str_of_int; simpl;
    unfold NilZero.string_of_uint;
    pose proof (uint_all_digits (Pos.to_uint p)) as Hd;
    apply all_digits_no_underscore in Hd;
    destruct (Pos.to_uint p); simpl in *; done.
Qed.

(** Two texts joined by an underscore come apart in one way only when the
    left ones have no underscore. *)
Lemma underscore_split (a b a' b' : string) :
  has_char "_" a = false -> has_char "_" a' = false ->
  a ++ "_" ++ b = a' ++ "_" ++ b' -> a = a' /\ b = b'.
Proof.
  revert a'. induction a as [|c a IH]; intros a' Ha Ha' Heq.
  - destruct a' as [|c' a'']; simpl in *; [by inversion Heq|].
    inversion Heq; subst c'. simpl in Ha'. done.
  - destruct a' as [|c' a'']; simpl in *.
    + inversion Heq; subst c. simpl in Ha. done.
    + inversion Heq; subst c'.
      apply orb_false_iff in Ha, Ha'.
      destruct (IH a'' (proj2 Ha) (proj2 Ha') H1) as [-> ->]. done.
Qed.

End Numerals.

(** *** Records of the race-scoped extractors *)

(** Opens a successful record construction in [H] up to its first branch. *)
Ltac open_record H :=
  repeat first [ progress open_chain H | progress cbv zeta in H ].

(** Opens every successful chain in the context, through its branches. *)
Ltac open_all :=
  repeat match goal with
    | H : rbind _ _ = Ok _ |- _ =>
        let a := fresh "v" in
        let E := fresh "E" in
        apply rbind_ok in H; destruct H as (a & E & H); cbv beta in H
    | H : (let _ := _ in _) = Ok _ |- _ => cbv zeta in H
    | H : (if ?b then _ else _) = Ok _ |- _ => destruct b eqn:?
    | H : Raise _ = Ok _ |- _ => discriminate H
    | H : Ok _ = Ok _ |- _ => inversion H; clear H; subst
    end.

(** Reads a key in a record built by [dict_set] and [dict_update]. *)
Ltac read_record :=
  unfold dict_of, dict_update; simpl; rewrite ?dict_lookup_set; simpl.

(** The race blocks of a results, qualifying or races response, and the
    result items of a race block. *)
Definition race_blocks (response : Json) : list Json :=
  match (let* races_data := path response ["MRData"; "RaceTable"; "Races"] in
         iterate races_data) with
  | Ok races => races
  | Raise _ => []
  end.

Definition result_items (race : Json) : list Json :=
  match (let* rs := subscript race "Results" in iterate rs) with
  | Ok items => items
  | Raise _ => []
  end.

Section Extractors.

Context {Timestamp : Type} (to_datetime : Json -> Result Timestamp).

Abbreviation Row := (list (string * Value Timestamp)).

(** [rec] has the season, round and race name of the race block [race]: the
    integers that [int] reads from its season and round, and its race name
    as it stands. *)
Definition copies_race (race : Json) (rec : Row) : Prop :=
  exists s r name season round,
    subscript race "season" = Ok s /\ py_int s = Ok season /\
    subscript race "round" = Ok r /\ py_int r = Ok round /\
    subscript race "raceName" = Ok name /\
    dict_lookup "season" rec = Some (VInt season) /\
    dict_lookup "round" rec = Some (VInt round) /\
    dict_lookup "race_name" rec = Some (VJson name).

Lemma race_context_copies (race : Json) (context : Row) :
  race_context to_datetime race = Ok context -> copies_race race context.
Proof.
  unfold race_context. intros H. open_record H. inversion H; subst context.
  exists v, v1, v3, v0, v2. repeat split; try done.
Qed.

(** The keys of the race context that [result_record] leaves alone. *)
Definition context_key (k : string) : bool :=
  String.eqb k "season" || String.eqb k "round" || String.eqb k "race_name"
  || String.eqb k "circuit_id" || String.eqb k "date".

Lemma result_record_keeps_context (race_info rec : Row) (result : Json) (k : string) :
  result_record race_info result = Ok rec ->
  context_key k = true ->
  dict_lookup k rec = dict_lookup k race_info.
Proof.
  unfold result_record, context_key. intros H Hk.
  assert (Hkey : k = "season" \/ k = "round" \/ k = "race_name"
                 \/ k = "circuit_id" \/ k = "date").
  { rewrite !orb_true_iff, !String.eqb_eq in Hk. tauto. }
  open_all;
    destruct Hkey as [->|[->|[->|[->| ->]]]]; read_record; reflexivity.
Qed.

Lemma result_record_copies (race : Json) (race_info rec : Row) (result : Json) :
  race_context to_datetime race = Ok race_info ->
  result_record race_info result = Ok rec ->
  copies_race race rec.
Proof.
  intros Hctx Hrec. apply race_context_copies in Hctx.
  destruct Hctx as (s & r & name & season & round & ? & ? & ? & ? & ? & Hs & Hr & Hn).
  exists s, r, name, season, round. repeat split; try done.
  - by rewrite (result_record_keeps_context _ _ _ "season" Hrec).
  - by rewrite (result_record_keeps_context _ _ _ "round" Hrec).
  - by rewrite (result_record_keeps_context _ _ _ "race_name" Hrec).
Qed.

Lemma race_results_items (race : Json) (recs : list Row) :
  race_results to_datetime race = Ok recs ->
  exists race_info,
    race_context to_datetime race = Ok race_info /\
    Forall2 (fun item rec => result_record race_info item = Ok rec)
      (result_items race) recs.
Proof.
  unfold race_results, result_items. intros H. open_record H.
  exists v. split; [done|]. rewrite E0. simpl. rewrite E1. by apply rmap_ok.
Qed.

Lemma concat_length_sum {A B} (size : A -> nat) (xs : list A) (parts : list (list B)) :
  Forall2 (fun x part => length part = size x) xs parts ->
  length (concat parts) = sum_list (List.map size xs).
Proof.
  induction 1 as [|x part xs parts Hx _ IH]; simpl; [done|].
  rewrite length_app, Hx, IH. done.
Qed.

(** C5.  When the results extractor returns, it returns the records of the
    race blocks one block after the other, one record per result item of the
    block and in the order of the items: as many records as the blocks have
    result items in all.  Each record holds the race context of its block as
    it was built (season, round, race name, circuit id and date): the season
    and the round that [int] reads from the block, and its race name
    unchanged. *)
Theorem results_one_record_per_item (response : Json) (records : list Row) :
  results_of_response to_datetime response = Ok records ->
  length records
  = sum_list (List.map (fun race => length (result_items race)) (race_blocks response)) /\
  exists per_race : list (list Row),
    records = concat per_race /\
    Forall2 (fun race recs =>
               length recs = length (result_items race) /\
               Forall (copies_race race) recs /\
               exists race_info,
                 race_context to_datetime race = Ok race_info /\
                 Forall2 (fun item rec => result_record race_info item = Ok rec)
                   (result_items race) recs /\
                 Forall (fun rec => forall k, context_key k = true ->
                                    dict_lookup k rec = dict_lookup k race_info) recs)
            (race_blocks response) per_race.
Proof.
  unfold results_of_response. intros H. open_all.
  assert (Hblocks : race_blocks response = v0).
  { unfold race_blocks. rewrite E. simpl. by rewrite E0. }
  rewrite Hblocks. apply rmap_ok in E1.
  assert (Hper : Forall2 (fun race recs =>
                            length recs = length (result_items race) /\
                            Forall (copies_race race) recs /\
                            exists race_info,
                              race_context to_datetime race = Ok race_info /\
                              Forall2 (fun item rec => result_record race_info item = Ok rec)
                                (result_items race) recs /\
                              Forall (fun rec => forall k, context_key k = true ->
                                        dict_lookup k rec = dict_lookup k race_info) recs)
                         v0 v1).
  { eapply Forall2_impl; [exact E1|]. intros race recs Hrace. simpl in Hrace.
    apply race_results_items in Hrace. destruct Hrace as (race_info & Hctx & Hitems).
    split; [symmetry; by eapply Forall2_length|].
    split; [|exists race_info; split; [done|]; split; [done|]].
    - eapply Forall2_Forall_r; [exact Hitems|].
      apply Forall_forall. intros item _ rec Hrec.
      by eapply result_record_copies.
    - eapply Forall2_Forall_r; [exact Hitems|].
      apply Forall_forall. intros item _ rec Hrec k Hk.
      by eapply result_record_keeps_context. }
  split; [|by exists v1].
  apply concat_length_sum. eapply Forall2_impl; [exact Hper|]. by intros ? ? [? _].
Qed.

(** Every record of the results extractor comes from a result item of a
    race block of the response. *)
Definition result_of (response : Json) (race result : Json) (rec : Row) : Prop :=
  race ∈ race_blocks response /\ result ∈ result_items race /\
  exists race_info,
    race_context to_datetime race = Ok race_info /\
    result_record race_info result = Ok rec.

Lemma results_from_items (response : Json) (records : list Row) (rec : Row) :
  results_of_response to_datetime response = Ok records ->
  rec ∈ records ->
  exists race result, result_of response race result rec.
Proof.
  unfold results_of_response. intros H Hrec. open_all.
  assert (Hblocks : race_blocks response = v0).
  { unfold race_blocks. rewrite E. simpl. by rewrite E0. }
  apply rmap_ok in E1.
  apply list_elem_of_In, in_concat in Hrec. destruct Hrec as (recs & Hrecs & Hin).
  apply list_elem_of_In in Hrecs, Hin.
  destruct (proj1 (list_elem_of_lookup _ _) Hrecs) as [i Hi].
  destruct (Forall2_lookup_r _ _ _ _ _ E1 Hi) as (race & Hrace & Hres).
  apply race_results_items in Hres. destruct Hres as (race_info & Hctx & Hitems).
  destruct (proj1 (list_elem_of_lookup _ _) Hin) as [j Hj].
  destruct (Forall2_lookup_r _ _ _ _ _ Hitems Hj) as (item & Hitem & Hrecord).
  exists race, item. unfold result_of. rewrite Hblocks.
  split; [by eapply list_elem_of_lookup_2|].
  split; [by eapply list_elem_of_lookup_2|].
  by exists race_info.
Qed.

(** Two reads of the same thing gave the same value. *)
Ltac same_reads :=
  repeat match goal with
    | H1 : ?x = Ok ?a, H2 : ?x = Ok ?b |- _ =>
        rewrite H1 in H2; inversion H2; clear H2; subst
    end.

(** The keys that the race context holds, and no other. *)
Lemma race_context_keys (race : Json) (race_info : Row) (k : string) :
  race_context to_datetime race = Ok race_info ->
  context_key k = false -> dict_lookup k race_info = None.
Proof.
  unfold race_context, context_key. intros H Hk. open_all.
  rewrite !orb_false_iff in Hk. destruct Hk as ((((H1 & H2) & H3) & H4) & H5).
  read_record. by rewrite H1, H2, H3, H4, H5.
Qed.

(** *** Position and grid *)






(** The qualifying extractor reads the position with a bare [int]. *)
Lemma qualifying_record_position (race_info : Row) (qual : Json) (s : string) :
  subscript qual "position" = Ok (JStr s) ->
  int_of_str s = Raise ValueError ->
  qualifying_record race_info qual = Raise ValueError.
Proof. intros Hk Hs. unfold qualifying_record. rewrite Hk. simpl. by rewrite Hs. Qed.

(** *** Defaults *)





(** *** Points *)

(** The source of a float carries a minus sign. *)
Definition minus_signed (x : Json) : bool :=
  match x with
  | JStr s => fst (split_sign (strip (ascii_form s)))
  | JInt z => z <? 0
  | _ => false
  end.

Lemma py_float_nonneg (x : Json) (f : PyFloat) :
  py_float x = Ok f -> minus_signed x = false -> f <> FNan -> float_nonneg f = true.
Proof.
  destruct x as [|b|z|s|items|fields]; simpl; try discriminate.
  - intros [= <-]. done.
  - intros [= <-] Hz. simpl. by rewrite Hz.
  - unfold float_of_str, parse_float.
    destruct (split_sign (strip (ascii_form s))) as [neg body]. simpl.
    intros H ->.
    destruct (String.eqb (lowercase body) "inf" || String.eqb (lowercase body) "infinity");
      [by inversion H|].
    destruct (String.eqb (lowercase body) "nan"); [by inversion H|].
    unfold scan_number in H.
    destruct (scan_digits 0 0 body) as [[m1 n1] r1].
    destruct r1 as [|c r2].
    + destruct (n1 + 0)%nat; [discriminate|].
      destruct (scan_exponent ""); inversion H; done.
    + destruct (Ascii.eqb c ".") eqn:Hc.
      * apply Ascii.eqb_eq in Hc. subst c.
        destruct (scan_digits m1 0 r2) as [[m2 n2] r3].
        destruct (n1 + n2)%nat; [discriminate|].
        destruct (scan_exponent r3); inversion H; done.
      * assert (Hsame :
          match String c r2 with
          | String "." r2' =>
              let '(m2, n2, r3) := scan_digits m1 0 r2' in (m2, n2, r3)
          | _ => (m1, 0%nat, String c r2)
          end = (m1, 0%nat, String c r2)).
        { destruct c as [[] [] [] [] [] [] [] []]; try reflexivity. discriminate Hc. }
        rewrite Hsame in H.
        destruct (n1 + 0)%nat; [discriminate|].
        destruct (scan_exponent (String c r2)); inversion H; done.
Qed.

(** C8, as the collector behaves: the points of a record are the float that
    [float] reads from the points of its result item, with whatever sign the
    source has.  They are non-negative when the source has no minus sign and
    is not a NaN. *)
Theorem points_as_read (response : Json) (records : list Row) (rec : Row) :
  results_of_response to_datetime response = Ok records ->
  rec ∈ records ->
  exists race result p f,
    result_of response race result rec /\
    subscript result "points" = Ok p /\
    py_float p = Ok f /\
    dict_lookup "points" rec = Some (VFloat f) /\
    (minus_signed p = false -> f <> FNan -> float_nonneg f = true).
Proof.
  intros Hres Hrec.
  destruct (results_from_items _ _ _ Hres Hrec) as (race & result & Hof).
  pose proof Hof as (_ & _ & race_info & Hctx & Hrecord).
  unfold result_record in Hrecord.
  open_record Hrecord.
  exists race, result, v9, v10. split; [exact Hof|].
  split; [done|]. split; [done|].
  split; [|by apply py_float_nonneg].
  open_all; read_record; reflexivity.
Qed.

(** *** Race ids *)

(** ["{season}_{round}"] for two integers. *)
Definition race_id_of (season round : Z) : string :=
  str_of_int season ++ "_" ++ str_of_int round.

(** A JSON value that is the integer [z], or the text that Python prints for
    [z]: no sign but the minus, no leading zero, no space, no underscore. *)
Definition plain_numeral (x : Json) (z : Z) : Prop :=
  x = JInt z \/ x = JStr (str_of_int z).

Lemma plain_numeral_reads (x : Json) (z : Z) :
  plain_numeral x z -> py_int x = Ok z /\ py_str x = str_of_int z.
Proof. intros [->| ->]; simpl; [done|]. by rewrite int_of_str_of_int. Qed.

Lemma race_id_of_inj (n n' : Z * Z) :
  race_id_of n.1 n.2 = race_id_of n'.1 n'.2 -> n = n'.
Proof.
  destruct n as [a b], n' as [a' b']. unfold race_id_of. simpl. intros H.
  apply underscore_split in H; try apply str_of_int_no_underscore.
  destruct H as [Ha Hb]. apply str_of_int_inj in Ha, Hb. by subst.
Qed.

(** The season, round and race id of a record of the races extractor, and
    where they come from in its race block. *)
Definition race_id_source (race : Json) (rec : Row) : Prop :=
  exists s r season round,
    subscript race "season" = Ok s /\ py_int s = Ok season /\
    subscript race "round" = Ok r /\ py_int r = Ok round /\
    dict_lookup "season" rec = Some (VInt season) /\
    dict_lookup "round" rec = Some (VInt round) /\
    dict_lookup "race_id" rec = Some (VStr (py_str s ++ "_" ++ py_str r)).

Lemma race_record_id (race : Json) (rec : Row) :
  race_record to_datetime race = Ok rec -> race_id_source race rec.
Proof.
  unfold race_record. intros H. open_all; same_reads.
  all: eexists _, _, _, _; repeat split; try eassumption; read_record; reflexivity.
Qed.

(** The race block [race] numbers its season and round [n] in plain
    numerals. *)
Definition numbered (race : Json) (n : Z * Z) : Prop :=
  exists s r,
    subscript race "season" = Ok s /\ subscript race "round" = Ok r /\
    plain_numeral s n.1 /\ plain_numeral r n.2.

Lemma numbered_race_id (race : Json) (rec : Row) (n : Z * Z) :
  race_id_source race rec -> numbered race n ->
  dict_lookup "season" rec = Some (VInt n.1) /\
  dict_lookup "round" rec = Some (VInt n.2) /\
  dict_lookup "race_id" rec = Some (VStr (race_id_of n.1 n.2)).
Proof.
  intros (s & r & season & round & Hs & Hsi & Hr & Hri & Hseason & Hround & Hid)
         (s' & r' & Hs' & Hr' & Hps & Hpr).
  rewrite Hs in Hs'. inversion Hs'; subst s'.
  rewrite Hr in Hr'. inversion Hr'; subst r'.
  apply plain_numeral_reads in Hps, Hpr.
  destruct Hps as [Hsi' Hss], Hpr as [Hri' Hrs].
  rewrite Hsi in Hsi'. inversion Hsi'; subst season.
  rewrite Hri in Hri'. inversion Hri'; subst round.
  unfold race_id_of. by rewrite <- Hss, <- Hrs.
Qed.

(** C7, as the collector behaves.  In every record that the races facade
    returns, [race_id] is the season of the race block, an underscore and its
    round, as the response spells them, while [season] and [round] are the
    integers read from them.  The three agree, [race_id] being
    ["{season}_{round}"] for the record's own [season] and [round], when the
    response spells both as plain numerals; and then the race ids of the
    table are pairwise different provided no two race blocks have the same
    season and round. *)
Theorem race_id_from_source_text (self : ErgastCollector) (season : Json)
    (w w' : World) (records : list Row) :
  get_races to_datetime self season w = (Ok records, w') ->
  exists response w1,
    _make_request self (py_str season) None w = (Ok response, w1) /\
    Forall2 race_id_source (race_blocks response) records /\
    (forall numbers : list (Z * Z),
        Forall2 numbered (race_blocks response) numbers ->
        Forall2 (fun n rec =>
                   dict_lookup "season" rec = Some (VInt n.1) /\
                   dict_lookup "round" rec = Some (VInt n.2) /\
                   dict_lookup "race_id" rec = Some (VStr (race_id_of n.1 n.2)))
                numbers records /\
        (NoDup numbers -> NoDup (List.map (dict_lookup "race_id") records))).
Proof.
  intros Hget. unfold get_races in Hget.
  apply facade_ok in Hget. destruct Hget as (response & w1 & Hreq & Hext & _).
  exists response, w1. split; [exact Hreq|].
  unfold races_of_response in Hext. open_all.
  assert (Hblocks : race_blocks response = v0).
  { unfold race_blocks. rewrite E. simpl. by rewrite E0. }
  rewrite Hblocks. apply rmap_ok in Hext.
  assert (Hsrc : Forall2 race_id_source v0 records).
  { eapply Forall2_impl; [exact Hext|]. intros race rec. apply race_record_id. }
  split; [exact Hsrc|].
  intros numbers Hnum.
  assert (Hall : Forall2 (fun n rec =>
                   dict_lookup "season" rec = Some (VInt n.1) /\
                   dict_lookup "round" rec = Some (VInt n.2) /\
                   dict_lookup "race_id" rec = Some (VStr (race_id_of n.1 n.2)))
                numbers records).
  { clear -Hsrc Hnum. revert numbers Hnum.
    induction Hsrc as [|race rec races recs Hrace _ IH]; intros numbers Hnum.
    - inversion Hnum; subst. constructor.
    - inversion Hnum as [|? n ? ns Hn Hns]; subst.
      constructor; [by apply (numbered_race_id race)|by apply IH]. }
  split; [exact Hall|].
  intros Hnodup.
  assert (Hids : List.map (dict_lookup "race_id") records
                 = (fun n => Some (VStr (race_id_of n.1 n.2))) <$> numbers).
  { clear -Hall. induction Hall as [|n rec ns recs (_ & _ & Hid) _ IH]; simpl; [done|].
    by rewrite Hid, IH. }
  rewrite Hids. apply NoDup_fmap_2; [|exact Hnodup].
  intros n n' Heq. inversion Heq. by apply race_id_of_inj.
Qed.

End Extractors.

(** ** Optional fields *)

Lemma dict_lookup_remove {V} (k k' : string) (d : list (string * V)) :
  dict_lookup k (dict_remove k' d)
  = if String.eqb k k' then None else dict_lookup k d.
Proof.
  induction d as [|[k'' v''] d IH]; simpl; [by destruct (String.eqb k k')|].
  destruct (String.eqb k' k'') eqn:E'; simpl.
  - rewrite IH. destruct (String.eqb k k') eqn:E; [done|].
    destruct (String.eqb k k'') eqn:E''; [|done].
    apply String.eqb_eq in E', E''. subst. by rewrite String.eqb_refl in E.
  - rewrite IH. destruct (String.eqb k k'') eqn:E''; [|done].
    destruct (String.eqb k k') eqn:E; [|done].
    apply String.eqb_eq in E, E''. subst. by rewrite String.eqb_refl in E'.
Qed.

(** The source item [x] without its field [k]. *)
Definition without (k : string) (x : Json) : Json :=
  match x with
  | JObj fields => JObj (dict_remove k fields)
  | _ => x
  end.

(** Walks through the successful chain [H] and through the same steps of the
    goal. *)
Ltac sync H :=
  repeat match type of H with
    | rbind ?X _ = Ok _ =>
        let E := fresh "E" in
        destruct X eqn:E; rewrite ?E in H; simpl in H; [|discriminate H]; simpl
    | (if ?b then _ else _) = Ok _ =>
        let E := fresh "E" in
        destruct b eqn:E; rewrite ?E in H; simpl in H; simpl
    | (let _ := _ in _) = Ok _ => cbv zeta in H
    end.

(** Finds out which of two rows a branch of the chain built. *)
Ltac settle_rows :=
  repeat match goal with
    | E : (if ?b then _ else _) = Ok ?a |- _ =>
        match type of a with
        | list (string * Value _) =>
            destruct b; [open_record E|]; inversion E; clear E; subst a
        end
    end.

(** Compares the key [k], which [Hk] keeps out of a list, with the keys that
    [dict_lookup_set] tests. *)
Ltac other_key k Hk :=
  repeat (is_var k;
          match goal with
          | |- context [String.eqb k ?k'] =>
              destruct (String.eqb_spec k k') as [->|?];
              [try (exfalso; apply Hk; apply list_elem_of_In; simpl; tauto); simpl|]
          end).

(** *** Fields inside a block *)

(** The source item [x] with [f] applied to its field [k], when it has one. *)
Definition within (k : string) (f : Json -> Json) (x : Json) : Json :=
  match x with
  | JObj fields =>
      match dict_lookup k fields with
      | Some v => JObj (dict_set k (f v) fields)
      | None => x
      end
  | _ => x
  end.

Lemma subscript_within (k k' : string) (f : Json -> Json) (x : Json) :
  subscript (within k f x) k'
  = if String.eqb k' k then let* v := subscript x k in Ok (f v) else subscript x k'.
Proof.
  destruct x as [| | | | |fields]; simpl; try by destruct (String.eqb k' k).
  destruct (dict_lookup k fields) as [v|] eqn:Hk; simpl.
  - rewrite dict_lookup_set. destruct (String.eqb_spec k' k) as [->|]; [done|].
    done.
  - destruct (String.eqb_spec k' k) as [->|]; [|done]. by rewrite Hk.
Qed.

Lemma contains_within (k k' : string) (f : Json -> Json) (x : Json) :
  contains k' (within k f x) = contains k' x.
Proof.
  destruct x as [| | | | |fields]; simpl; try done.
  destruct (dict_lookup k fields) as [v|] eqn:Hk; simpl; [|done].
  rewrite dict_mem_set. destruct (String.eqb_spec k' k) as [->|]; [|done].
  unfold dict_mem. by rewrite Hk.
Qed.

Lemma get_default_within (k k' : string) (f : Json -> Json) (x d : Json) :
  String.eqb k' k = false ->
  get_default (within k f x) k' d = get_default x k' d.
Proof.
  intros Hne. destruct x as [| | | | |fields]; simpl; try done.
  destruct (dict_lookup k fields) as [v|] eqn:Hk; simpl; [|done].
  by rewrite dict_lookup_set, Hne.
Qed.

Lemma subscript_without (k k' : string) (x : Json) :
  String.eqb k' k = false -> subscript (without k x) k' = subscript x k'.
Proof.
  intros Hne. destruct x as [| | | | |fields]; simpl; try done.
  by rewrite dict_lookup_remove, Hne.
Qed.

Lemma contains_without (k k' : string) (x : Json) :
  String.eqb k' k = false -> contains k' (without k x) = contains k' x.
Proof.
  intros Hne. destruct x as [| | | | |fields]; simpl; try done.
  unfold dict_mem. by rewrite dict_lookup_remove, Hne.
Qed.

Lemma get_default_without (k k' : string) (x d : Json) :
  String.eqb k' k = false -> get_default (without k x) k' d = get_default x k' d.
Proof.
  intros Hne. destruct x as [| | | | |fields]; simpl; try done.
  by rewrite dict_lookup_remove, Hne.
Qed.

Lemma subscript_contains (x v : Json) (k : string) :
  subscript x k = Ok v -> contains k x = Ok true.
Proof.
  destruct x as [| | | | |fields]; try discriminate. simpl. unfold dict_mem.
  by destruct (dict_lookup k fields).
Qed.

(** A value read twice is one value. *)
Ltac one_read :=
  repeat match goal with
    | H1 : ?x = Ok ?a, H2 : ?x = Ok ?b |- _ =>
        rewrite H1 in H2; inversion H2; clear H2; subst
    end.

(** Takes the goal through the steps that the context has seen succeed. *)
Ltac replay :=
  repeat match goal with
    | H : ?x = Ok _ |- context [rbind ?x _] => rewrite H; cbn [rbind]; cbv beta zeta
    end.

Section Optional.

Context {Timestamp : Type} (to_datetime : Json -> Result Timestamp).

Abbreviation Row := (list (string * Value Timestamp)).

(** [rec'] is [rec] but for the keys [ks]. *)
Definition same_but (ks : list string) (rec rec' : Row) : Prop :=
  forall k, k ∉ ks -> dict_lookup k rec' = dict_lookup k rec.

Lemma race_record_optional (race : Json) (rec : Row) :
  race_record to_datetime race = Ok rec ->
  contains "time" race = Ok (dict_mem "time" rec) /\
  (exists url, get_default race "url" (JStr "") = Ok url /\
               dict_lookup "url" rec = Some (VJson url)) /\
  (exists rec', race_record to_datetime (without "time" race) = Ok rec' /\
                dict_lookup "time" rec' = None /\ same_but ["time"] rec rec') /\
  (exists rec', race_record to_datetime (without "url" race) = Ok rec' /\
                dict_lookup "url" rec' = Some (VStr "") /\ same_but ["url"] rec rec').
Proof.
  intros H. destruct race as [| | | | |fields]; try discriminate H.
  unfold race_record, without, same_but in *. cbn [path] in *.
  unfold subscript, get_default, contains, dict_mem in *.
  rewrite ?dict_lookup_remove. simpl.
  sync H; inversion H; subst rec; clear H.
  all: split; [reflexivity|].
  all: split; [eexists; split; reflexivity|].
  all: split; (eexists; split; [reflexivity|]; split; [reflexivity|]);
         intros k Hk; read_record; other_key k Hk; reflexivity.
Qed.

Lemma driver_record_optional (driver : Json) (rec : Row) :
  driver_record to_datetime driver = Ok rec ->
  contains "dateOfBirth" driver = Ok (dict_mem "date_of_birth" rec) /\
  (exists url, get_default driver "url" (JStr "") = Ok url /\
               dict_lookup "url" rec = Some (VJson url)) /\
  (exists rec', driver_record to_datetime (without "dateOfBirth" driver) = Ok rec' /\
                dict_lookup "date_of_birth" rec' = None /\
                same_but ["date_of_birth"] rec rec') /\
  (exists rec', driver_record to_datetime (without "url" driver) = Ok rec' /\
                dict_lookup "url" rec' = Some (VStr "") /\ same_but ["url"] rec rec').
Proof.
  intros H. destruct driver as [| | | | |fields]; try discriminate H.
  unfold driver_record, without, same_but in *.
  unfold subscript, get_default, contains, dict_mem in *.
  rewrite ?dict_lookup_remove. simpl.
  sync H; inversion H; subst rec; clear H.
  all: split; [reflexivity|].
  all: split; [eexists; split; reflexivity|].
  all: split; (eexists; split; [reflexivity|]; split; [reflexivity|]);
         intros k Hk; read_record; other_key k Hk; reflexivity.
Qed.

Lemma constructor_record_optional (constructor : Json) (rec : Row) :
  constructor_record constructor = Ok rec ->
  (exists url, get_default constructor "url" (JStr "") = Ok url /\
               dict_lookup "url" rec = Some (VJson url)) /\
  (exists rec', constructor_record (without "url" constructor) = Ok rec' /\
                dict_lookup "url" rec' = Some (VStr "") /\ same_but ["url"] rec rec').
Proof.
  intros H. destruct constructor as [| | | | |fields]; try discriminate H.
  unfold constructor_record, without, same_but in *.
  unfold subscript, get_default, contains, dict_mem in *.
  rewrite ?dict_lookup_remove. simpl.
  sync H; inversion H; subst rec; clear H.
  all: split; [eexists; split; reflexivity|].
  all: eexists; split; [reflexivity|]; split; [reflexivity|];
         intros k Hk; read_record; other_key k Hk; reflexivity.
Qed.

Lemma qualifying_record_optional (race : Json) (race_info : Row) (qual : Json) (rec : Row) :
  race_context to_datetime race = Ok race_info ->
  qualifying_record race_info qual = Ok rec ->
  (contains "Q1" qual = Ok (dict_mem "q1_time" rec) /\
   contains "Q2" qual = Ok (dict_mem "q2_time" rec) /\
   contains "Q3" qual = Ok (dict_mem "q3_time" rec)) /\
  (exists rec', qualifying_record race_info (without "Q1" qual) = Ok rec' /\
                dict_lookup "q1_time" rec' = None /\ same_but ["q1_time"] rec rec') /\
  (exists rec', qualifying_record race_info (without "Q2" qual) = Ok rec' /\
                dict_lookup "q2_time" rec' = None /\ same_but ["q2_time"] rec rec') /\
  (exists rec', qualifying_record race_info (without "Q3" qual) = Ok rec' /\
                dict_lookup "q3_time" rec' = None /\ same_but ["q3_time"] rec rec').
Proof.
  intros Hctx H.
  pose proof (race_context_keys _ _ _ "q1_time" Hctx eq_refl) as H1.
  pose proof (race_context_keys _ _ _ "q2_time" Hctx eq_refl) as H2.
  pose proof (race_context_keys _ _ _ "q3_time" Hctx eq_refl) as H3.
  destruct qual as [| | | | |fields]; try discriminate H.
  unfold qualifying_record, without, same_but in *. cbn [path session_times] in *.
  unfold subscript, get_default, contains, dict_mem in *.
  rewrite ?dict_lookup_remove. simpl.
  sync H; inversion H; subst rec; clear H.
  all: split; [read_record; by rewrite ?H1, ?H2, ?H3|].
  all: repeat split; (eexists; split; [reflexivity|]; split;
         [read_record; by rewrite ?H1, ?H2, ?H3|]);
         intros k Hk; read_record; other_key k Hk; reflexivity.
Qed.

Lemma result_record_optional (race : Json) (race_info : Row) (result : Json) (rec : Row) :
  race_context to_datetime race = Ok race_info ->
  result_record race_info result = Ok rec ->
  contains "FastestLap" result = Ok (dict_mem "fastest_lap_rank" rec) /\
  (exists rec', result_record race_info (without "FastestLap" result) = Ok rec' /\
                dict_lookup "fastest_lap_rank" rec' = None /\
                dict_lookup "fastest_lap_time" rec' = None /\
                same_but ["fastest_lap_rank"; "fastest_lap_time"] rec rec') /\
  (exists rec', result_record race_info (without "Time" result) = Ok rec' /\
                dict_lookup "race_time" rec' = None /\ same_but ["race_time"] rec rec').
Proof.
  intros Hctx H.
  pose proof (race_context_keys _ _ _ "fastest_lap_rank" Hctx eq_refl) as H1.
  pose proof (race_context_keys _ _ _ "fastest_lap_time" Hctx eq_refl) as H2.
  pose proof (race_context_keys _ _ _ "race_time" Hctx eq_refl) as H3.
  destruct result as [| | | | |fields]; try discriminate H.
  unfold result_record, int_if_digits, without, same_but in *. cbn [path] in *.
  unfold subscript, get_default, contains, dict_mem in *.
  rewrite ?dict_lookup_remove. simpl.
  sync H; settle_rows; inversion H; subst rec; clear H.
  all: split; [read_record; by rewrite ?H1, ?H2, ?H3|].
  all: split; eexists; (split; [reflexivity|]);
         repeat (split; [read_record; by rewrite ?H1, ?H2, ?H3|]);
         intros k Hk; read_record; other_key k Hk; reflexivity.
Qed.

(** The three parts of [result_record]: the fields that every result has,
    the race time, and the fastest lap. *)
Definition result_base (race_info : Row) (result : Json) : Result Row :=
  let* position := int_if_digits result "position" in
  let* driver_id := path result ["Driver"; "driverId"] in
  let* given := path result ["Driver"; "givenName"] in
  let* family := path result ["Driver"; "familyName"] in
  let* constructor_id := path result ["Constructor"; "constructorId"] in
  let* constructor_name := path result ["Constructor"; "name"] in
  let* grid := int_if_digits result "grid" in
  let* l := subscript result "laps" in
  let* laps := py_int l in
  let* status := subscript result "status" in
  let* p := subscript result "points" in
  let* points := py_float p in
  Ok (dict_update race_info
        [("position", position); ("driver_id", VJson driver_id);
         ("driver_name", VStr (full_name given family));
         ("constructor_id", VJson constructor_id);
         ("constructor_name", VJson constructor_name);
         ("grid", grid); ("laps", VInt laps); ("status", VJson status);
         ("points", VFloat points)]).

Definition time_field (result : Json) (result_info : Row) : Result Row :=
  let* has_Time := contains "Time" result in
  let* has_time :=
    if has_Time then
      let* t := subscript result "Time" in contains "time" t
    else Ok false in
  if has_time then
    let* t := path result ["Time"; "time"] in
    Ok (dict_set "race_time" (VJson t) result_info)
  else Ok result_info.

Definition lap_fields (fastest_lap : Json) (result_info : Row) : Result Row :=
  let* rank0 := get_default fastest_lap "rank" (JInt 0) in
  let* rank := py_int rank0 in
  let result_info := dict_set "fastest_lap_rank" (VInt rank) result_info in
  let* lap_has_time := contains "Time" fastest_lap in
  if lap_has_time then
    let* t := path fastest_lap ["Time"; "time"] in
    Ok (dict_set "fastest_lap_time" (VJson t) result_info)
  else Ok result_info.

Definition lap_part (result : Json) (result_info : Row) : Result Row :=
  let* has_fastest := contains "FastestLap" result in
  if has_fastest then
    let* fastest_lap := subscript result "FastestLap" in
    lap_fields fastest_lap result_info
  else Ok result_info.

Lemma result_record_parts (race_info : Row) (result : Json) :
  result_record race_info result
  = let* info := result_base race_info result in
    let* info' := time_field result info in
    lap_part result info'.
Proof.
  unfold result_record, result_base, time_field, lap_part, lap_fields. cbv zeta.
  repeat first
    [ reflexivity
    | match goal with
      | |- rbind ?X _ = _ => destruct X; simpl
      | |- (if ?b then _ else _) = _ => destruct b; simpl
      end ].
Qed.


Lemma result_record_ok (race_info rec : Row) (result : Json) :
  result_record race_info result = Ok rec ->
  exists info info',
    result_base race_info result = Ok info /\
    time_field result info = Ok info' /\
    lap_part result info' = Ok rec.
Proof.
  rewrite result_record_parts. intros H.
  destruct (result_base race_info result) as [info|]; cbn [rbind] in H; [|discriminate H].
  destruct (time_field result info) as [info'|] eqn:Htime; cbn [rbind] in H;
    [|discriminate H].
  by exists info, info'.
Qed.

(** The columns that each part sets. *)
Lemma result_base_keys (race_info info : Row) (result : Json) (k : string) :
  result_base race_info result = Ok info ->
  k ∉ ["position"; "driver_id"; "driver_name"; "constructor_id"; "constructor_name";
       "grid"; "laps"; "status"; "points"] ->
  dict_lookup k info = dict_lookup k race_info.
Proof.
  unfold result_base. intros H Hk. open_all. read_record. other_key k Hk. reflexivity.
Qed.

Lemma time_field_keys (result : Json) (info info' : Row) (k : string) :
  time_field result info = Ok info' ->
  k <> "race_time" -> dict_lookup k info' = dict_lookup k info.
Proof.
  unfold time_field. intros H Hk. open_all; [|done|done].
  rewrite dict_lookup_set. by destruct (String.eqb_spec k "race_time").
Qed.

Lemma lap_fields_keys (lap : Json) (info rec : Row) (k : string) :
  lap_fields lap info = Ok rec ->
  k ∉ ["fastest_lap_rank"; "fastest_lap_time"] ->
  dict_lookup k rec = dict_lookup k info.
Proof.
  unfold lap_fields. intros H Hk. open_all; rewrite ?dict_lookup_set;
    other_key k Hk; reflexivity.
Qed.

Lemma lap_part_keys (result : Json) (info rec : Row) (k : string) :
  lap_part result info = Ok rec ->
  k ∉ ["fastest_lap_rank"; "fastest_lap_time"] ->
  dict_lookup k rec = dict_lookup k info.
Proof.
  unfold lap_part. intros H Hk. open_all; [|done]. by eapply lap_fields_keys.
Qed.

(** A change inside [Time] or [FastestLap] leaves the other parts alone. *)
Lemma result_base_within (race_info : Row) (result : Json) (k : string)
    (f : Json -> Json) :
  k = "Time" \/ k = "FastestLap" ->
  result_base race_info (within k f result) = result_base race_info result.
Proof.
  intros [->| ->]; unfold result_base, int_if_digits; cbn [path];
    rewrite !subscript_within; reflexivity.
Qed.

Lemma time_field_within (result : Json) (info : Row) (f : Json -> Json) :
  time_field (within "FastestLap" f result) info = time_field result info.
Proof.
  unfold time_field. cbn [path]. by rewrite !contains_within, !subscript_within.
Qed.

Lemma lap_part_within (result : Json) (info : Row) (f : Json -> Json) :
  lap_part (within "Time" f result) info = lap_part result info.
Proof.
  unfold lap_part. by rewrite !contains_within, !subscript_within.
Qed.


(** *** The race time *)

Lemma time_field_shown (result : Json) (info info' : Row) :
  time_field result info = Ok info' ->
  dict_lookup "race_time" info = None ->
  (forall t, subscript result "Time" = Ok t ->
     contains "time" t = Ok (dict_mem "race_time" info')) /\
  (contains "Time" result = Ok false -> dict_lookup "race_time" info' = None).
Proof.
  unfold time_field, dict_mem. intros H Hnone. open_all; one_read.
  all: split; [intros t Ht|intros Hno]; one_read;
    rewrite ?dict_lookup_set; simpl; rewrite ?Hnone; try done.
  all: try (apply subscript_contains in Ht; congruence).
Qed.

Lemma time_field_without_time (result : Json) (info info' : Row) :
  time_field result info = Ok info' ->
  time_field (within "Time" (without "time") result) info = Ok info.
Proof.
  unfold time_field. cbn [path]. rewrite !contains_within, !subscript_within. simpl.
  intros H.
  destruct (contains "Time" result) as [[|]|]; simpl in *; [|done|done].
  destruct (subscript result "Time") as [t|]; simpl in *; [|done].
  destruct t as [| | |text|items|fields]; simpl in *; try done.
  - destruct (str_contains "time" text); simpl in *; [done|done].
  - destruct (existsb (is_str "time") items); simpl in *; [done|done].
  - unfold dict_mem. by rewrite dict_lookup_remove.
Qed.

(** *** The fastest lap *)

Lemma lap_fields_shown (lap : Json) (info rec : Row) :
  lap_fields lap info = Ok rec ->
  dict_lookup "fastest_lap_time" info = None ->
  contains "Time" lap = Ok (dict_mem "fastest_lap_time" rec).
Proof.
  unfold lap_fields, dict_mem. intros H Hnone. open_all;
    rewrite ?dict_lookup_set; simpl; by rewrite ?Hnone.
Qed.

Lemma lap_fields_without_time (lap : Json) (info rec : Row) :
  lap_fields lap info = Ok rec ->
  exists rec',
    lap_fields (without "Time" lap) info = Ok rec' /\
    dict_lookup "fastest_lap_time" rec' = dict_lookup "fastest_lap_time" info /\
    same_but ["fastest_lap_time"] rec rec'.
Proof.
  unfold lap_fields, same_but. intros H.
  destruct lap as [| | | | |fields]; try discriminate H.
  rewrite get_default_without by reflexivity.
  assert (Hno : contains "Time" (without "Time" (JObj fields)) = Ok false).
  { simpl. unfold dict_mem. by rewrite dict_lookup_remove. }
  rewrite Hno. clear Hno.
  open_all; replay; eexists; (split; [reflexivity|]); rewrite ?dict_lookup_set; simpl;
    (split; [reflexivity|]); intros k Hk; rewrite ?dict_lookup_set;
    other_key k Hk; reflexivity.
Qed.

Lemma lap_fields_without_rank (lap : Json) (info rec : Row) :
  lap_fields lap info = Ok rec ->
  exists rec',
    lap_fields (without "rank" lap) info = Ok rec' /\
    dict_lookup "fastest_lap_rank" rec' = Some (VInt 0) /\
    same_but ["fastest_lap_rank"] rec rec'.
Proof.
  unfold lap_fields, same_but. intros H.
  destruct lap as [| | | | |fields]; try discriminate H.
  cbn [path]. rewrite !subscript_without, contains_without by reflexivity.
  assert (Hrank : get_default (without "rank" (JObj fields)) "rank" (JInt 0)
                  = Ok (JInt 0)).
  { simpl. by rewrite dict_lookup_remove. }
  rewrite Hrank. clear Hrank. cbn [rbind py_int]. cbv beta zeta.
  cbn [path] in H.
  open_all; replay; eexists; (split; [reflexivity|]); rewrite ?dict_lookup_set; simpl;
    (split; [reflexivity|]); intros k Hk; rewrite ?dict_lookup_set;
    other_key k Hk; reflexivity.
Qed.

Lemma lap_fields_time_without_time (lap : Json) (info rec : Row) :
  lap_fields lap info = Ok rec ->
  contains "Time" lap = Ok true ->
  lap_fields (within "Time" (without "time") lap) info = Raise (KeyError "time").
Proof.
  unfold lap_fields. intros H Hhas.
  rewrite get_default_within by reflexivity. rewrite contains_within. cbn [path].
  rewrite subscript_within. simpl String.eqb. cbv iota.
  open_all; one_read. replay. cbn [path] in *. open_all. replay.
  match goal with
  | Ht : subscript ?t "time" = Ok _ |- _ =>
      destruct t as [| | | | |fields]; try discriminate Ht
  end.
  simpl. by rewrite dict_lookup_remove.
Qed.


Lemma lap_part_cases (result : Json) (info rec : Row) :
  lap_part result info = Ok rec ->
  (contains "FastestLap" result = Ok false /\ rec = info) \/
  (exists lap, contains "FastestLap" result = Ok true /\
               subscript result "FastestLap" = Ok lap /\
               lap_fields lap info = Ok rec).
Proof.
  unfold lap_part. intros H.
  destruct (contains "FastestLap" result) as [[|]|]; cbn [rbind] in H; [| |discriminate H].
  - destruct (subscript result "FastestLap") as [lap|]; cbn [rbind] in H;
      [|discriminate H].
    right. by exists lap.
  - left. by inversion H.
Qed.

Lemma lap_part_within_lap (result : Json) (info : Row) (f : Json -> Json) :
  lap_part (within "FastestLap" f result) info
  = let* has_fastest := contains "FastestLap" result in
    if has_fastest then
      let* fastest_lap := subscript result "FastestLap" in
      lap_fields (f fastest_lap) info
    else Ok info.
Proof.
  unfold lap_part. rewrite contains_within, subscript_within. simpl String.eqb. cbv iota.
  destruct (contains "FastestLap" result) as [[|]|]; cbn [rbind]; [|done|done].
  by destruct (subscript result "FastestLap").
Qed.

(** The fastest lap is read in the same way whatever the record holds so
    far. *)
Lemma lap_part_on (result : Json) (info info' rec : Row) :
  lap_part result info = Ok rec ->
  (forall k, k ∈ ["fastest_lap_rank"; "fastest_lap_time"] ->
             dict_lookup k info' = dict_lookup k info) ->
  exists rec',
    lap_part result info' = Ok rec' /\
    (forall k, k ∈ ["fastest_lap_rank"; "fastest_lap_time"] ->
               dict_lookup k rec' = dict_lookup k rec) /\
    (forall k, k ∉ ["fastest_lap_rank"; "fastest_lap_time"] ->
               dict_lookup k rec' = dict_lookup k info').
Proof.
  unfold lap_part, lap_fields. intros H Hsame.
  open_all; replay; eexists; (split; [reflexivity|]); split; intros k Hk;
    rewrite ?dict_lookup_set; try (other_key k Hk; reflexivity); try by apply Hsame.
  all: pose proof (Hsame k Hk) as Hsamek.
  all: repeat (apply elem_of_cons in Hk; destruct Hk as [->|Hk]; [by simpl|]).
  all: by apply elem_of_nil in Hk.
Qed.

Lemma not_among (k : string) (ks : list string) :
  forallb (fun k' => negb (String.eqb k k')) ks = true -> k ∉ ks.
Proof.
  induction ks as [|k' ks IH]; simpl; [intros _; apply not_elem_of_nil|].
  rewrite andb_true_iff, negb_true_iff. intros [Hne Hks].
  apply not_elem_of_cons. split; [|by apply IH].
  intros ->. by rewrite String.eqb_refl in Hne.
Qed.

Lemma result_record_nested (race : Json) (race_info : Row) (result : Json) (rec : Row) :
  race_context to_datetime race = Ok race_info ->
  result_record race_info result = Ok rec ->
  ((forall t, subscript result "Time" = Ok t ->
      contains "time" t = Ok (dict_mem "race_time" rec)) /\
   (contains "Time" result = Ok false -> dict_lookup "race_time" rec = None) /\
   exists rec',
     result_record race_info (within "Time" (without "time") result) = Ok rec' /\
     dict_lookup "race_time" rec' = None /\ same_but ["race_time"] rec rec') /\
  ((forall lap, subscript result "FastestLap" = Ok lap ->
      contains "Time" lap = Ok (dict_mem "fastest_lap_time" rec)) /\
   (contains "FastestLap" result = Ok false ->
      dict_lookup "fastest_lap_time" rec = None) /\
   exists rec',
     result_record race_info (within "FastestLap" (without "Time") result) = Ok rec' /\
     dict_lookup "fastest_lap_time" rec' = None /\
     same_but ["fastest_lap_time"] rec rec') /\
  (forall lap, subscript result "FastestLap" = Ok lap ->
     exists rec',
       result_record race_info (within "FastestLap" (without "rank") result) = Ok rec' /\
       dict_lookup "fastest_lap_rank" rec' = Some (VInt 0) /\
       same_but ["fastest_lap_rank"] rec rec') /\
  (forall lap, subscript result "FastestLap" = Ok lap ->
     contains "Time" lap = Ok true ->
     result_record race_info (within "FastestLap" (within "Time" (without "time")) result)
     = Raise (KeyError "time")).
Proof.
  intros Hctx H.
  destruct (result_record_ok _ _ _ H) as (info & info' & Hbase & Htime & Hlap).
  assert (Htime0 : dict_lookup "race_time" info = None).
  { rewrite (result_base_keys _ _ _ _ Hbase) by (by apply not_among).
    by apply (race_context_keys _ _ _ _ Hctx). }
  assert (Hlap0 : dict_lookup "fastest_lap_time" info' = None).
  { rewrite (time_field_keys _ _ _ _ Htime) by done.
    rewrite (result_base_keys _ _ _ _ Hbase) by (by apply not_among).
    by apply (race_context_keys _ _ _ _ Hctx). }
  assert (Hrace_time : dict_lookup "race_time" rec = dict_lookup "race_time" info').
  { apply (lap_part_keys _ _ _ _ Hlap). by apply not_among. }
  destruct (time_field_shown _ _ _ Htime Htime0) as [Hshown Habsent].
  split; [|split; [|split]].
  - split; [|split].
    + intros t Ht. unfold dict_mem. rewrite Hrace_time. by apply Hshown.
    + intros Hno. rewrite Hrace_time. by apply Habsent.
    + destruct (lap_part_on _ _ info _ Hlap) as (rec' & Hrec' & Hin & Hout).
      { intros k Hk. symmetry. apply (time_field_keys _ _ _ _ Htime).
        intros ->. repeat (apply elem_of_cons in Hk; destruct Hk as [Hk|Hk];
                           [discriminate Hk|]).
        by apply elem_of_nil in Hk. }
      exists rec'. split; [|split].
      * rewrite result_record_parts, result_base_within, Hbase by auto. cbn [rbind].
        rewrite (time_field_without_time _ _ _ Htime). cbn [rbind].
        by rewrite lap_part_within.
      * rewrite Hout by (by apply not_among). exact Htime0.
      * intros k Hk.
        destruct (decide (k ∈ ["fastest_lap_rank"; "fastest_lap_time"])) as [Hlapk|Hlapk].
        -- by apply Hin.
        -- rewrite (Hout _ Hlapk), (lap_part_keys _ _ _ _ Hlap) by done.
           symmetry. apply (time_field_keys _ _ _ _ Htime).
           intros ->. apply Hk. apply elem_of_cons. by left.
  - destruct (lap_part_cases _ _ _ Hlap) as [[Hno ->]|(lap & Hhas & Hsub & Hfields)].
    + split; [|split].
      * intros lap Hsub. apply subscript_contains in Hsub. congruence.
      * intros _. exact Hlap0.
      * exists info'. split; [|split; [exact Hlap0|by intros k _]].
        rewrite result_record_parts, result_base_within, Hbase by auto. cbn [rbind].
        rewrite time_field_within, Htime. cbn [rbind].
        rewrite lap_part_within_lap, Hno. reflexivity.
    + split; [|split].
      * intros lap' Hsub'. rewrite Hsub in Hsub'. inversion Hsub'; subst lap'.
        by apply (lap_fields_shown _ _ _ Hfields).
      * intros Hno. congruence.
      * destruct (lap_fields_without_time _ _ _ Hfields) as (rec' & Hrec' & Hnone & Hsame).
        exists rec'. split; [|split; [by rewrite Hnone|exact Hsame]].
        rewrite result_record_parts, result_base_within, Hbase by auto. cbn [rbind].
        rewrite time_field_within, Htime. cbn [rbind].
        rewrite lap_part_within_lap, Hhas. cbn [rbind]. rewrite Hsub. exact Hrec'.
  - intros lap Hsub.
    destruct (lap_part_cases _ _ _ Hlap) as [[Hno ->]|(lap' & Hhas & Hsub' & Hfields)].
    { apply subscript_contains in Hsub. congruence. }
    destruct (lap_fields_without_rank _ _ _ Hfields) as (rec' & Hrec' & Hzero & Hsame).
    exists rec'. split; [|split; [exact Hzero|exact Hsame]].
    rewrite result_record_parts, result_base_within, Hbase by auto. cbn [rbind].
    rewrite time_field_within, Htime. cbn [rbind].
    rewrite lap_part_within_lap, Hhas. cbn [rbind]. rewrite Hsub'. exact Hrec'.
  - intros lap Hsub Hlap_time.
    destruct (lap_part_cases _ _ _ Hlap) as [[Hno ->]|(lap' & Hhas & Hsub' & Hfields)].
    { apply subscript_contains in Hsub. congruence. }
    rewrite Hsub in Hsub'. inversion Hsub'; subst lap'.
    rewrite result_record_parts, result_base_within, Hbase by auto. cbn [rbind].
    rewrite time_field_within, Htime. cbn [rbind].
    rewrite lap_part_within_lap, Hhas. cbn [rbind]. rewrite Hsub. cbn [rbind].
    by apply (lap_fields_time_without_time _ _ _ Hfields).
Qed.

(** The extractor [extract] puts [column] in its record exactly when the
    source item has [field]; and an item that converts still converts once
    [field] is taken out of it, to the same record without [column] and the
    [others]. *)
Definition shows_when_present (extract : Json -> Result Row)
    (field column : string) (others : list string) : Prop :=
  forall x rec,
    extract x = Ok rec ->
    contains field x = Ok (dict_mem column rec) /\
    exists rec',
      extract (without field x) = Ok rec' /\
      Forall (fun c => dict_lookup c rec' = None) (column :: others) /\
      same_but (column :: others) rec rec'.

(** The extractor [extract] always puts [url] in its record: the url of the
    source item, or the empty string when the item has none. *)
Definition url_or_placeholder (extract : Json -> Result Row) : Prop :=
  forall x rec,
    extract x = Ok rec ->
    (exists url, get_default x "url" (JStr "") = Ok url /\
                 dict_lookup "url" rec = Some (VJson url)) /\
    exists rec',
      extract (without "url" x) = Ok rec' /\
      dict_lookup "url" rec' = Some (VStr "") /\
      same_but ["url"] rec rec'.

(** An item that converts still converts once [field] is taken out of it, to
    the same record without the [columns]. *)
Definition absent_without (extract : Json -> Result Row)
    (field : string) (columns : list string) : Prop :=
  forall x rec,
    extract x = Ok rec ->
    exists rec',
      extract (without field x) = Ok rec' /\
      Forall (fun c => dict_lookup c rec' = None) columns /\
      same_but columns rec rec'.

(** The extractor [extract] puts [column] in its record exactly when the
    [block] of the source item has [field]; an item without the block has no
    [column]; and an item that converts still converts once [field] is taken
    out of its block, to the same record without [column]. *)
Definition shows_when_in_block (extract : Json -> Result Row)
    (block field column : string) : Prop :=
  forall x rec,
    extract x = Ok rec ->
    (forall b, subscript x block = Ok b ->
               contains field b = Ok (dict_mem column rec)) /\
    (contains block x = Ok false -> dict_lookup column rec = None) /\
    exists rec',
      extract (within block (without field) x) = Ok rec' /\
      dict_lookup column rec' = None /\
      same_but [column] rec rec'.

(** An item with a [FastestLap] still converts once [rank] is taken out of
    the block, and its rank is then 0. *)
Definition rank_defaults_to_zero (extract : Json -> Result Row) : Prop :=
  forall x rec lap,
    extract x = Ok rec ->
    subscript x "FastestLap" = Ok lap ->
    exists rec',
      extract (within "FastestLap" (without "rank") x) = Ok rec' /\
      dict_lookup "fastest_lap_rank" rec' = Some (VInt 0) /\
      same_but ["fastest_lap_rank"] rec rec'.

(** An item whose [FastestLap] has a [Time] no longer converts once [time]
    is taken out of that [Time]. *)
Definition lap_time_needs_time (extract : Json -> Result Row) : Prop :=
  forall x rec lap,
    extract x = Ok rec ->
    subscript x "FastestLap" = Ok lap ->
    contains "Time" lap = Ok true ->
    extract (within "FastestLap" (within "Time" (without "time")) x)
    = Raise (KeyError "time").

(** C6, as the collector behaves.  The time of day of a race, the date of
    birth of a driver and the Q1, Q2 and Q3 times of a qualifying entry are in
    the record exactly when the source item has them, and an item without
    them converts as well as one with them.  For a result,
    - [fastest_lap_rank] is in the record exactly when the item has a
      [FastestLap], and an item without the block converts, to a record with
      neither [fastest_lap_rank] nor [fastest_lap_time];
    - [race_time] is in the record exactly when the item has a [Time] with a
      [time]; without the [Time], or without the [time] in it, the item
      converts to the same record without [race_time];
    - [fastest_lap_time] is in the record exactly when the [FastestLap] has a
      [Time]; without that [Time] the item converts to the same record
      without [fastest_lap_time];
    - a [FastestLap] without a [rank] is no error either, and gives the rank
      0;
    - but a [FastestLap] whose [Time] has no [time] makes the extractor raise
      [KeyError].
    The url is different again: the record of a race, a driver or a
    constructor always has one, the empty string standing for a missing
    url. *)
Theorem optional_fields_when_present :
  (shows_when_present (race_record to_datetime) "time" "time" [] /\
   url_or_placeholder (race_record to_datetime)) /\
  (shows_when_present (driver_record to_datetime) "dateOfBirth" "date_of_birth" [] /\
   url_or_placeholder (driver_record to_datetime)) /\
  url_or_placeholder constructor_record /\
  (forall race race_info,
      race_context to_datetime race = Ok race_info ->
      shows_when_present (qualifying_record race_info) "Q1" "q1_time" [] /\
      shows_when_present (qualifying_record race_info) "Q2" "q2_time" [] /\
      shows_when_present (qualifying_record race_info) "Q3" "q3_time" [] /\
      shows_when_present (result_record race_info)
        "FastestLap" "fastest_lap_rank" ["fastest_lap_time"] /\
      absent_without (result_record race_info) "Time" ["race_time"] /\
      shows_when_in_block (result_record race_info) "Time" "time" "race_time" /\
      shows_when_in_block (result_record race_info) "FastestLap" "Time" "fastest_lap_time" /\
      rank_defaults_to_zero (result_record race_info) /\
      lap_time_needs_time (result_record race_info)).
Proof.
  split; [|split; [|split]].
  - split; intros race rec H;
      destruct (race_record_optional _ _ H) as (Ht & Hu & (r1 & ? & ? & ?) & Hw);
      [split; [exact Ht|]; exists r1; repeat split; auto|by split].
  - split; intros driver rec H;
      destruct (driver_record_optional _ _ H) as (Ht & Hu & (r1 & ? & ? & ?) & Hw);
      [split; [exact Ht|]; exists r1; repeat split; auto|by split].
  - intros constructor rec H. by apply constructor_record_optional.
  - intros race race_info Hctx.
    split; [|split; [|split; [|split; [|split; [|split; [|split; [|split]]]]]]].
    + intros qual rec H.
      destruct (qualifying_record_optional _ _ _ _ Hctx H)
        as ((? & _ & _) & (r1 & ? & ? & ?) & _).
      split; [done|]. exists r1. split; [done|]. split; [by repeat constructor|done].
    + intros qual rec H.
      destruct (qualifying_record_optional _ _ _ _ Hctx H)
        as ((_ & ? & _) & _ & (r2 & ? & ? & ?) & _).
      split; [done|]. exists r2. split; [done|]. split; [by repeat constructor|done].
    + intros qual rec H.
      destruct (qualifying_record_optional _ _ _ _ Hctx H)
        as ((_ & _ & ?) & _ & _ & (r3 & ? & ? & ?)).
      split; [done|]. exists r3. split; [done|]. split; [by repeat constructor|done].
    + intros result rec H.
      destruct (result_record_optional _ _ _ _ Hctx H)
        as (? & (r1 & ? & ? & ? & ?) & _).
      split; [done|]. exists r1. split; [done|]. split; [by repeat constructor|done].
    + intros result rec H.
      destruct (result_record_optional _ _ _ _ Hctx H) as (_ & _ & (r1 & ? & ? & ?)).
      exists r1. split; [done|]. split; [by repeat constructor|done].
    + intros result rec H.
      by destruct (result_record_nested _ _ _ _ Hctx H) as (Htime & _).
    + intros result rec H.
      by destruct (result_record_nested _ _ _ _ Hctx H) as (_ & Hlap & _).
    + intros result rec lap H.
      destruct (result_record_nested _ _ _ _ Hctx H) as (_ & _ & Hrank & _).
      apply Hrank.
    + intros result rec lap H.
      destruct (result_record_nested _ _ _ _ Hctx H) as (_ & _ & _ & Hneeds).
      apply Hneeds.
Qed.

End Optional.

(** ** Scenarios *)

(** A stand-in for [pandas.to_datetime] in the scenarios below: it reads the
    dates ["YYYY-MM-DD"] that the Ergast API sends, as pandas does, and raises
    [ValueError] on every other value, where pandas has other ways to go.
    The theorems above hold for any [to_datetime]; the scenarios only pass
    dates of this form. *)
Definition leap (y : Z) : bool :=
  ((y mod 4 =? 0) && negb (y mod 100 =? 0)) || (y mod 400 =? 0).

Definition days_in_month (y m : Z) : Z :=
  if m =? 2 then (if leap y then 29 else 28)
  else if (m =? 4) || (m =? 6) || (m =? 9) || (m =? 11) then 30
  else 31.

Definition iso_to_datetime (x : Json) : Result (Z * Z * Z) :=
  match x with
  | JStr s =>
      let y := substring 0 4 s in
      let m := substring 5 2 s in
      let d := substring 8 2 s in
      if (String.length s =? 10)%nat && all_digits y && all_digits m && all_digits d
         && String.eqb (substring 4 1 s) "-" && String.eqb (substring 7 1 s) "-" then
        let* y := int_of_str y in
        let* m := int_of_str m in
        let* d := int_of_str d in
        if (1 <=? m) && (m <=? 12) && (1 <=? d) && (d <=? days_in_month y m)
        then Ok (y, m, d) else Raise ValueError
      else Raise ValueError
  | _ => Raise ValueError
  end.

(** The envelope of a response: [{"MRData": {table: {list: items}}}]. *)
Definition envelope (table list_key : string) (items : list Json) : Json :=
  JObj [("MRData", JObj [(table, JObj [(list_key, JArr items)])])].

Definition driver (id given family : string) : Json :=
  JObj [("driverId", JStr id); ("givenName", JStr given); ("familyName", JStr family);
        ("nationality", JStr "Dutch")].

Definition constructor (id name : string) : Json :=
  JObj [("constructorId", JStr id); ("name", JStr name); ("nationality", JStr "Austrian")].

Definition circuit : Json :=
  JObj [("circuitId", JStr "red_bull_ring"); ("circuitName", JStr "Red Bull Ring");
        ("Location", JObj [("country", JStr "Austria")])].

(** A race block with its list of results or qualifying results. *)
Definition race (season round name date list_key : string) (items : list Json) : Json :=
  JObj [("season", JStr season); ("round", JStr round); ("raceName", JStr name);
        ("Circuit", circuit); ("date", JStr date); (list_key, JArr items)].

(** A result item, with further fields [more]. *)
Definition result (position grid points : string) (who team : Json)
    (more : list (string * Json)) : Json :=
  JObj ([("position", JStr position); ("Driver", who); ("Constructor", team);
         ("grid", JStr grid); ("laps", JStr "71"); ("status", JStr "Finished");
         ("points", JStr points)] ++ more).

Definition bottas : Json := driver "bottas" "Valtteri" "Bottas".
Definition verstappen : Json := driver "max_verstappen" "Max" "Verstappen".
Definition mercedes : Json := constructor "mercedes" "Mercedes".
Definition red_bull : Json := constructor "red_bull" "Red Bull".

(** The records of a run, or none when the run raised. *)
Definition records_of {A} (r : Result (list A)) : list A :=
  match r with
  | Ok records => records
  | Raise _ => []
  end.

(** *** Seasons *)

Definition seasons_response (years : list string) : Json :=
  envelope "SeasonTable" "Seasons"
    (List.map (fun y => JObj [("season", JStr y)]) years).

(** The seasons 2019 to 2021 of a response that lists 2021, 2019, 2020, 2020
    and 2018. *)
Lemma seasons_sorted_in_range_witness :
  let w := fresh_world [found (seasons_response ["2021"; "2019"; "2020"; "2020"; "2018"])] in
  exists response w1 years,
    _make_request (__init__ 1) "seasons" None w = (Ok response, w1) /\
    season_years response = Ok years /\
    Sorted Z.le [2019; 2020; 2020; 2021] /\
    [2019; 2020; 2020; 2021] ≡ₚ filter (fun y => 2019 <= y <= 2021) years /\
    (forall y, y ∈ [2019; 2020; 2020; 2021] <-> y ∈ years /\ 2019 <= y <= 2021).
Proof.
  intros w.
  apply (seasons_sorted_in_range (__init__ 1) 2019 (Some 2021) w
           (snd (get_seasons (__init__ 1) 2019 (Some 2021) w))).
  vm_compute. reflexivity.
Defined.

(** C4 as stated fails: a response that lists the season 2020 twice gives
    2020 twice. *)
Lemma seasons_not_deduplicated :
  let w := fresh_world [found (seasons_response ["2020"; "2019"; "2020"])] in
  fst (get_seasons (__init__ 1) 1950 (Some 2024) w) = Ok [2019; 2020; 2020] /\
  ~ NoDup [2019; 2020; 2020].
Proof.
  split; [vm_compute; reflexivity|].
  intros H. inversion H as [|? ? _ H']; subst. inversion H' as [|? ? Hin _]; subst.
  apply Hin. constructor.
Qed.

(** *** One call, one sleep *)


(** *** Results *)

(** Two race blocks: the first with a winner and a retirement (position
    ["R"]), the second with one result whose [FastestLap] has no [rank]. *)
Definition austria_2020 : Json :=
  race "2020" "1" "Austrian Grand Prix" "2020-07-05" "Results"
    [result "1" "1" "25" bottas mercedes
       [("Time", JObj [("time", JStr "1:30:55.739")]);
        ("FastestLap", JObj [("rank", JStr "2");
                             ("Time", JObj [("time", JStr "1:07.657")])])];
     result "R" "2" "0" verstappen red_bull []].

Definition styria_2020 : Json :=
  race "2020" "2" "Styrian Grand Prix" "2020-07-12" "Results"
    [result "3" "2" "15" verstappen red_bull [("FastestLap", JObj [])]].

Definition results_response : Json :=
  envelope "RaceTable" "Races" [austria_2020; styria_2020].

(** Two blocks with two results and one result: three records. *)
Lemma results_one_record_per_item_witness :
  let records := records_of (results_of_response iso_to_datetime results_response) in
  length records = 3%nat /\
  length records
  = sum_list (List.map (fun race => length (result_items race)) (race_blocks results_response)).
Proof.
  intros records. split; [reflexivity|].
  apply (results_one_record_per_item iso_to_datetime results_response records).
  vm_compute. reflexivity.
Defined.


(** Digits beyond ASCII, in UTF-8: the Arabic-Indic digit three (U+0663),
    which [int] reads as 3, and the superscript two (U+00B2), which
    [str.isdigit] accepts and [int] rejects. *)
Definition arabic_three : string := String "217" (String "163" EmptyString).
Definition superscript_two : string := String "194" (String "178" EmptyString).

Lemma position_in_other_digits :
  let block position :=
    envelope "RaceTable" "Races"
      [race "2020" "1" "Austrian Grand Prix" "2020-07-05" "Results"
         [result position "2" "0" verstappen red_bull []]] in
  str_isdigit arabic_three = true /\
  List.map (dict_lookup "position")
    (records_of (results_of_response iso_to_datetime (block arabic_three)))
  = [Some (VInt 3)] /\
  str_isdigit superscript_two = true /\
  results_of_response iso_to_datetime (block superscript_two) = Raise ValueError.
Proof. vm_compute. repeat split; reflexivity. Qed.


(** *** Points *)

(** The points of the winner, 25. *)
Lemma points_as_read_witness :
  let records := records_of (results_of_response iso_to_datetime results_response) in
  exists rec race result p f,
    records !! 0%nat = Some rec /\
    result_of iso_to_datetime results_response race result rec /\
    subscript result "points" = Ok p /\ py_float p = Ok f /\
    dict_lookup "points" rec = Some (VFloat f).
Proof.
  intros records.
  destruct (records !! 0%nat) as [rec|] eqn:Hrec; [|discriminate Hrec].
  destruct (points_as_read iso_to_datetime results_response records rec)
    as (race & result & p & f & Hof & Hp & Hf & Hpoints & _).
  - vm_compute. reflexivity.
  - eapply list_elem_of_lookup_2. exact Hrec.
  - exists rec, race, result, p, f.
    split; [reflexivity|]. split; [exact Hof|]. split; [exact Hp|].
    split; [exact Hf|exact Hpoints].
Defined.

(** C8 as stated fails: points spelled ["-1"] are the float -1. *)
Lemma negative_points_pass_through :
  let block :=
    envelope "RaceTable" "Races"
      [race "2020" "1" "Austrian Grand Prix" "2020-07-05" "Results"
         [result "20" "20" "-1" verstappen red_bull []]] in
  exists rec,
    results_of_response iso_to_datetime block = Ok [rec] /\
    dict_lookup "points" rec = Some (VFloat (FDec true 1 0)) /\
    float_nonneg (FDec true 1 0) = false.
Proof. eexists. vm_compute. repeat split; reflexivity. Qed.

(** *** Qualifying *)

Definition qualifying (position : string) (who team : Json) (more : list (string * Json))
    : Json :=
  JObj ([("position", JStr position); ("Driver", who); ("Constructor", team)] ++ more).

(** C2 fails in the qualifying extractor.  A qualifying entry whose position
    is not a number makes the whole extraction raise [ValueError], while the
    results extractor gives a result with the same position a record with
    position [None]. *)
Theorem qualifying_position_unguarded :
  let entry := qualifying "NC" verstappen red_bull [("Q1", JStr "1:04.024")] in
  let item := result "NC" "2" "0" verstappen red_bull [] in
  qualifying_of_response iso_to_datetime
    (envelope "RaceTable" "Races"
       [race "2020" "1" "Austrian Grand Prix" "2020-07-05" "QualifyingResults" [entry]])
  = Raise ValueError /\
  List.map (dict_lookup "position")
    (records_of (results_of_response iso_to_datetime
       (envelope "RaceTable" "Races"
          [race "2020" "1" "Austrian Grand Prix" "2020-07-05" "Results" [item]])))
  = [Some VNone].
Proof. vm_compute. split; reflexivity. Qed.

(** *** Races *)

Definition races_response (rounds : list (string * string)) : Json :=
  envelope "RaceTable" "Races"
    (List.map (fun sr => race sr.1 sr.2 "Austrian Grand Prix" "2020-07-05" "Results" [])
       rounds).

(** A season of two rounds, numbered ["1"] and ["2"]: two different ids. *)
Lemma race_id_from_source_text_witness :
  let w := fresh_world [found (races_response [("2020", "1"); ("2020", "2")])] in
  let records := records_of (fst (get_races iso_to_datetime (__init__ 1) (JInt 2020) w)) in
  List.map (dict_lookup "race_id") records = [Some (VStr "2020_1"); Some (VStr "2020_2")] /\
  NoDup (List.map (dict_lookup "race_id") records).
Proof.
  intros w records. split; [reflexivity|].
  destruct (race_id_from_source_text iso_to_datetime (__init__ 1) (JInt 2020) w
              (snd (get_races iso_to_datetime (__init__ 1) (JInt 2020) w)) records)
    as (response & w1 & Hreq & _ & Hnumbers).
  - vm_compute. reflexivity.
  - assert (Hresponse : response = races_response [("2020", "1"); ("2020", "2")]).
    { vm_compute in Hreq. inversion Hreq. reflexivity. }
    subst response.
    destruct (Hnumbers [(2020, 1); (2020, 2)]) as [_ Hnodup].
    + repeat constructor.
      * exists (JStr "2020"), (JStr "1"). repeat split; by right.
      * exists (JStr "2020"), (JStr "2"). repeat split; by right.
    + apply Hnodup. apply NoDup_cons. split; [|apply NoDup_singleton].
      intros Hin. apply elem_of_cons in Hin. destruct Hin as [Heq|Hin].
      * discriminate Heq.
      * by apply elem_of_nil in Hin.
Defined.

(** C7 as stated fails: a response that spells the round ["05"], in two race
    blocks, gives two records with round 5 and race id ["2020_05"], which is
    not ["{season}_{round}"] for 2020 and 5, and is in the table twice. *)
Lemma race_id_not_from_record_fields :
  let w := fresh_world [found (races_response [("2020", "05"); ("2020", "05")])] in
  let records := records_of (fst (get_races iso_to_datetime (__init__ 1) (JInt 2020) w)) in
  List.map (fun rec => (dict_lookup "season" rec, dict_lookup "round" rec,
                        dict_lookup "race_id" rec)) records
  = [(Some (VInt 2020), Some (VInt 5), Some (VStr "2020_05"));
     (Some (VInt 2020), Some (VInt 5), Some (VStr "2020_05"))] /\
  race_id_of 2020 5 = "2020_5".
Proof. vm_compute. split; reflexivity. Qed.

(** *** Drivers with and without optional fields *)

Definition hamilton : Json :=
  JObj [("driverId", JStr "hamilton"); ("url", JStr "http://en.wikipedia.org/wiki/Lewis_Hamilton");
        ("givenName", JStr "Lewis"); ("familyName", JStr "Hamilton");
        ("dateOfBirth", JStr "1985-01-07"); ("nationality", JStr "British")].

(** A driver with a date of birth has it in the record; the same driver
    without it converts too, to a record without [date_of_birth].  The winner
    of the Austrian race has a fastest lap with its time; without the [time]
    in the [Time] of that lap the result raises. *)
Lemma optional_fields_when_present_witness :
  (exists rec rec',
     driver_record iso_to_datetime hamilton = Ok rec /\
     contains "dateOfBirth" hamilton = Ok (dict_mem "date_of_birth" rec) /\
     driver_record iso_to_datetime (without "dateOfBirth" hamilton) = Ok rec' /\
     dict_lookup "date_of_birth" rec' = None) /\
  (exists race_info winner,
     race_context iso_to_datetime austria_2020 = Ok race_info /\
     result_items austria_2020 !! 0%nat = Some winner /\
     result_record race_info
       (within "FastestLap" (within "Time" (without "time")) winner)
     = Raise (KeyError "time")).
Proof.
  destruct (optional_fields_when_present iso_to_datetime)
    as (_ & (Hbirth & _) & _ & Hresult).
  split.
  - destruct (driver_record iso_to_datetime hamilton) as [rec|e] eqn:Hrec;
      [|discriminate Hrec].
    destruct (Hbirth hamilton rec Hrec) as (Hshown & rec' & Hwithout & Hnone & _).
    exists rec, rec'. split; [reflexivity|]. split; [exact Hshown|].
    split; [exact Hwithout|]. by inversion Hnone.
  - destruct (race_context iso_to_datetime austria_2020) as [race_info|e] eqn:Hctx;
      [|discriminate Hctx].
    destruct (Hresult austria_2020 race_info Hctx) as (_ & _ & _ & _ & _ & _ & _ & _ & Hneeds).
    eexists race_info, _. split; [reflexivity|]. split; [reflexivity|].
    eapply Hneeds; [vm_compute; reflexivity|reflexivity|reflexivity].
Defined.

(** C6 as stated fails: the record of a driver without a url has the url
    [""]. *)
Lemma missing_url_becomes_empty_string :
  exists rec,
    drivers_of_response iso_to_datetime (envelope "DriverTable" "Drivers" [verstappen])
    = Ok [rec] /\
    contains "url" verstappen = Ok false /\
    dict_lookup "url" rec = Some (VStr "").
Proof. eexists. vm_compute. repeat split; reflexivity. Qed.

(** * Further properties of the collector *)

(** ** The request executor: what is sent, what is logged *)

Definition is_error_log (e : Event) : bool :=
  match e with EvLog ERROR => true | _ => false end.

Definition is_info_log (e : Event) : bool :=
  match e with EvLog INFO => true | _ => false end.

(** The events of the retry loop are attempts, all alike, and waits. *)
Lemma run_events policy url params timeout rs k retries failures evs res :
  Run policy url params timeout rs k retries failures evs res ->
  Forall (fun e => (exists reply, e = EvGet url params timeout reply)
                   \/ (exists seconds, e = EvBackoff seconds)) evs.
Proof.
  induction 1 as [| |k r f e evs res He Hrun IH].
  - constructor; [left; eauto|constructor].
  - constructor; [left; eauto|constructor].
  - constructor; [left; eauto|]. constructor; [right; eauto|exact IH].
Qed.

Lemma run_no_log policy url params timeout rs k retries failures evs res :
  Run policy url params timeout rs k retries failures evs res ->
  count is_error_log evs = 0%nat /\ count is_info_log evs = 0%nat.
Proof. induction 1; simpl; lia. Qed.

(** The query of a call: [limit = 1000] alone when the caller gave no dict,
    the caller's dict with its own [limit], or with the default one. *)
Definition query_of (params : option loc) (w : World) : Dict :=
  match params with
  | None => [("limit", JInt 1000)]
  | Some l => default [] (dict_setdefault "limit" (JInt 1000) <$> heap w !! l)
  end.

Lemma query_of_with_limit (params : option loc) (w : World) :
  default [] (heap (with_limit params w) !! query_ref params w) = query_of params w.
Proof.
  destruct params as [l|]; simpl.
  - by rewrite lookup_alter_eq.
  - by rewrite lookup_alter_eq, lookup_insert_eq.
Qed.

(** X1.  All the attempts of one call are the same request: a GET of
    [BASE_URL/endpoint.json] with a timeout of 30 and one query, in which
    [limit] is 1000 unless the caller's dict says otherwise. *)
Theorem every_attempt_same_request (self : ErgastCollector) (endpoint : string)
    (params : option loc) (w : World) :
  let run := _make_request self endpoint params w in
  let url := BASE_URL ++ "/" ++ endpoint ++ ".json" in
  exists (query : Dict) (evs : list Event),
    trace (snd run) = (trace w ++ evs)%list /\
    Forall (fun e => is_get e = true -> exists reply, e = EvGet url query 30 reply) evs /\
    (params = None -> query = [("limit", JInt 1000)]) /\
    (forall l d, params = Some l -> heap w !! l = Some d ->
       (forall v, dict_lookup "limit" d = Some v -> query = d) /\
       (dict_lookup "limit" d = None -> query = (d ++ [("limit", JInt 1000)])%list)).
Proof.
  intros run url.
  destruct (make_request_total self endpoint params w) as (evs & res & Hrun & Heq).
  rewrite query_of_with_limit in Hrun.
  exists (query_of params w), (evs ++ snd (conclude self res))%list.
  unfold run. rewrite Heq. simpl.
  split; [reflexivity|]. split; [|split].
  - apply Forall_app. split.
    + eapply Forall_impl; [exact (run_events _ _ _ _ _ _ _ _ _ _ Hrun)|].
      intros e [[reply ->]|[seconds ->]] Hget; [eauto|discriminate Hget].
    + destruct res as [[status body]|e]; simpl; [|repeat constructor; discriminate].
      destruct ((400 <=? status) && (status <? 600)); [repeat constructor; discriminate|].
      destruct (Qle_bool 0 (rate_limit self)); [|constructor].
      destruct body; repeat constructor; discriminate.
  - by intros ->.
  - intros l d -> Hd. simpl. rewrite Hd. simpl. rewrite dict_setdefault_spec.
    split; [by intros v ->|by intros ->].
Qed.

(** A caller's dict with a limit of its own: the request carries that
    limit. *)
Lemma every_attempt_same_request_witness :
  let w := mkWorld (server [unavailable; found JNull]) 2024
             {[ 0%nat := [("limit", JInt 30)] ]} [] in
  exists (query : Dict) (evs : list Event),
    trace (snd (_make_request (__init__ 1) "drivers" (Some 0%nat) w))
    = (trace w ++ evs)%list /\
    query = [("limit", JInt 30)].
Proof.
  intros w.
  destruct (every_attempt_same_request (__init__ 1) "drivers" (Some 0%nat) w)
    as (query & evs & Htrace & _ & _ & Hcaller).
  exists query, evs. split; [exact Htrace|].
  exact (proj1 (Hcaller 0%nat [("limit", JInt 30)] eq_refl eq_refl) (JInt 30) eq_refl).
Defined.

(** X2.  A client or server error that the session does not retry (a 404, a
    501) ends the call on the spot: one request, no sleep, one error record,
    and the [HTTPError] of that status. *)
Theorem error_status_fails_at_once (rate : Q) (endpoint : string) (params : option loc)
    (w : World) (status : Z) (body : option Json) :
  replies w (requests_sent w) = Response status body ->
  retryable status = false ->
  400 <= status < 600 ->
  let run := _make_request (__init__ rate) endpoint params w in
  fst run = Raise (RequestException (HTTPError status)) /\
  exists query,
    trace (snd run)
    = (trace w ++ [EvGet (BASE_URL ++ "/" ++ endpoint ++ ".json") query 30
                     (Response status body);
                   EvLog ERROR])%list.
Proof.
  intros Hreply Hretry Hstatus run.
  pose proof (make_request_run (__init__ rate) endpoint params w
                [EvGet (BASE_URL ++ "/" ++ endpoint ++ ".json")
                   (default [] (heap (with_limit params w) !! query_ref params w)) 30
                   (replies w (requests_sent w))]
                (Ok (status, body))) as Heq.
  simpl in Heq. unfold run. rewrite Heq.
  - assert (Herr : (400 <=? status) && (status <? 600) = true).
    { apply andb_true_iff. split; [apply Z.leb_le|apply Z.ltb_lt]; lia. }
    simpl. rewrite Herr. simpl. split; [reflexivity|].
    rewrite Hreply. eauto.
  - by apply run_answer.
Qed.

Lemma error_status_fails_at_once_witness :
  let w := fresh_world [Response 404 None; found JNull] in
  let run := _make_request (__init__ 1) "2020/99/results" None w in
  fst run = Raise (RequestException (HTTPError 404)) /\
  exists query,
    trace (snd run)
    = (trace w ++ [EvGet (BASE_URL ++ "/" ++ "2020/99/results" ++ ".json") query 30
                     (Response 404 None);
                   EvLog ERROR])%list.
Proof.
  intros w run.
  apply (error_status_fails_at_once 1 "2020/99/results" None w 404 None);
    [reflexivity|reflexivity|lia].
Defined.

(** The log records after the retry loop: an error record with every
    [RequestException], and with nothing else. *)
Lemma conclude_logs (self : ErgastCollector) (res : Result (Z * option Json)) :
  (forall e, res = Raise e -> is_request_exception e = true) ->
  count is_info_log (snd (conclude self res)) = 0%nat /\
  count is_error_log (snd (conclude self res))
  = match fst (conclude self res) with
    | Raise (RequestException _) => 1%nat
    | _ => 0%nat
    end.
Proof.
  intros Hexc. destruct res as [[status body]|e]; simpl.
  - destruct ((400 <=? status) && (status <? 600)); simpl; [done|].
    destruct (Qle_bool 0 (rate_limit self)); simpl; [|done].
    by destruct body.
  - specialize (Hexc e eq_refl). by destruct e.
Qed.

(** X3.  The request executor writes an error record exactly when it lets a
    [RequestException] through, and then only one; it never writes an info
    record.  The [ValueError] of a refused sleep passes without a record. *)
Theorem executor_logs_request_errors (self : ErgastCollector) (endpoint : string)
    (params : option loc) (w : World) :
  let run := _make_request self endpoint params w in
  exists evs : list Event,
    trace (snd run) = (trace w ++ evs)%list /\
    count is_info_log evs = 0%nat /\
    count is_error_log evs
    = match fst run with
      | Raise (RequestException _) => 1%nat
      | _ => 0%nat
      end.
Proof.
  intros run.
  destruct (make_request_total self endpoint params w) as (evs & res & Hrun & Heq).
  exists (evs ++ snd (conclude self res))%list.
  unfold run. rewrite Heq. simpl. split; [reflexivity|].
  destruct (run_no_log _ _ _ _ _ _ _ _ _ _ Hrun) as [Herror Hinfo].
  destruct (conclude_logs self res) as [Hinfo' Herror'].
  { intros e ->. exact (run_raises _ _ _ _ _ _ _ _ _ _ Hrun). }
  rewrite !count_app, Herror, Hinfo, Hinfo', Herror'. done.
Qed.

(** X4.  With a negative rate limit no call succeeds: a call that gets a
    successful response raises the [ValueError] of [time.sleep], after one
    request and without a log record. *)
Theorem negative_rate_limit_never_succeeds (self : ErgastCollector) (endpoint : string)
    (params : option loc) (w : World) :
  (rate_limit self < 0)%Q ->
  let run := _make_request self endpoint params w in
  (exists e, fst run = Raise e) /\
  (forall status body,
      replies w (requests_sent w) = Response status body ->
      failed (session self) (Response status body) = false ->
      fst run = Raise ValueError /\
      exists query,
        trace (snd run)
        = (trace w ++ [EvGet (BASE_URL ++ "/" ++ endpoint ++ ".json") query 30
                         (Response status body)])%list).
Proof.
  intros Hrate run.
  assert (Hneg : Qle_bool 0 (rate_limit self) = false).
  { destruct (Qle_bool 0 (rate_limit self)) eqn:H; [|done].
    apply Qle_bool_iff in H. exfalso. by apply (Qlt_not_le _ _ Hrate). }
  split.
  - destruct (make_request_total self endpoint params w) as (evs & res & _ & Heq).
    unfold run. rewrite Heq. simpl.
    destruct res as [[status body]|e]; simpl; [|eauto].
    destruct ((400 <=? status) && (status <? 600)); simpl; [eauto|].
    rewrite Hneg. eauto.
  - intros status body Hreply Hfailed. simpl in Hfailed.
    apply orb_false_iff in Hfailed. destruct Hfailed as [Hretry Herr].
    pose proof (make_request_run self endpoint params w
                  [EvGet (BASE_URL ++ "/" ++ endpoint ++ ".json")
                     (default [] (heap (with_limit params w) !! query_ref params w)) 30
                     (replies w (requests_sent w))]
                  (Ok (status, body))) as Heq.
    simpl in Heq. unfold run. rewrite Heq.
    + simpl. rewrite Herr, Hneg. simpl. split; [reflexivity|].
      rewrite Hreply. eauto.
    + by apply run_answer.
Qed.

Lemma negative_rate_limit_never_succeeds_witness :
  let w := fresh_world [found (JObj [])] in
  fst (_make_request (__init__ (-1)) "seasons" None w) = Raise ValueError.
Proof.
  intros w.
  destruct (negative_rate_limit_never_succeeds (__init__ (-1)) "seasons" None w)
    as [_ H].
  - reflexivity.
  - exact (proj1 (H 200 (Some (JObj [])) eq_refl eq_refl)).
Defined.

(** ** The facade: one request, one extraction, one log record *)

(** What a facade method makes of the outcome [run] of its request: the
    records that [extract] finds in the response, or the exception of the
    request or of the extraction as it is; and one more log record, an info
    on success and an error otherwise. *)
Definition after_request {A} (extract : Json -> Result A) (run : Result Json * World)
    : Result A * World :=
  let res := rbind (fst run) extract in
  (res, extend (snd run) [EvLog (match res with Ok _ => INFO | Raise _ => ERROR end)]).

Lemma facade_outcome {A} (request : M Json) (extract : Json -> Result A) (w : World) :
  try_except
    (let! response := request in
     let! records := lift (extract response) in
     logger_info ;;
     ret records)
    is_exception
    (fun e => logger_error ;; raise e) w
  = after_request extract (request w).
Proof.
  unfold after_request, try_except, bind, lift, logger_info, logger_error, emit, ret, raise,
    extend.
  destruct (request w) as [[response|e] w1]; simpl; [|done].
  by destruct (extract response).
Qed.

(** The URL of an endpoint. *)
Definition url_of (endpoint : string) : string := BASE_URL ++ "/" ++ endpoint ++ ".json".

(** Between [w] and [w'] the first thing that happened is a GET of [url] with
    the query [limit = 1000] and a timeout of 30. *)
Definition requests (url : string) (w w' : World) : Prop :=
  exists rest,
    trace w' = (trace w ++ EvGet url [("limit", JInt 1000)] 30 (replies w (requests_sent w))
                        :: rest)%list.

Lemma make_request_requests (self : ErgastCollector) (endpoint : string) (w : World) :
  requests (url_of endpoint) w (snd (_make_request self endpoint None w)).
Proof.
  destruct (make_request_total self endpoint None w) as (evs & res & Hrun & Heq).
  rewrite query_of_with_limit in Hrun.
  destruct (run_starts_with_get _ _ _ _ _ _ _ _ _ _ Hrun) as [rest ->].
  rewrite Heq. simpl. by eexists.
Qed.

Lemma after_request_requests {A} (extract : Json -> Result A) (url : string)
    (w : World) (run : Result Json * World) :
  requests url w (snd run) -> requests url w (snd (after_request extract run)).
Proof.
  intros [rest Hrest]. unfold after_request, requests. simpl. rewrite Hrest.
  eexists. by rewrite <- app_assoc.
Qed.

(** A call without a dict of the caller's works on a new dict: the dicts
    that were there keep their contents. *)
Lemma make_request_new_dict (self : ErgastCollector) (endpoint : string) (w : World)
    (l : loc) (d : Dict) :
  heap w !! l = Some d ->
  heap (snd (_make_request self endpoint None w)) !! l = Some d.
Proof.
  intros Hd.
  destruct (make_request_total self endpoint None w) as (evs & res & _ & Heq).
  rewrite Heq. simpl.
  assert (Hne : fresh (dom (heap w)) <> l).
  { intros <-. apply (is_fresh (dom (heap w))). apply elem_of_dom. eauto. }
  by rewrite lookup_alter_ne, lookup_insert_ne.
Qed.

Section Facade.

Context {Timestamp : Type} (to_datetime : Json -> Result Timestamp).

Lemma get_seasons_outcome self start_year end_year w :
  get_seasons self start_year end_year w
  = after_request (seasons_of_response start_year (default (year_now w) end_year))
      (_make_request self "seasons" None w).
Proof. unfold get_seasons. destruct end_year; apply facade_outcome. Qed.

Lemma get_races_outcome self season w :
  get_races to_datetime self season w
  = after_request (races_of_response to_datetime)
      (_make_request self (py_str season) None w).
Proof. apply facade_outcome. Qed.

Lemma get_results_outcome self season round_num w :
  get_results to_datetime self season round_num w
  = after_request (results_of_response to_datetime)
      (_make_request self (round_endpoint season round_num "results") None w).
Proof. apply facade_outcome. Qed.

Lemma get_qualifying_outcome self season round_num w :
  get_qualifying to_datetime self season round_num w
  = after_request (qualifying_of_response to_datetime)
      (_make_request self (round_endpoint season round_num "qualifying") None w).
Proof. apply facade_outcome. Qed.

Lemma get_drivers_outcome self season w :
  get_drivers to_datetime self season w
  = after_request (drivers_of_response to_datetime)
      (_make_request self (optional_endpoint season "drivers") None w).
Proof. apply facade_outcome. Qed.

Lemma get_constructors_outcome self season w :
  get_constructors (Timestamp := Timestamp) self season w
  = after_request constructors_of_response
      (_make_request self (optional_endpoint season "constructors") None w).
Proof. apply facade_outcome. Qed.

(** X5.  Each of the six facade methods makes one call of the request
    executor, on a dict of its own, and hands the response to its extractor.
    It returns the records of the extractor; an exception of the request or of
    the extractor goes to the caller as it is; and in each case the method
    writes one log record after the request, an info on success and an error
    otherwise. *)
Theorem facade_is_request_then_extract (self : ErgastCollector) (season : Json)
    (round_num : option Z) (start_year : Z) (end_year : option Z) (w : World) :
  get_seasons self start_year end_year w
  = after_request (seasons_of_response start_year (default (year_now w) end_year))
      (_make_request self "seasons" None w) /\
  get_races to_datetime self season w
  = after_request (races_of_response to_datetime)
      (_make_request self (py_str season) None w) /\
  get_results to_datetime self season round_num w
  = after_request (results_of_response to_datetime)
      (_make_request self (round_endpoint season round_num "results") None w) /\
  get_qualifying to_datetime self season round_num w
  = after_request (qualifying_of_response to_datetime)
      (_make_request self (round_endpoint season round_num "qualifying") None w) /\
  get_drivers to_datetime self season w
  = after_request (drivers_of_response to_datetime)
      (_make_request self (optional_endpoint season "drivers") None w) /\
  get_constructors (Timestamp := Timestamp) self season w
  = after_request constructors_of_response
      (_make_request self (optional_endpoint season "constructors") None w).
Proof.
  repeat split.
  - apply get_seasons_outcome.
  - apply get_races_outcome.
  - apply get_results_outcome.
  - apply get_qualifying_outcome.
  - apply get_drivers_outcome.
  - apply get_constructors_outcome.
Qed.

(** X6.  No facade method touches a dict that existed before the call. *)
Theorem facade_leaves_dicts_alone (self : ErgastCollector) (season : Json)
    (round_num : option Z) (start_year : Z) (end_year : option Z) (w : World)
    (l : loc) (d : Dict) :
  heap w !! l = Some d ->
  heap (snd (get_seasons self start_year end_year w)) !! l = Some d /\
  heap (snd (get_races to_datetime self season w)) !! l = Some d /\
  heap (snd (get_results to_datetime self season round_num w)) !! l = Some d /\
  heap (snd (get_qualifying to_datetime self season round_num w)) !! l = Some d /\
  heap (snd (get_drivers to_datetime self season w)) !! l = Some d /\
  heap (snd (get_constructors (Timestamp := Timestamp) self season w)) !! l = Some d.
Proof.
  intros Hd.
  rewrite get_seasons_outcome, get_races_outcome, get_results_outcome,
    get_qualifying_outcome, get_drivers_outcome, get_constructors_outcome.
  unfold after_request. simpl.
  repeat split; by apply make_request_new_dict.
Qed.

(** X7.  The first request of [get_seasons] goes to [seasons.json], that of
    [get_races] to [{season}.json], those of [get_drivers] and
    [get_constructors] to [{season}/drivers.json] and
    [{season}/constructors.json], or to [drivers.json] and
    [constructors.json] when the season is [None], 0 or the empty string;
    each with the query [limit = 1000] and a timeout of 30. *)
Theorem season_scoped_requests (self : ErgastCollector) (season : Json)
    (start_year : Z) (end_year : option Z) (w : World) :
  requests (url_of "seasons") w (snd (get_seasons self start_year end_year w)) /\
  requests (url_of (py_str season)) w (snd (get_races to_datetime self season w)) /\
  (truthy season = true ->
     requests (url_of (py_str season ++ "/drivers")) w
       (snd (get_drivers to_datetime self season w)) /\
     requests (url_of (py_str season ++ "/constructors")) w
       (snd (get_constructors (Timestamp := Timestamp) self season w))) /\
  (truthy season = false ->
     requests (url_of "drivers") w (snd (get_drivers to_datetime self season w)) /\
     requests (url_of "constructors") w
       (snd (get_constructors (Timestamp := Timestamp) self season w))).
Proof.
  rewrite get_seasons_outcome, get_races_outcome, get_drivers_outcome,
    get_constructors_outcome.
  unfold optional_endpoint.
  split; [apply after_request_requests, make_request_requests|].
  split; [apply after_request_requests, make_request_requests|].
  split; intros ->; split; apply after_request_requests, make_request_requests.
Qed.

(** X8.  With a round that is neither [None] nor 0, [get_results] and
    [get_qualifying] first request [{season}/{round}/results.json] and
    [{season}/{round}/qualifying.json]; with no round, and with the round 0,
    they request the whole season, [{season}/results.json] and
    [{season}/qualifying.json]. *)
Theorem round_scoped_requests (self : ErgastCollector) (season : Json)
    (round_num : option Z) (w : World) :
  (forall n, round_num = Some n -> n <> 0 ->
     requests (url_of (py_str season ++ "/" ++ str_of_int n ++ "/results")) w
       (snd (get_results to_datetime self season round_num w)) /\
     requests (url_of (py_str season ++ "/" ++ str_of_int n ++ "/qualifying")) w
       (snd (get_qualifying to_datetime self season round_num w))) /\
  (round_num = None \/ round_num = Some 0 ->
     requests (url_of (py_str season ++ "/results")) w
       (snd (get_results to_datetime self season round_num w)) /\
     requests (url_of (py_str season ++ "/qualifying")) w
       (snd (get_qualifying to_datetime self season round_num w))).
Proof.
  rewrite get_results_outcome, get_qualifying_outcome. unfold round_endpoint.
  split.
  - intros n -> Hn. simpl. apply Z.eqb_neq in Hn. rewrite Hn. simpl.
    split; apply after_request_requests, make_request_requests.
  - intros [-> | ->]; simpl;
      split; apply after_request_requests, make_request_requests.
Qed.

End Facade.

(** A dict of the caller's, untouched by a call of [get_drivers]. *)
Lemma facade_leaves_dicts_alone_witness :
  let w := mkWorld (server [found JNull]) 2024 {[ 0%nat := [("offset", JInt 30)] ]} [] in
  heap (snd (get_drivers iso_to_datetime (__init__ 1) (JInt 2020) w)) !! 0%nat
  = Some [("offset", JInt 30)].
Proof.
  intros w.
  destruct (facade_leaves_dicts_alone iso_to_datetime (__init__ 1) (JInt 2020) None 1950 None
              w 0%nat [("offset", JInt 30)] eq_refl) as (_ & _ & _ & _ & H & _).
  exact H.
Defined.

(** Round 5 of 2020, and round 0. *)
Lemma round_scoped_requests_witness :
  let w := fresh_world [found JNull] in
  requests (url_of "2020/5/results") w
    (snd (get_results iso_to_datetime (__init__ 1) (JInt 2020) (Some 5) w)) /\
  requests (url_of "2020/results") w
    (snd (get_results iso_to_datetime (__init__ 1) (JInt 2020) (Some 0) w)).
Proof.
  intros w. split.
  - destruct (round_scoped_requests iso_to_datetime (__init__ 1) (JInt 2020) (Some 5) w)
      as [H _].
    destruct (H 5 eq_refl) as [Hresults _]; [discriminate|]. exact Hresults.
  - destruct (round_scoped_requests iso_to_datetime (__init__ 1) (JInt 2020) (Some 0) w)
      as [_ H].
    destruct (H (or_intror eq_refl)) as [Hresults _]. exact Hresults.
Defined.

(** The drivers of all seasons, for the season 0. *)
Lemma season_scoped_requests_witness :
  let w := fresh_world [found JNull] in
  requests (url_of "drivers") w
    (snd (get_drivers iso_to_datetime (__init__ 1) (JInt 0) w)).
Proof.
  intros w.
  destruct (season_scoped_requests iso_to_datetime (__init__ 1) (JInt 0) 1950 None w)
    as (_ & _ & _ & H).
  exact (proj1 (H eq_refl)).
Defined.

(** ** The extractors: malformed responses *)

(** The JSON value [x] is an object without the key [k]. *)
Definition lacks_key (k : string) (x : Json) : Prop :=
  exists fields, x = JObj fields /\ dict_lookup k fields = None.

Lemma path_app (x : Json) (keys keys' : list string) :
  path x (keys ++ keys')%list = let* y := path x keys in path y keys'.
Proof.
  revert x. induction keys as [|k keys IH]; intros x; simpl; [done|].
  destruct (subscript x k) as [y|e]; simpl; [apply IH|done].
Qed.

Lemma path_missing_key (x inner : Json) (prefix rest : list string) (k : string) :
  path x prefix = Ok inner -> lacks_key k inner ->
  path x (prefix ++ k :: rest)%list = Raise (KeyError k).
Proof.
  intros Hprefix (fields & -> & Hk). rewrite path_app, Hprefix. simpl. by rewrite Hk.
Qed.

(** [rmap] stops at the first item that raises. *)
Lemma rmap_first_error {A B} (f : A -> Result B) (before after : list A) (x : A) (e : PyExc) :
  Forall (fun y => exists z, f y = Ok z) before ->
  f x = Raise e ->
  rmap f (before ++ x :: after) = Raise e.
Proof.
  intros Hbefore Hx. induction Hbefore as [|y before [z Hy] _ IH]; simpl.
  - by rewrite Hx.
  - by rewrite Hy, IH.
Qed.

(** The items of the list at [keys] in a response: the list that the
    extractor walks through. *)
Definition items_at (keys : list string) (response : Json) : list Json :=
  match (let* data := path response keys in iterate data) with
  | Ok items => items
  | Raise _ => []
  end.

Section Malformed.

Context {Timestamp : Type} (to_datetime : Json -> Result Timestamp).

(** X9.  A response in which a container on the way to the list is missing
    makes the extractor raise the [KeyError] of the missing key: [MRData],
    the table of the resource, or its list. *)
Theorem missing_container_raises_key_error (response inner : Json)
    (prefix rest : list string) (k : string) :
  path response prefix = Ok inner ->
  lacks_key k inner ->
  ((prefix ++ k :: rest)%list = ["MRData"; "SeasonTable"; "Seasons"] ->
     forall start_year end_year,
       seasons_of_response start_year end_year response = Raise (KeyError k)) /\
  ((prefix ++ k :: rest)%list = ["MRData"; "RaceTable"; "Races"] ->
     races_of_response to_datetime response = Raise (KeyError k) /\
     results_of_response to_datetime response = Raise (KeyError k) /\
     qualifying_of_response to_datetime response = Raise (KeyError k)) /\
  ((prefix ++ k :: rest)%list = ["MRData"; "DriverTable"; "Drivers"] ->
     drivers_of_response to_datetime response = Raise (KeyError k)) /\
  ((prefix ++ k :: rest)%list = ["MRData"; "ConstructorTable"; "Constructors"] ->
     constructors_of_response (Timestamp := Timestamp) response = Raise (KeyError k)).
Proof.
  intros Hprefix Hk.
  pose proof (path_missing_key response inner prefix rest k Hprefix Hk) as Hpath.
  unfold seasons_of_response, races_of_response, results_of_response,
    qualifying_of_response, drivers_of_response, constructors_of_response.
  split; [|split; [|split]].
  - intros Hkeys start_year end_year. rewrite Hkeys in Hpath. by rewrite Hpath.
  - intros Hkeys. rewrite Hkeys in Hpath. by rewrite Hpath.
  - intros Hkeys. rewrite Hkeys in Hpath. by rewrite Hpath.
  - intros Hkeys. rewrite Hkeys in Hpath. by rewrite Hpath.
Qed.

(** X10.  The extractors return all the records or none: the first item of
    the list that cannot be converted makes the whole extraction raise what
    the item raises.  For results and qualifying the items are the race
    blocks, each converted with all its entries. *)
Theorem first_bad_item_fails_all (response : Json) (before after : list Json)
    (item : Json) (e : PyExc) :
  (items_at ["MRData"; "DriverTable"; "Drivers"] response = (before ++ item :: after)%list ->
   Forall (fun x => exists rec, driver_record to_datetime x = Ok rec) before ->
   driver_record to_datetime item = Raise e ->
   drivers_of_response to_datetime response = Raise e) /\
  (items_at ["MRData"; "ConstructorTable"; "Constructors"] response
   = (before ++ item :: after)%list ->
   Forall (fun x => exists rec, constructor_record (Timestamp := Timestamp) x = Ok rec)
     before ->
   constructor_record (Timestamp := Timestamp) item = Raise e ->
   constructors_of_response (Timestamp := Timestamp) response = Raise e) /\
  (items_at ["MRData"; "RaceTable"; "Races"] response = (before ++ item :: after)%list ->
   (Forall (fun x => exists rec, race_record to_datetime x = Ok rec) before ->
    race_record to_datetime item = Raise e ->
    races_of_response to_datetime response = Raise e) /\
   (Forall (fun x => exists recs, race_results to_datetime x = Ok recs) before ->
    race_results to_datetime item = Raise e ->
    results_of_response to_datetime response = Raise e) /\
   (Forall (fun x => exists recs, race_qualifying to_datetime x = Ok recs) before ->
    race_qualifying to_datetime item = Raise e ->
    qualifying_of_response to_datetime response = Raise e)).
Proof.
  assert (Hitems : forall keys,
    items_at keys response = (before ++ item :: after)%list ->
    exists data, path response keys = Ok data
                 /\ iterate data = Ok (before ++ item :: after)%list).
  { intros keys. unfold items_at.
    destruct (path response keys) as [data|]; simpl.
    - destruct (iterate data) as [items|] eqn:Hiter; simpl.
      + intros ->. eauto.
      + intros H. by destruct before.
    - intros H. by destruct before. }
  assert (Hfails : forall {B} keys (f : Json -> Result B),
    items_at keys response = (before ++ item :: after)%list ->
    Forall (fun x => exists y, f x = Ok y) before ->
    f item = Raise e ->
    (let* data := path response keys in
     let* items := iterate data in
     rmap f items) = Raise e).
  { intros B keys f Hlist Hbefore Hitem.
    destruct (Hitems _ Hlist) as (data & Hpath & Hiter).
    rewrite Hpath. simpl. rewrite Hiter. simpl.
    by apply rmap_first_error. }
  unfold drivers_of_response, constructors_of_response, races_of_response,
    results_of_response, qualifying_of_response.
  split; [by apply Hfails|]. split; [by apply Hfails|].
  intros Hlist. split; [by apply Hfails|].
  split; intros Hbefore Hitem;
    destruct (Hitems _ Hlist) as (data & Hpath & Hiter);
    rewrite Hpath; simpl; rewrite Hiter; simpl;
    by rewrite (rmap_first_error _ _ _ _ _ Hbefore Hitem).
Qed.

End Malformed.

(** A response whose [MRData] has no [RaceTable]. *)
Lemma missing_container_raises_key_error_witness :
  results_of_response iso_to_datetime (JObj [("MRData", JObj [("xmlns", JStr "")])])
  = Raise (KeyError "RaceTable").
Proof.
  destruct (missing_container_raises_key_error iso_to_datetime
              (JObj [("MRData", JObj [("xmlns", JStr "")])])
              (JObj [("xmlns", JStr "")]) ["MRData"] ["Races"] "RaceTable" eq_refl)
    as (_ & H & _).
  - eexists. split; reflexivity.
  - exact (proj1 (proj2 (H eq_refl))).
Defined.

(** Two drivers, the second without a [driverId]: no record at all. *)
Lemma first_bad_item_fails_all_witness :
  drivers_of_response iso_to_datetime
    (envelope "DriverTable" "Drivers" [verstappen; JObj [("givenName", JStr "Lewis")]])
  = Raise (KeyError "driverId").
Proof.
  destruct (first_bad_item_fails_all iso_to_datetime
              (envelope "DriverTable" "Drivers"
                 [verstappen; JObj [("givenName", JStr "Lewis")]])
              [verstappen] [] (JObj [("givenName", JStr "Lewis")]) (KeyError "driverId"))
    as (H & _).
  apply H; [reflexivity| |reflexivity].
  constructor; [|constructor]. eexists. reflexivity.
Defined.

(** ** The extractors: what goes into a record *)

(** The columns of a record, in the order in which they were set. *)
Definition keys {V} (rec : list (string * V)) : list string := List.map fst rec.

Section Fields.

Context {Timestamp : Type} (to_datetime : Json -> Result Timestamp).

Abbreviation Row := (list (string * Value Timestamp)).

(** *** Drivers *)

Definition driver_fields (driver : Json) (rec : Row) : Prop :=
  exists id given family nationality,
    subscript driver "driverId" = Ok id /\
    subscript driver "givenName" = Ok given /\
    subscript driver "familyName" = Ok family /\
    subscript driver "nationality" = Ok nationality /\
    dict_lookup "driver_id" rec = Some (VJson id) /\
    dict_lookup "given_name" rec = Some (VJson given) /\
    dict_lookup "family_name" rec = Some (VJson family) /\
    dict_lookup "driver_name" rec = Some (VStr (py_str given ++ " " ++ py_str family)) /\
    dict_lookup "nationality" rec = Some (VJson nationality) /\
    (forall birth, subscript driver "dateOfBirth" = Ok birth ->
       exists t, to_datetime birth = Ok t /\
                 dict_lookup "date_of_birth" rec = Some (VTime t)) /\
    (contains "dateOfBirth" driver = Ok false ->
       dict_lookup "date_of_birth" rec = None) /\
    contains "dateOfBirth" driver = Ok (dict_mem "date_of_birth" rec) /\
    keys rec
    = (["driver_id"; "given_name"; "family_name"; "driver_name"; "nationality"; "url"]
       ++ match subscript driver "dateOfBirth" with
          | Ok _ => ["date_of_birth"]
          | Raise _ => []
          end)%list.

Lemma driver_record_fields (driver : Json) (rec : Row) :
  driver_record to_datetime driver = Ok rec -> driver_fields driver rec.
Proof.
  unfold driver_record, driver_fields, full_name. intros H. open_all; one_read.
  all: eexists _, _, _, _; repeat split; try eassumption; try reflexivity.
  all: try (intros birth Hbirth;
            first [ apply subscript_contains in Hbirth; congruence
                  | rewrite Hbirth in *; open_all; by eauto ]).
  all: try (intros Hnone; congruence).
  all: destruct (subscript driver "dateOfBirth") as [birth|] eqn:Hbirth;
         try reflexivity; try discriminate;
         apply subscript_contains in Hbirth; congruence.
Qed.

(** X11.  When the drivers extractor returns, it returns one record per
    driver of the response, in the order of the response.  The record has the
    driver's id, given name, family name and nationality as they stand, the
    given name, a space and the family name as [driver_name], and a date of
    birth exactly when the driver has one, read by [to_datetime]; its columns
    are these and [url], the date of birth last, and no other. *)
Theorem drivers_one_record_per_driver (response : Json) (records : list Row) :
  drivers_of_response to_datetime response = Ok records ->
  length records = length (items_at ["MRData"; "DriverTable"; "Drivers"] response) /\
  Forall2 driver_fields (items_at ["MRData"; "DriverTable"; "Drivers"] response) records.
Proof.
  unfold drivers_of_response. intros H. open_all.
  assert (Hitems : items_at ["MRData"; "DriverTable"; "Drivers"] response = v0).
  { unfold items_at. rewrite E. simpl. by rewrite E0. }
  rewrite Hitems. split; [by eapply rmap_length|].
  apply rmap_ok in H. eapply Forall2_impl; [exact H|].
  intros driver rec. apply driver_record_fields.
Qed.

(** *** Constructors *)

Definition constructor_fields (constructor : Json) (rec : Row) : Prop :=
  exists id name nationality,
    subscript constructor "constructorId" = Ok id /\
    subscript constructor "name" = Ok name /\
    subscript constructor "nationality" = Ok nationality /\
    dict_lookup "constructor_id" rec = Some (VJson id) /\
    dict_lookup "constructor_name" rec = Some (VJson name) /\
    dict_lookup "nationality" rec = Some (VJson nationality) /\
    keys rec = ["constructor_id"; "constructor_name"; "nationality"; "url"].

(** X12.  When the constructors extractor returns, it returns one record per
    constructor of the response, in the order of the response, with the
    constructor's id and nationality, its [name] as [constructor_name], its
    [url], and no other column. *)
Theorem constructors_one_record_per_constructor (response : Json) (records : list Row) :
  constructors_of_response response = Ok records ->
  length records
  = length (items_at ["MRData"; "ConstructorTable"; "Constructors"] response) /\
  Forall2 constructor_fields
    (items_at ["MRData"; "ConstructorTable"; "Constructors"] response) records.
Proof.
  unfold constructors_of_response. intros H. open_all.
  assert (Hitems :
    items_at ["MRData"; "ConstructorTable"; "Constructors"] response = v0).
  { unfold items_at. rewrite E. simpl. by rewrite E0. }
  rewrite Hitems. split; [by eapply rmap_length|].
  apply rmap_ok in H. eapply Forall2_impl; [exact H|].
  intros constructor rec Hrec. unfold constructor_record, constructor_fields in *.
  open_all. eexists _, _, _. repeat split; try eassumption; reflexivity.
Qed.

(** *** Races *)




End Fields.

(** The record of a driver with a date of birth. *)
Lemma drivers_one_record_per_driver_witness :
  let response := envelope "DriverTable" "Drivers" [hamilton; verstappen] in
  let records := records_of (drivers_of_response iso_to_datetime response) in
  length records = 2%nat /\
  Forall2 (driver_fields iso_to_datetime)
    (items_at ["MRData"; "DriverTable"; "Drivers"] response) records.
Proof.
  intros response records. split; [reflexivity|].
  apply (drivers_one_record_per_driver iso_to_datetime response records).
  vm_compute. reflexivity.
Defined.

Lemma constructors_one_record_per_constructor_witness :
  let response := envelope "ConstructorTable" "Constructors" [mercedes; red_bull] in
  let records :=
    records_of (constructors_of_response (Timestamp := Z * Z * Z) response) in
  length records = 2%nat /\
  Forall2 constructor_fields
    (items_at ["MRData"; "ConstructorTable"; "Constructors"] response) records.
Proof.
  intros response records. split; [reflexivity|].
  apply (constructors_one_record_per_constructor response records).
  vm_compute. reflexivity.
Defined.


(** *** Qualifying and results *)

(** The qualifying entries of a race block. *)
Definition qualifying_items (race : Json) : list Json :=
  match (let* qs := subscript race "QualifyingResults" in iterate qs) with
  | Ok items => items
  | Raise _ => []
  end.

Lemma path_cons (x : Json) (k : string) (ks : list string) :
  path x (k :: ks) = let* y := subscript x k in path y ks.
Proof. reflexivity. Qed.

(** Settles an optional read of the statement from what the chain saw:
    the value it read, or the key it did not find. *)
Ltac optional_read :=
  repeat match goal with
    | H : path ?x ?ks = Ok _ |- context [path ?x ?ks] => rewrite H
    | H : subscript ?x ?k = Ok _ |- context [subscript ?x ?k] => rewrite H; cbn [rbind]
    | |- context [path ?x (?k :: ?ks)] => rewrite (path_cons x k ks)
    | H : contains ?k ?x = Ok _ |- context [subscript ?x ?k] =>
        let Hs := fresh "Hs" in
        destruct (subscript x k) eqn:Hs;
        [apply subscript_contains in Hs; congruence|cbn [rbind]]
    end.

Section Entries.

Context {Timestamp : Type} (to_datetime : Json -> Result Timestamp).

Abbreviation Row := (list (string * Value Timestamp)).

Definition qualifying_fields (race qual : Json) (rec : Row) : Prop :=
  copies_race race rec /\
  exists p position driver_id given family constructor_id constructor_name,
    subscript qual "position" = Ok p /\ py_int p = Ok position /\
    path qual ["Driver"; "driverId"] = Ok driver_id /\
    path qual ["Driver"; "givenName"] = Ok given /\
    path qual ["Driver"; "familyName"] = Ok family /\
    path qual ["Constructor"; "constructorId"] = Ok constructor_id /\
    path qual ["Constructor"; "name"] = Ok constructor_name /\
    dict_lookup "position" rec = Some (VInt position) /\
    dict_lookup "driver_id" rec = Some (VJson driver_id) /\
    dict_lookup "driver_name" rec = Some (VStr (py_str given ++ " " ++ py_str family)) /\
    dict_lookup "constructor_id" rec = Some (VJson constructor_id) /\
    dict_lookup "constructor_name" rec = Some (VJson constructor_name) /\
    dict_lookup "q1_time" rec
    = match subscript qual "Q1" with Ok t => Some (VJson t) | Raise _ => None end /\
    dict_lookup "q2_time" rec
    = match subscript qual "Q2" with Ok t => Some (VJson t) | Raise _ => None end /\
    dict_lookup "q3_time" rec
    = match subscript qual "Q3" with Ok t => Some (VJson t) | Raise _ => None end /\
    keys rec
    = (["season"; "round"; "race_name"; "circuit_id"; "date"; "position"; "driver_id";
        "driver_name"; "constructor_id"; "constructor_name"]
       ++ List.filter (fun k => dict_mem k rec) ["q1_time"; "q2_time"; "q3_time"])%list.

Lemma qualifying_record_fields (race : Json) (race_info : Row) (qual : Json) (rec : Row) :
  race_context to_datetime race = Ok race_info ->
  qualifying_record race_info qual = Ok rec ->
  qualifying_fields race qual rec.
Proof.
  unfold race_context, qualifying_record, session_times, qualifying_fields, copies_race,
    full_name.
  intros Hctx Hrec. open_all.
  all: split;
    [eexists _, _, _, _, _; repeat split; try eassumption; reflexivity|].
  all: eexists _, _, _, _, _, _, _; repeat split; try eassumption; try reflexivity.
  all: optional_read; reflexivity.
Qed.

Lemma race_qualifying_items (race : Json) (recs : list Row) :
  race_qualifying to_datetime race = Ok recs ->
  Forall2 (qualifying_fields race) (qualifying_items race) recs.
Proof.
  unfold race_qualifying, qualifying_items. intros H. open_record H.
  rewrite E0. simpl. rewrite E1. apply rmap_ok in H.
  eapply Forall2_impl; [exact H|]. intros qual rec. by apply qualifying_record_fields.
Qed.

(** X14.  When the qualifying extractor returns, it returns the records of
    the race blocks one block after the other, one record per qualifying
    entry of the block and in the order of the entries.  The record has the
    season, the round and the race name of its block, the position that [int]
    reads, the ids and names of the driver and of the constructor, a session
    time for each of Q1, Q2 and Q3 that the entry has and for no other, and
    its columns in this order: the race context, the five columns of the
    entry, the session times. *)
Theorem qualifying_one_record_per_entry (response : Json) (records : list Row) :
  qualifying_of_response to_datetime response = Ok records ->
  length records
  = sum_list (List.map (fun race => length (qualifying_items race))
                (race_blocks response)) /\
  exists per_race : list (list Row),
    records = concat per_race /\
    Forall2 (fun race recs =>
               Forall2 (qualifying_fields race) (qualifying_items race) recs)
      (race_blocks response) per_race.
Proof.
  unfold qualifying_of_response. intros H. open_all.
  assert (Hblocks : race_blocks response = v0).
  { unfold race_blocks. rewrite E. simpl. by rewrite E0. }
  rewrite Hblocks. apply rmap_ok in E1.
  assert (Hper : Forall2 (fun race recs =>
                   Forall2 (qualifying_fields race) (qualifying_items race) recs) v0 v1).
  { eapply Forall2_impl; [exact E1|]. intros race recs. apply race_qualifying_items. }
  split; [|by exists v1].
  apply concat_length_sum. eapply Forall2_impl; [exact Hper|].
  intros race recs Hrecs. simpl in Hrecs. symmetry. eapply Forall2_length, Hrecs.
Qed.

Definition result_fields (result : Json) (rec : Row) : Prop :=
  exists driver_id given family constructor_id constructor_name l laps status,
    path result ["Driver"; "driverId"] = Ok driver_id /\
    path result ["Driver"; "givenName"] = Ok given /\
    path result ["Driver"; "familyName"] = Ok family /\
    path result ["Constructor"; "constructorId"] = Ok constructor_id /\
    path result ["Constructor"; "name"] = Ok constructor_name /\
    subscript result "laps" = Ok l /\ py_int l = Ok laps /\
    subscript result "status" = Ok status /\
    dict_lookup "driver_id" rec = Some (VJson driver_id) /\
    dict_lookup "driver_name" rec = Some (VStr (py_str given ++ " " ++ py_str family)) /\
    dict_lookup "constructor_id" rec = Some (VJson constructor_id) /\
    dict_lookup "constructor_name" rec = Some (VJson constructor_name) /\
    dict_lookup "laps" rec = Some (VInt laps) /\
    dict_lookup "status" rec = Some (VJson status) /\
    dict_lookup "race_time" rec
    = match path result ["Time"; "time"] with
      | Ok t => Some (VJson t)
      | Raise _ => None
      end /\
    dict_lookup "fastest_lap_time" rec
    = match path result ["FastestLap"; "Time"; "time"] with
      | Ok t => Some (VJson t)
      | Raise _ => None
      end /\
    contains "FastestLap" result = Ok (dict_mem "fastest_lap_rank" rec) /\
    keys rec
    = (["season"; "round"; "race_name"; "circuit_id"; "date"; "position"; "driver_id";
        "driver_name"; "constructor_id"; "constructor_name"; "grid"; "laps"; "status";
        "points"]
       ++ List.filter (fun k => dict_mem k rec)
            ["race_time"; "fastest_lap_rank"; "fastest_lap_time"])%list.

Lemma result_record_fields (race : Json) (race_info : Row) (result : Json) (rec : Row) :
  race_context to_datetime race = Ok race_info ->
  result_record race_info result = Ok rec ->
  result_fields result rec.
Proof.
  unfold race_context, result_record, result_fields, full_name.
  intros Hctx Hrec. open_all.
  all: eexists _, _, _, _, _, _, _, _; repeat split; try eassumption; try reflexivity.
  all: optional_read; try reflexivity.
Qed.

(** X15.  When the results extractor returns, the record of a result item
    has the ids and names of the driver and of the constructor, the laps that
    [int] reads and the status as it stands; it has a race time exactly when
    the item has a [Time] with a [time], a fastest-lap rank exactly when the
    item has a [FastestLap], and a fastest-lap time exactly when that has a
    [Time] with a [time]; and its columns come in this order: the race
    context, the nine columns of the item, then those three. *)
Theorem results_fields_of_item (response : Json) (records : list Row) :
  results_of_response to_datetime response = Ok records ->
  exists per_race : list (list Row),
    records = concat per_race /\
    Forall2 (fun race recs => Forall2 result_fields (result_items race) recs)
      (race_blocks response) per_race.
Proof.
  unfold results_of_response. intros H. open_all.
  assert (Hblocks : race_blocks response = v0).
  { unfold race_blocks. rewrite E. simpl. by rewrite E0. }
  rewrite Hblocks. apply rmap_ok in E1. exists v1. split; [done|].
  eapply Forall2_impl; [exact E1|]. intros race recs Hrace. simpl in Hrace.
  apply race_results_items in Hrace. destruct Hrace as (race_info & Hctx & Hitems).
  eapply Forall2_impl; [exact Hitems|]. intros item rec Hrec. exact (result_record_fields race race_info item rec Hctx Hrec).
Qed.

End Entries.

(** Two qualifying entries of one race: the first went through Q1 and Q2. *)
Lemma qualifying_one_record_per_entry_witness :
  let response :=
    envelope "RaceTable" "Races"
      [race "2020" "1" "Austrian Grand Prix" "2020-07-05" "QualifyingResults"
         [qualifying "1" bottas mercedes
            [("Q1", JStr "1:04.111"); ("Q2", JStr "1:03.015")];
          qualifying "2" verstappen red_bull []]] in
  let records := records_of (qualifying_of_response iso_to_datetime response) in
  List.map keys records
  = [["season"; "round"; "race_name"; "circuit_id"; "date"; "position"; "driver_id";
      "driver_name"; "constructor_id"; "constructor_name"; "q1_time"; "q2_time"];
     ["season"; "round"; "race_name"; "circuit_id"; "date"; "position"; "driver_id";
      "driver_name"; "constructor_id"; "constructor_name"]] /\
  exists per_race : list (list (list (string * Value (Z * Z * Z)))),
    records = concat per_race /\
    Forall2 (fun race recs =>
               Forall2 (qualifying_fields race) (qualifying_items race) recs)
      (race_blocks response) per_race.
Proof.
  intros response records. split; [reflexivity|].
  apply (qualifying_one_record_per_entry iso_to_datetime response records).
  vm_compute. reflexivity.
Defined.

Lemma results_fields_of_item_witness :
  let records := records_of (results_of_response iso_to_datetime results_response) in
  length records = 3%nat /\
  exists per_race : list (list (list (string * Value (Z * Z * Z)))),
    records = concat per_race /\
    Forall2 (fun race recs => Forall2 result_fields (result_items race) recs)
      (race_blocks results_response) per_race.
Proof.
  intros records. split; [reflexivity|].
  apply (results_fields_of_item iso_to_datetime results_response records).
  vm_compute. reflexivity.
Defined.

(** ** The facade: log records *)

(** The log records of a facade call that started in [w], made the request
    with the outcome [request] and ended as [run]: one info record and no
    error record on success; no info record on failure, and one error record,
    or two when it is the request that failed with a [RequestException],
    which the request executor has logged already. *)
Definition log_records {A} (w : World) (request : Result Json) (run : Result A * World)
    : Prop :=
  exists evs : list Event,
    trace (snd run) = (trace w ++ evs)%list /\
    count is_info_log evs = match fst run with Ok _ => 1%nat | Raise _ => 0%nat end /\
    count is_error_log evs
    = match fst run, request with
      | Ok _, _ => 0%nat
      | Raise _, Raise (RequestException _) => 2%nat
      | Raise _, _ => 1%nat
      end.

Lemma after_request_logs {A} (extract : Json -> Result A) (self : ErgastCollector)
    (endpoint : string) (w : World) :
  log_records w (fst (_make_request self endpoint None w))
    (after_request extract (_make_request self endpoint None w)).
Proof.
  destruct (make_request_total self endpoint None w) as (evs & res & Hrun & Heq).
  destruct (run_no_log _ _ _ _ _ _ _ _ _ _ Hrun) as [Herror Hinfo].
  destruct (conclude_logs self res) as [Hinfo' Herror'].
  { intros e ->. exact (run_raises _ _ _ _ _ _ _ _ _ _ Hrun). }
  unfold log_records, after_request. rewrite Heq. simpl.
  exists ((evs ++ snd (conclude self res))
          ++ [EvLog (match rbind (fst (conclude self res)) extract with
                     | Ok _ => INFO
                     | Raise _ => ERROR
                     end)])%list.
  rewrite <- !app_assoc. split; [reflexivity|].
  rewrite !count_app, Hinfo, Herror, Hinfo', Herror'.
  destruct (fst (conclude self res)) as [response|e]; simpl.
  - by destruct (extract response).
  - by destruct e.
Qed.

Section Logs.

Context {Timestamp : Type} (to_datetime : Json -> Result Timestamp).

(** X16.  A facade call that returns has written one info record and no
    error record.  A call that raises has written no info record and one
    error record, or two when its request failed with a [RequestException]:
    one in the request executor and one in the facade method. *)
Theorem facade_log_records (self : ErgastCollector) (season : Json)
    (round_num : option Z) (start_year : Z) (end_year : option Z) (w : World) :
  log_records w (fst (_make_request self "seasons" None w))
    (get_seasons self start_year end_year w) /\
  log_records w (fst (_make_request self (py_str season) None w))
    (get_races to_datetime self season w) /\
  log_records w (fst (_make_request self (round_endpoint season round_num "results") None w))
    (get_results to_datetime self season round_num w) /\
  log_records w
    (fst (_make_request self (round_endpoint season round_num "qualifying") None w))
    (get_qualifying to_datetime self season round_num w) /\
  log_records w (fst (_make_request self (optional_endpoint season "drivers") None w))
    (get_drivers to_datetime self season w) /\
  log_records w (fst (_make_request self (optional_endpoint season "constructors") None w))
    (get_constructors (Timestamp := Timestamp) self season w).
Proof.
  rewrite get_seasons_outcome, (get_races_outcome to_datetime),
    (get_results_outcome to_datetime), (get_qualifying_outcome to_datetime),
    (get_drivers_outcome to_datetime), get_constructors_outcome.
  repeat split; apply after_request_logs.
Qed.

End Logs.

(** ** Seasons: an entry without a readable year *)

(** [int(season["season"])], as the comprehension of [get_seasons] reads the
    year of an entry. *)
Definition year_of (season : Json) : Result Z :=
  let* s := subscript season "season" in py_int s.

Lemma seasons_in_range_first_error (start_year end_year : Z) (before after : list Json)
    (item : Json) (e : PyExc) :
  Forall (fun season => exists y, year_of season = Ok y) before ->
  year_of item = Raise e ->
  seasons_in_range start_year end_year (before ++ item :: after) = Raise e.
Proof.
  unfold year_of. intros Hbefore Hitem.
  induction Hbefore as [|season before [y Hy] _ IH]; simpl.
  - destruct (subscript item "season") as [s|]; simpl in *; [|congruence].
    by rewrite Hitem.
  - destruct (subscript season "season") as [s|]; simpl in *; [|done].
    rewrite Hy. simpl. rewrite IH. by destruct ((start_year <=? y) && (y <=? end_year)).
Qed.

(** X17.  The seasons extractor reads the year of every entry before it
    filters: an entry without a [season], or with one that [int] does not
    read, makes the whole call raise that exception, whatever the range asked
    for, when the entries before it are readable. *)
Theorem unreadable_season_fails_all (response : Json) (before after : list Json)
    (item : Json) (e : PyExc) (start_year end_year : Z) :
  items_at ["MRData"; "SeasonTable"; "Seasons"] response = (before ++ item :: after)%list ->
  Forall (fun season => exists y, year_of season = Ok y) before ->
  year_of item = Raise e ->
  seasons_of_response start_year end_year response = Raise e.
Proof.
  unfold items_at, seasons_of_response. intros Hitems Hbefore Hitem.
  destruct (path response ["MRData"; "SeasonTable"; "Seasons"]) as [data|]; simpl in *;
    [|by destruct before].
  destruct (iterate data) as [items|]; simpl in *; [|by destruct before].
  subst items. by rewrite (seasons_in_range_first_error _ _ _ _ _ e Hbefore Hitem).
Qed.

(** The second entry has a year that is no number; the range leaves out even
    the first. *)
Lemma unreadable_season_fails_all_witness :
  seasons_of_response 2000 2010
    (envelope "SeasonTable" "Seasons"
       [JObj [("season", JStr "1950")]; JObj [("season", JStr "MCMLI")];
        JObj [("season", JStr "2005")]])
  = Raise ValueError.
Proof.
  apply (unreadable_season_fails_all _ [JObj [("season", JStr "1950")]]
           [JObj [("season", JStr "2005")]] (JObj [("season", JStr "MCMLI")])
           ValueError 2000 2010).
  - reflexivity.
  - repeat constructor. by exists 1950.
  - reflexivity.
Defined.
